(** * License_Mon: the polling and alerting core of app.py

    A shallow embedding of the Aruba license monitor (app.py, with the
    device client it shares with aruba_license_monitor.py): the device
    session client, the notification manager, the alert checker, the
    polling worker's loop body and the request handlers that configure
    or use them, with the properties of the specification stated over
    them. *)

From Stdlib Require Import ZArith List String Ascii Bool Lia.
Import ListNotations.
Open Scope Z_scope.
#[local] Set Warnings "-register-all".

(** ** Python values and exceptions *)

Module Py.

(** The exception classes the modelled code can meet. *)
Inductive exn :=
| ValueError | TypeError | AttributeError | KeyError | IndexError
| OverflowError | RequestException | OSError.

Inductive res (A : Type) :=
| Ok (a : A)
| Raise (e : exn).
Arguments Ok {A} a.
Arguments Raise {A} e.

Definition bind {A B} (m : res A) (k : A -> res B) : res B :=
  match m with
  | Ok a => k a
  | Raise e => Raise e
  end.

(** Values as [json.load], [request.json] and [response.json()] build
    them.  [VFloat m e] is the finite double [m * 2^e]; a string is a
    sequence of characters with code points below 256, a character
    being its code point.  A dict is the list of its items in
    insertion order; a lookup takes the first item with an equal key,
    and a Python dict holds at most one. *)
Inductive value :=
| VNone
| VBool (b : bool)
| VInt (z : Z)
| VFloat (m e : Z)
| VStr (s : string)
| VList (l : list value)
| VDict (d : list (value * value)).

Definition dict := list (value * value).

Definition b2z (b : bool) : Z := if b then 1 else 0.

(** bool(v) *)
Definition truthy (v : value) : bool :=
  match v with
  | VNone => false
  | VBool b => b
  | VInt z => negb (z =? 0)
  | VFloat m _ => negb (m =? 0)
  | VStr s => negb (s =? "")%string
  | VList l => match l with [] => false | _ => true end
  | VDict d => match d with [] => false | _ => true end
  end.

(** A number as mantissa and binary exponent; bool is a subclass of int. *)
Definition num_of (v : value) : option (Z * Z) :=
  match v with
  | VBool b => Some (b2z b, 0)
  | VInt z => Some (z, 0)
  | VFloat m e => Some (m, e)
  | _ => None
  end.

(** Exact comparison of [m1 * 2^e1] with [m2 * 2^e2], as Python compares
    an int with a float. *)
Definition num_compare (a b : Z * Z) : comparison :=
  let '(m1, e1) := a in
  let '(m2, e2) := b in
  let e := Z.min e1 e2 in
  (m1 * 2 ^ (e1 - e) ?= m2 * 2 ^ (e2 - e)).

(** [a > b] where one side is a number: TypeError when the other is not. *)
Definition py_gt (a b : value) : res bool :=
  match num_of a, num_of b with
  | Some x, Some y =>
      Ok (match num_compare x y with Gt => true | _ => false end)
  | _, _ => Raise TypeError
  end.

(** [a == b] on hashable values (numbers by value, strings by content). *)
Definition py_eq (a b : value) : bool :=
  match a, b with
  | VNone, VNone => true
  | VStr s, VStr t => (s =? t)%string
  | _, _ =>
      match num_of a, num_of b with
      | Some x, Some y =>
          match num_compare x y with Eq => true | _ => false end
      | _, _ => false
      end
  end.

Definition hashable (v : value) : bool :=
  match v with
  | VList _ | VDict _ => false
  | _ => true
  end.

Fixpoint lookup (k : value) (d : dict) : option value :=
  match d with
  | [] => None
  | (k', v) :: rest => if py_eq k k' then Some v else lookup k rest
  end.

(** [k in d] for a dict [d] and a string [k]. *)
Definition has_key (d : dict) (k : string) : bool :=
  match lookup (VStr k) d with Some _ => true | None => false end.

(** [d.get(k, default)] on a dict. *)
Definition dget (d : dict) (k : string) (default : value) : value :=
  match lookup (VStr k) d with Some v => v | None => default end.

(** [d[k]] on a dict. *)
Definition dindex (d : dict) (k : string) : res value :=
  match lookup (VStr k) d with Some v => Ok v | None => Raise KeyError end.

(** [d[k] = v]: the value of an equal key is replaced in place, a new
    key goes to the end. *)
Fixpoint dset (k v : value) (d : dict) : dict :=
  match d with
  | [] => [(k, v)]
  | (k', v') :: rest =>
      if py_eq k k' then (k', v) :: rest else (k', v') :: dset k v rest
  end.

(** [v.get(k, default)] on any value: only a dict has the method. *)
Definition get (v : value) (k : string) (default : value) : res value :=
  match v with
  | VDict d => Ok (dget d k default)
  | _ => Raise AttributeError
  end.

(** [v.get(key)] with a computed key, which must be hashable. *)
Definition get_key (v key : value) : res value :=
  match v with
  | VDict d =>
      if hashable key
      then Ok (match lookup key d with Some x => x | None => VNone end)
      else Raise TypeError
  | _ => Raise AttributeError
  end.

(** [v[k]] with a string key: KeyError on a dict without it, TypeError on
    a string or list (their indices are integers) and on the rest. *)
Definition index (v : value) (k : string) : res value :=
  match v with
  | VDict d => dindex d k
  | _ => Raise TypeError
  end.

(** [v.items()] *)
Definition items (v : value) : res (list (value * value)) :=
  match v with
  | VDict d => Ok d
  | _ => Raise AttributeError
  end.

Fixpoint chars (s : string) : list value :=
  match s with
  | EmptyString => []
  | String c r => VStr (String c EmptyString) :: chars r
  end.

(** [for x in v]: a list gives its elements, a dict its keys, a string
    its characters. *)
Definition iter (v : value) : res (list value) :=
  match v with
  | VList l => Ok l
  | VDict d => Ok (map fst d)
  | VStr s => Ok (chars s)
  | _ => Raise TypeError
  end.

(** [v.startswith(p)] *)
Definition startswith (v : value) (p : string) : res bool :=
  match v with
  | VStr s => Ok (String.prefix p s)
  | _ => Raise AttributeError
  end.

(** *** Strings: strip, split, join and int *)

(** White space as [str.isspace] has it: tab to carriage return, the
    four separators 28 to 31, the space, NEL and the no-break space. *)
Definition is_space (c : ascii) : bool :=
  let n := nat_of_ascii c in
  ((9 <=? n) && (n <=? 13) || (28 <=? n) && (n <=? 32)
   || (n =? 133) || (n =? 160))%nat.

(** White space as [int] skips it around a literal: the separators 28
    to 31 are not part of it. *)
Definition int_space (c : ascii) : bool :=
  let n := nat_of_ascii c in
  ((9 <=? n) && (n <=? 13) || (n =? 32) || (n =? 133) || (n =? 160))%nat.

Fixpoint lstrip_of (space : ascii -> bool) (s : string) : string :=
  match s with
  | EmptyString => EmptyString
  | String c r => if space c then lstrip_of space r else s
  end.

Fixpoint rev_onto (s acc : string) : string :=
  match s with
  | EmptyString => acc
  | String c r => rev_onto r (String c acc)
  end.

Definition rev (s : string) : string := rev_onto s EmptyString.

Definition strip_of (space : ascii -> bool) (s : string) : string :=
  rev (lstrip_of space (rev (lstrip_of space s))).

(** [s.strip()] *)
Definition strip (s : string) : string := strip_of is_space s.

(** [s.split(sep)] for a separator of one character. *)
Fixpoint split (sep : ascii) (s : string) : list string :=
  match s with
  | EmptyString => [EmptyString]
  | String c r =>
      if Ascii.eqb c sep then EmptyString :: split sep r
      else match split sep r with
           | h :: t => String c h :: t
           | [] => [String c EmptyString]
           end
  end.

(** [sep.join(l)] for a list of strings. *)
Fixpoint join (sep : string) (l : list string) : string :=
  match l with
  | [] => EmptyString
  | [s] => s
  | s :: rest => (s ++ sep ++ join sep rest)%string
  end.

Definition digit_val (c : ascii) : option Z :=
  let n := nat_of_ascii c in
  if ((48 <=? n) && (n <=? 57))%nat then Some (Z.of_nat n - 48) else None.

(** Decimal digits, single underscores allowed between two digits. *)
Fixpoint digits (acc : Z) (after_digit : bool) (s : string) : option Z :=
  match s with
  | EmptyString => if after_digit then Some acc else None
  | String c r =>
      if Ascii.eqb c "_"
      then if after_digit then digits acc false r else None
      else match digit_val c with
           | Some d => digits (acc * 10 + d) true r
           | None => None
           end
  end.

Fixpoint count_digits (s : string) : Z :=
  match s with
  | EmptyString => 0
  | String c r =>
      match digit_val c with Some _ => 1 | None => 0 end + count_digits r
  end.

(** [sys.get_int_max_str_digits()], which the program leaves at its
    default: a literal of more digits, leading zeros counted, is
    refused. *)
Definition int_max_str_digits : Z := 4300.

Definition literal (s : string) : option Z :=
  if int_max_str_digits <? count_digits s then None else digits 0 false s.

(** [int(s)] for a string, base 10: white space around, an optional sign. *)
Definition int_of_string (s : string) : option Z :=
  match strip_of int_space s with
  | String "+" r => literal r
  | String "-" r => option_map Z.opp (literal r)
  | t => literal t
  end.

(** *** Doubles *)

(** The double nearest to [m * 2^e], ties to the even mantissa, as
    mantissa and exponent; [None] when it is an infinity.  A double has
    53 bits of mantissa, its last bit is worth 2^-1074 at least, and it
    is less than 2^1024. *)
Definition round_double (m e : Z) : option (Z * Z) :=
  if m =? 0 then Some (0, 0)
  else
    let a := Z.abs m in
    let last := Z.max (e + Z.log2 a - 52) (-1074) in
    let k := last - e in
    let q := if 0 <? k then Z.shiftr a k else a in
    let r := if 0 <? k then Z.land a (Z.ones k) else 0 in
    let half := if 0 <? k then Z.shiftl 1 (k - 1) else 1 in
    let q' := if (half <? r) || ((r =? half) && Z.odd q) then q + 1 else q in
    let e' := if 0 <? k then last else e in
    if q' =? 0 then Some (0, 0)
    else if 1024 <=? Z.log2 q' + e' then None
    else Some (Z.sgn m * q', e').

(** [m * 2^e] rounded to an integer away from zero. *)
Definition away_from_zero (m e : Z) : Z :=
  if 0 <=? e then m * 2 ^ e
  else Z.sgn m * - ((- Z.abs m) / 2 ^ (- e)).

(** [int(v)]: a float is truncated toward zero. *)
Definition int (v : value) : res Z :=
  match v with
  | VBool b => Ok (b2z b)
  | VInt z => Ok z
  | VFloat m e => Ok (if 0 <=? e then m * 2 ^ e else Z.quot m (2 ^ (- e)))
  | VStr s =>
      match int_of_string s with
      | Some z => Ok z
      | None => Raise ValueError
      end
  | VNone | VList _ | VDict _ => Raise TypeError
  end.

End Py.

Import Py.

(** ** The alert checker *)

Module Alerts.

(** One call [send_alert_notification(hostname, ap_value, threshold,
    alert_type)]. *)
Record AlertEvent := {
  hostname : value;
  ap_value : Z;
  threshold : value;
  alert_type : string
}.

(** The scan emits events and may stop on an exception; what was emitted
    before stays emitted. *)
Definition scan (A : Type) : Type := list AlertEvent * res A.

Definition ret {A} (a : A) : scan A := ([], Ok a).

Definition lift {A} (r : res A) : scan A := ([], r).

Definition emit (e : AlertEvent) : scan unit := ([e], Ok tt).

Definition sbind {A B} (m : scan A) (k : A -> scan B) : scan B :=
  match m with
  | (ev, Ok a) => let '(ev', r) := k a in (ev ++ ev', r)
  | (ev, Raise e) => (ev, Raise e)
  end.

Declare Scope scan_scope.
Notation "x <- m ;; k" := (sbind m (fun x => k))
  (at level 61, m at next level, right associativity) : scan_scope.
Notation "m ;;; k" := (sbind m (fun _ => k))
  (at level 61, right associativity) : scan_scope.
#[local] Open Scope scan_scope.

(** [for x in l: body(x)] *)
Fixpoint for_each {X} (body : X -> scan unit) (l : list X) : scan unit :=
  match l with
  | [] => ret tt
  | x :: rest => body x ;;; for_each body rest
  end.

Definition when (c : bool) (m : scan unit) : scan unit :=
  if c then m else ret tt.

(** The body of [for client in pool_data]. *)
Definition check_client (alert_settings client : value) : scan unit :=
  h <- lift (get client "Hostname" VNone) ;;
  if truthy h && negb (py_eq h (VStr "TOTAL")) then
    hostname <- lift (index client "Hostname") ;;
    ap <- lift (get client "AP" (VInt 0)) ;;
    ap_value <- lift (int ap) ;;
    client_settings <- lift (get_key alert_settings hostname) ;;
    if negb (truthy client_settings) then ret tt
    else
      threshold <- lift (get client_settings "threshold" (VInt 0)) ;;
      email_enabled <- lift (get client_settings "email_enabled" (VBool false)) ;;
      syslog_enabled <- lift (get client_settings "syslog_enabled" (VBool false)) ;;
      over <- lift (py_gt (VInt ap_value) threshold) ;;
      positive <- lift (if over then py_gt threshold (VInt 0) else Ok false) ;;
      if positive then
        when (truthy email_enabled)
          (emit {| hostname := hostname; ap_value := ap_value;
                   threshold := threshold; alert_type := "email" |}) ;;;
        when (truthy syslog_enabled)
          (emit {| hostname := hostname; ap_value := ap_value;
                   threshold := threshold; alert_type := "syslog" |})
      else ret tt
  else ret tt.

Definition pool_prefix : string := "License Clients License Usage for pool".

(** The body of [for pool_name, pool_data in license_data.items()]. *)
Definition check_pool (alert_settings : value) (item : value * value)
  : scan unit :=
  let '(pool_name, pool_data) := item in
  matches <- lift (startswith pool_name pool_prefix) ;;
  if matches then
    rows <- lift (iter pool_data) ;;
    for_each (check_client alert_settings) rows
  else ret tt.

(** The [try] block of [check_license_alerts]. *)
Definition check_license_alerts_body (config_data : dict)
  (license_data : value) : scan unit :=
  let alert_settings := dget config_data "alert_settings" (VDict []) in
  if negb (truthy alert_settings) then ret tt
  else
    pools <- lift (items license_data) ;;
    for_each (check_pool alert_settings) pools.

(** [except Exception as e: print(...)] *)
Definition try_except (m : scan unit) : scan unit :=
  match m with
  | (ev, Ok _) => (ev, Ok tt)
  | (ev, Raise _) => (ev, Ok tt)
  end.

Definition check_license_alerts (config_data : dict) (license_data : value)
  : scan unit :=
  try_except (check_license_alerts_body config_data license_data).

End Alerts.

Import Alerts.

(** ** The process: globals, the outside world, effects *)

Module Runtime.

(** What the controller answers to one HTTP request: the request raises
    a [RequestException] (no connection, a time-out, an HTTP error
    status, a body that is not JSON), or the body decodes to a value. *)
Inductive reply :=
| Fails
| Replies (body : value).

(** The text of a mail or datagram, by what it reports: the alert of
    the checker, the report, or the alert a request asks for, whose
    fields are whatever values the request holds. *)
Inductive message :=
| AlertText (ev : AlertEvent)
| ReportText (license_info : list value)
| RequestedAlertText (hostname ap_value threshold alert_type : value).

(** A sleep of a whole number of seconds, or of sixty times a double. *)
Inductive duration :=
| Seconds (z : Z)
| Times60 (m e : Z).

(** What the process does to the outside world. *)
Inductive effect :=
| HttpLogin (ip username password : value)
| HttpShow (ip : value) (command : string) (uid : value)
| HttpLogout (ip : value)
| SmtpSSL (server port : value)
| SmtpPlain (server port : value)
| StartTls
| SmtpLogin (username password : value)
| SendMessage (from_email : value) (to_header : string) (msg : message)
| SmtpQuit
| SyslogDatagram (server port : value) (msg : message)
| WriteSnapshot (data : value)
| WriteConfig (config : dict)
| ReadConfig
| StopPoller
| StartPoller
| Sleep (d : duration).

(** [NotificationManager.smtp_config], once configured. *)
Record smtp_settings := {
  smtp_server : value;
  smtp_port : value;
  smtp_username : value;
  smtp_password : value;
  smtp_from_email : value;
  smtp_to_emails : list value
}.

(** [NotificationManager.syslog_config], once configured. *)
Record syslog_settings := {
  syslog_server : value;
  syslog_port : value
}.

(** The module's globals, then the outside world: the replies the
    controller will give, request by request; whether each mail step,
    datagram and file operation will succeed, and whether a sleep too
    long for the clock to take for certain is taken; and the effects so
    far, oldest first.  [None] stands for the empty dict of an unconfigured
    channel. *)
Record state := {
  config_data : dict;
  license_data : value;
  polling_active : bool;
  smtp_config : option smtp_settings;
  syslog_config : option syslog_settings;
  http : list reply;
  io : list bool;
  trace : list effect
}.

Definition set_config_data (c : dict) (s : state) : state :=
  {| config_data := c; license_data := license_data s;
     polling_active := polling_active s; smtp_config := smtp_config s;
     syslog_config := syslog_config s; http := http s; io := io s;
     trace := trace s |}.

Definition set_license_data (d : value) (s : state) : state :=
  {| config_data := config_data s; license_data := d;
     polling_active := polling_active s; smtp_config := smtp_config s;
     syslog_config := syslog_config s; http := http s; io := io s;
     trace := trace s |}.

Definition set_polling_active (b : bool) (s : state) : state :=
  {| config_data := config_data s; license_data := license_data s;
     polling_active := b; smtp_config := smtp_config s;
     syslog_config := syslog_config s; http := http s; io := io s;
     trace := trace s |}.

Definition set_smtp_config (c : option smtp_settings) (s : state) : state :=
  {| config_data := config_data s; license_data := license_data s;
     polling_active := polling_active s; smtp_config := c;
     syslog_config := syslog_config s; http := http s; io := io s;
     trace := trace s |}.

Definition set_syslog_config (c : option syslog_settings) (s : state)
  : state :=
  {| config_data := config_data s; license_data := license_data s;
     polling_active := polling_active s; smtp_config := smtp_config s;
     syslog_config := c; http := http s; io := io s; trace := trace s |}.

Definition set_world (h : list reply) (i : list bool) (t : list effect)
  (s : state) : state :=
  {| config_data := config_data s; license_data := license_data s;
     polling_active := polling_active s; smtp_config := smtp_config s;
     syslog_config := syslog_config s; http := h; io := i; trace := t |}.

(** A computation reads and writes the state and may raise; the state
    reached when it raises is kept. *)
Definition M (A : Type) : Type := state -> res A * state.

Definition ret {A} (a : A) : M A := fun s => (Ok a, s).

Definition raise {A} (e : exn) : M A := fun s => (Raise e, s).

Definition mbind {A B} (m : M A) (k : A -> M B) : M B :=
  fun s =>
    match m s with
    | (Ok a, s') => k a s'
    | (Raise e, s') => (Raise e, s')
    end.

Definition lift {A} (r : res A) : M A := fun s => (r, s).

Definition gets {A} (f : state -> A) : M A := fun s => (Ok (f s), s).

Definition modify (f : state -> state) : M unit := fun s => (Ok tt, f s).

(** [try: m  except Exception: h] *)
Definition try_except {A} (m : M A) (h : exn -> M A) : M A :=
  fun s =>
    match m s with
    | (Ok a, s') => (Ok a, s')
    | (Raise e, s') => h e s'
    end.

(** [try: m  except requests.exceptions.RequestException: h] *)
Definition try_except_request {A} (m : M A) (h : M A) : M A :=
  fun s =>
    match m s with
    | (Raise RequestException, s') => h s'
    | r => r
    end.

Definition when (c : bool) (m : M unit) : M unit :=
  if c then m else ret tt.

Fixpoint for_each {X} (body : X -> M unit) (l : list X) : M unit :=
  match l with
  | [] => ret tt
  | x :: rest => mbind (body x) (fun _ => for_each body rest)
  end.

(** One HTTP request: logged, answered by the next reply.  A controller
    that has no reply left does not answer. *)
Definition http_request (e : effect) : M value :=
  fun s =>
    match http s with
    | Replies body :: rest =>
        (Ok body, set_world rest (io s) (trace s ++ [e]) s)
    | Fails :: rest =>
        (Raise RequestException, set_world rest (io s) (trace s ++ [e]) s)
    | [] => (Raise RequestException, set_world [] (io s) (trace s ++ [e]) s)
    end.

(** One step of mail, syslog or file I/O: logged, and it succeeds or
    raises as the world decides. *)
Definition io_step (e : effect) : M unit :=
  fun s =>
    match io s with
    | true :: rest => (Ok tt, set_world (http s) rest (trace s ++ [e]) s)
    | false :: rest =>
        (Raise OSError, set_world (http s) rest (trace s ++ [e]) s)
    | [] => (Raise OSError, set_world (http s) [] (trace s ++ [e]) s)
    end.

(** An effect that cannot fail. *)
Definition perform (e : effect) : M unit :=
  modify (fun s => set_world (http s) (io s) (trace s ++ [e]) s).

End Runtime.

Import Runtime.

Declare Scope M_scope.
Notation "x <- m ;; k" := (mbind m (fun x => k))
  (at level 61, m at next level, right associativity) : M_scope.
Notation "m ;;; k" := (mbind m (fun _ => k))
  (at level 61, right associativity) : M_scope.
Delimit Scope M_scope with M.
#[local] Open Scope M_scope.

(** ** The device session client (class ArubaAPIClient, the same in
    app.py and aruba_license_monitor.py) *)

Module Client.

Record ArubaAPIClient := {
  mcr_ip : value;
  uid_aruba : value;
  cookies : bool  (* [self.cookies] is the session's jar, or None *)
}.

(** [ArubaAPIClient(mcr_ip, verify_ssl=False)] *)
Definition new (ip : value) : ArubaAPIClient :=
  {| mcr_ip := ip; uid_aruba := VNone; cookies := false |}.

(** Why a call reports [{"status": "error", "message": ...}]. *)
Inductive failure :=
| NotLoggedIn
| LoginRejected (result : value)
| LoginRequestError
| LogoutRejected (result : value)
| LogoutRequestError
| ShowRequestError.

(** The dict a method returns: [{"status": "success", ...}] with its
    data ([VNone] for login and logout, which carry a message only), or
    [{"status": "error", "message": ...}]. *)
Inductive result :=
| Success (data : value)
| Error (why : failure).

Definition login (c : ArubaAPIClient) (username password : value)
  : M (result * ArubaAPIClient) :=
  try_except_request
    (result <- http_request (HttpLogin (mcr_ip c) username password) ;;
     global <- lift (get result "_global_result" (VDict [])) ;;
     status <- lift (get global "status" VNone) ;;
     if py_eq status (VStr "0") then
       global' <- lift (index result "_global_result") ;;
       uid <- lift (index global' "UIDARUBA") ;;
       ret (Success VNone,
            {| mcr_ip := mcr_ip c; uid_aruba := uid; cookies := true |})
     else ret (Error (LoginRejected result), c))
    (ret (Error LoginRequestError, c)).

Definition logout (c : ArubaAPIClient) : M (result * ArubaAPIClient) :=
  if negb (truthy (uid_aruba c)) then ret (Error NotLoggedIn, c)
  else
    try_except_request
      (result <- http_request (HttpLogout (mcr_ip c)) ;;
       global <- lift (get result "_global_result" (VDict [])) ;;
       status <- lift (get global "status" VNone) ;;
       if py_eq status (VStr "0") then
         ret (Success VNone,
              {| mcr_ip := mcr_ip c; uid_aruba := VNone; cookies := false |})
       else ret (Error (LogoutRejected result), c))
      (ret (Error LogoutRequestError, c)).

Definition show_command (c : ArubaAPIClient) (command : string)
  : M (result * ArubaAPIClient) :=
  if negb (truthy (uid_aruba c)) then ret (Error NotLoggedIn, c)
  else
    try_except_request
      (data <- http_request (HttpShow (mcr_ip c) command (uid_aruba c)) ;;
       ret (Success data, c))
      (ret (Error ShowRequestError, c)).

End Client.

(** ** get_license_usage (app.py) *)

Module Fetch.

Import Client.

Inductive failure :=
| LoginFailed (why : Client.failure)
| UsageCommandFailed (why : Client.failure)
| FetchException (e : exn).

Inductive result :=
| Success (data : value)
| Error (why : failure).

Definition get_license_usage (controller_ip username password : value)
  : M result :=
  try_except
    (let client := Client.new controller_ip in
     r <- Client.login client username password ;;
     let '(login_result, client) := r in
     match login_result with
     | Client.Error why => ret (Error (LoginFailed why))
     | Client.Success _ =>
         r <- Client.show_command client "show license-usage" ;;
         let '(usage_result, client) := r in
         match usage_result with
         | Client.Error why =>
             r <- Client.logout client ;;
             ret (Error (UsageCommandFailed why))
         | Client.Success usage_data =>
             r <- Client.show_command client "show license summary" ;;
             let '(summary_result, client) := r in
             let summary_data :=
               match summary_result with
               | Client.Success data => data
               | Client.Error _ => VDict []
               end in
             r <- Client.logout client ;;
             ret (Success
                    (VDict [(VStr "license_usage", usage_data);
                            (VStr "license_summary", summary_data)]))
         end
     end)
    (fun e => ret (Error (FetchException e))).

End Fetch.

(** ** The notification manager and the two senders *)

Module Notify.

(** [', '.join(items)]: TypeError when an item is not a string. *)
Fixpoint strings_of (l : list value) : res (list string) :=
  match l with
  | [] => Ok []
  | VStr s :: rest => bind (strings_of rest) (fun t => Ok (s :: t))
  | _ :: _ => Raise TypeError
  end.

Definition join_values (sep : string) (l : list value) : res string :=
  bind (strings_of l) (fun t => Ok (join sep t)).

Definition configure_smtp (server port username password from_email : value)
  (to_emails : list value) : M unit :=
  modify (set_smtp_config
            (Some {| smtp_server := server; smtp_port := port;
                     smtp_username := username; smtp_password := password;
                     smtp_from_email := from_email;
                     smtp_to_emails := to_emails |})).

Definition configure_syslog (server port : value) : M unit :=
  modify (set_syslog_config
            (Some {| syslog_server := server; syslog_port := port |})).

(** The connection of [send_email]: by port, SMTP_SSL or SMTP followed
    by starttls. *)
Definition connect (c : smtp_settings) : M unit :=
  if py_eq (smtp_port c) (VInt 465)
  then io_step (SmtpSSL (smtp_server c) (smtp_port c))
  else io_step (SmtpPlain (smtp_server c) (smtp_port c)) ;;;
       io_step StartTls.

Definition send_email (msg : message) : M bool :=
  cfg <- gets smtp_config ;;
  match cfg with
  | None => ret false
  | Some c =>
      try_except
        (to_header <- lift (join_values ", " (smtp_to_emails c)) ;;
         connect c ;;;
         io_step (SmtpLogin (smtp_username c) (smtp_password c)) ;;;
         io_step (SendMessage (smtp_from_email c) to_header msg) ;;;
         io_step SmtpQuit ;;;
         ret true)
        (fun _ => ret false)
  end.

(** One datagram: the socket is made, written to and closed in one
    step. *)
Definition send_syslog (msg : message) : M bool :=
  cfg <- gets syslog_config ;;
  match cfg with
  | None => ret false
  | Some c =>
      try_except
        (io_step (SyslogDatagram (syslog_server c) (syslog_port c) msg) ;;;
         ret true)
        (fun _ => ret false)
  end.

(** The first-use configuration at a send site. *)
Definition lazy_configure_smtp : M unit :=
  cfg <- gets config_data ;;
  current <- gets smtp_config ;;
  match current with
  | Some _ => ret tt
  | None =>
      server <- lift (dindex cfg "smtp_server") ;;
      port <- lift (dindex cfg "smtp_port") ;;
      username <- lift (dindex cfg "smtp_username") ;;
      password <- lift (dindex cfg "smtp_password") ;;
      from_email <- lift (dindex cfg "smtp_from") ;;
      to <- lift (dindex cfg "smtp_to") ;;
      configure_smtp server port username password from_email [to]
  end.

Definition lazy_configure_syslog : M unit :=
  cfg <- gets config_data ;;
  current <- gets syslog_config ;;
  match current with
  | Some _ => ret tt
  | None =>
      server <- lift (dindex cfg "syslog_server") ;;
      port <- lift (dindex cfg "syslog_port") ;;
      configure_syslog server port
  end.

Definition send_alert_notification (ev : AlertEvent) : M unit :=
  try_except
    (cfg <- gets config_data ;;
     if (alert_type ev =? "email")%string then
       when (truthy (dget cfg "smtp_enabled" (VBool false)))
         (lazy_configure_smtp ;;;
          success <- send_email (AlertText ev) ;;
          ret tt)
     else if (alert_type ev =? "syslog")%string then
       when (truthy (dget cfg "syslog_enabled" (VBool false)))
         (lazy_configure_syslog ;;;
          success <- send_syslog (AlertText ev) ;;
          ret tt)
     else ret tt)
    (fun _ => ret tt).

(** [check_license_alerts]: the scan of [Alerts], each event handed to
    [send_alert_notification] as it is met.  That call cannot raise and
    leaves the configuration alone, so the scan does not depend on it. *)
Definition check_license_alerts (license_data : value) : M unit :=
  cfg <- gets config_data ;;
  for_each send_alert_notification
    (fst (Alerts.check_license_alerts cfg license_data)).

Fixpoint contains_str (needle hay : string) : bool :=
  String.prefix needle hay ||
  match hay with
  | EmptyString => false
  | String _ rest => contains_str needle rest
  end.

(** [k in v] for a string [k]. *)
Definition contains (v : value) (k : string) : res bool :=
  match v with
  | VDict d => Ok (has_key d k)
  | VList l => Ok (existsb (fun x => py_eq x (VStr k)) l)
  | VStr s => Ok (contains_str k s)
  | _ => Raise TypeError
  end.

(** The [License] entries of the items that have one. *)
Fixpoint collect_license (rows : list value) : res (list value) :=
  match rows with
  | [] => Ok []
  | item :: rest =>
      bind (contains item "License") (fun has =>
      if has
      then bind (index item "License") (fun info =>
           bind (collect_license rest) (fun t => Ok (info :: t)))
      else collect_license rest)
  end.

(** The report body calls [info.get] on every entry. *)
Fixpoint report_body (license_info : list value) : res unit :=
  match license_info with
  | [] => Ok tt
  | info :: rest => bind (get info "Type" (VStr "N/A")) (fun _ =>
                    report_body rest)
  end.

Definition send_notifications (license_data : value) : M unit :=
  try_except
    (has <- lift (contains license_data "_data") ;;
     license_info <-
       (if has
        then data <- lift (index license_data "_data") ;;
             rows <- lift (iter data) ;;
             lift (collect_license rows)
        else ret []) ;;
     match license_info with
     | [] => ret tt
     | _ =>
         lift (report_body license_info) ;;;
         cfg <- gets config_data ;;
         when (truthy (dget cfg "smtp_enabled" (VBool false)))
           (sent <- send_email (ReportText license_info) ;; ret tt) ;;;
         when (truthy (dget cfg "syslog_enabled" (VBool false)))
           (sent <- send_syslog (ReportText license_info) ;; ret tt)
     end)
    (fun _ => ret tt).

End Notify.

(** ** The polling worker's loop *)

Module Poller.

Import Notify.

(** [time.sleep] turns its argument into a whole number of
    nanoseconds in 64 bits, refuses a negative one, and waits until the
    monotonic clock has advanced by it; the clock's reading and the
    timeout together must fit in 63 bits as well.  [clock_room] is the
    timeout, in nanoseconds, that fits whatever the clock reads as long
    as the clock has not run for 2^62 ns (146 years); [sleep_limit] is
    the longest sleep of whole seconds within it. *)
Definition clock_room : Z := 2 ^ 62.

Definition sleep_limit : Z := 4611686018.

(** The nanoseconds of a whole number of seconds: what does not fit is
    an OverflowError, then what is negative a ValueError. *)
Definition whole_ns (secs : Z) : res Z :=
  if (secs <? - 9223372036) || (9223372036 <? secs) then Raise OverflowError
  else if secs <? 0 then Raise ValueError
  else Ok (secs * 10 ^ 9).

(** The nanoseconds of sixty times the double [m * 2^e]: the product
    is a double, and so is that times 10^9, which is rounded away from
    zero.  What is beyond 2^63 either way is an OverflowError; 2^63
    itself passes that test and comes out of the conversion to 64 bits
    as -2^63, which is refused as negative. *)
Definition double_ns (m e : Z) : res Z :=
  match round_double (60 * m) e with
  | None => Raise OverflowError
  | Some (m1, e1) =>
      match round_double (m1 * 10 ^ 9) e1 with
      | None => Raise OverflowError
      | Some (m2, e2) =>
          let n := away_from_zero m2 e2 in
          if (n <? - 2 ^ 63) || (2 ^ 63 <? n) then Raise OverflowError
          else if (n <? 0) || (n =? 2 ^ 63) then Raise ValueError
          else Ok n
      end
  end.

(** The argument of [time.sleep(interval * 60)] with its nanoseconds,
    or what the call raises before it waits: a string or a list times
    60 is a string or a list, which is no number. *)
Definition sleep_arg (interval : value) : res (duration * Z) :=
  match interval with
  | VInt z => bind (whole_ns (z * 60)) (fun ns => Ok (Seconds (z * 60), ns))
  | VBool b =>
      bind (whole_ns (b2z b * 60)) (fun ns => Ok (Seconds (b2z b * 60), ns))
  | VFloat m e => bind (double_ns m e) (fun ns => Ok (Times60 m e, ns))
  | _ => Raise TypeError
  end.

(** The wait: within [clock_room] it takes place; beyond, it takes
    place or is refused with an OSError by where the clock stands,
    which the world decides. *)
Definition wait (d : duration) (ns : Z) : M unit :=
  if ns <=? clock_room then perform (Sleep d)
  else
    fun s =>
      match io s with
      | true :: rest =>
          (Ok tt, set_world (http s) rest (trace s ++ [Sleep d]) s)
      | false :: rest => (Raise OSError, set_world (http s) rest (trace s) s)
      | [] => (Raise OSError, s)
      end.

(** One pass through the body of [while polling_active]. *)
Definition polling_cycle : M unit :=
  try_except
    (cfg <- gets config_data ;;
     when (truthy (dget cfg "controller_ip" VNone)
           && truthy (dget cfg "username" VNone)
           && truthy (dget cfg "password" VNone))
       (controller_ip <- lift (dindex cfg "controller_ip") ;;
        username <- lift (dindex cfg "username") ;;
        password <- lift (dindex cfg "password") ;;
        result <- Fetch.get_license_usage controller_ip username password ;;
        match result with
        | Fetch.Success data =>
            modify (set_license_data data) ;;;
            io_step (WriteSnapshot data) ;;;
            snapshot <- gets license_data ;;
            has <- lift (contains snapshot "license_usage") ;;
            when has
              (usage <- lift (index snapshot "license_usage") ;;
               check_license_alerts usage) ;;;
            cfg <- gets config_data ;;
            when (truthy (dget cfg "enable_notifications" (VBool false)))
              (send_notifications snapshot)
        | Fetch.Error _ => ret tt
        end) ;;;
     cfg <- gets config_data ;;
     a <- lift (sleep_arg (dget cfg "polling_interval" (VInt 86400))) ;;
     wait (fst a) (snd a))
    (fun _ => perform (Sleep (Seconds 60))).

(** The loop, for at most [n] passes. *)
Fixpoint polling_loop (n : nat) : M unit :=
  match n with
  | O => ret tt
  | S n' =>
      active <- gets polling_active ;;
      if active then polling_cycle ;;; polling_loop n' else ret tt
  end.

End Poller.

(** ** The request handlers that touch the core's state *)

Module Web.

Import Notify.

(** [request.form]: the fields of the posted form, a field's first
    value winning. *)
Definition form := list (string * string).

Fixpoint form_get (f : form) (k : string) : option string :=
  match f with
  | [] => None
  | (k', v) :: rest => if (k =? k')%string then Some v else form_get rest k
  end.

(** [request.form.get(k, '')] *)
Definition form_str (f : form) (k : string) : value :=
  VStr (match form_get f k with Some v => v | None => EmptyString end).

(** [int(request.form.get(k, default))] *)
Definition form_int (f : form) (k : string) (default : Z) : res value :=
  match form_get f k with
  | Some v => bind (int (VStr v)) (fun z => Ok (VInt z))
  | None => Ok (VInt default)
  end.

(** [request.form.get(k) == 'on'] *)
Definition form_on (f : form) (k : string) : value :=
  VBool (match form_get f k with Some v => (v =? "on")%string | None => false end).

(** The dict display [new_config = {...}] of [save_config_api]. *)
Definition new_config_of (f : form) : res dict :=
  bind (form_int f "polling_interval" 86400) (fun polling_interval =>
  bind (form_int f "smtp_port" 587) (fun smtp_port =>
  bind (form_int f "syslog_port" 514) (fun syslog_port =>
  Ok [(VStr "controller_ip", form_str f "controller_ip");
      (VStr "username", form_str f "username");
      (VStr "password", form_str f "password");
      (VStr "polling_interval", polling_interval);
      (VStr "smtp_enabled", form_on f "smtp_enabled");
      (VStr "smtp_server", form_str f "smtp_server");
      (VStr "smtp_port", smtp_port);
      (VStr "smtp_username", form_str f "smtp_username");
      (VStr "smtp_password", form_str f "smtp_password");
      (VStr "smtp_from", form_str f "smtp_from");
      (VStr "smtp_to", form_str f "smtp_to");
      (VStr "syslog_enabled", form_on f "syslog_enabled");
      (VStr "syslog_server", form_str f "syslog_server");
      (VStr "syslog_port", syslog_port);
      (VStr "enable_notifications", form_on f "enable_notifications")]))).

(** [save_config()]: the file is written, and a failure is raised on. *)
Definition save_config : M unit :=
  cfg <- gets config_data ;;
  io_step (WriteConfig cfg).

(** [[email.strip() for email in s.split(',') if email.strip()]] *)
Definition split_recipients (smtp_to : value) : res (list value) :=
  match smtp_to with
  | VStr s =>
      Ok (map VStr
            (filter (fun e => negb (e =? "")%string)
                    (map strip (split "," s))))
  | _ => Raise AttributeError
  end.

(** What a handler answers: [{"status": "success", ...}] or
    [{"status": "error", ...}]. *)
Inductive rejection :=
| HandlerException (e : exn)
| NoController
| RefreshFailed (why : Fetch.failure)
| MissingHostname.

Inductive response :=
| Accepted
| Rejected (why : rejection).

(** POST /api/config *)
Definition save_config_api (f : form) : M response :=
  try_except
    (new_config <- lift (new_config_of f) ;;
     old <- gets config_data ;;
     new_config <-
       (if has_key old "alert_settings"
        then kept <- lift (dindex old "alert_settings") ;;
             ret (dset (VStr "alert_settings") kept new_config)
        else ret new_config) ;;
     modify (set_config_data new_config) ;;;
     save_config ;;;
     (* the file is read back; a file that is gone only prints a warning *)
     io_step ReadConfig ;;;
     cfg <- gets config_data ;;
     smtp_enabled <- lift (dindex cfg "smtp_enabled") ;;
     when (truthy smtp_enabled)
       (smtp_to <- lift (dindex cfg "smtp_to") ;;
        to_emails <- lift (split_recipients smtp_to) ;;
        server <- lift (dindex cfg "smtp_server") ;;
        port <- lift (dindex cfg "smtp_port") ;;
        username <- lift (dindex cfg "smtp_username") ;;
        password <- lift (dindex cfg "smtp_password") ;;
        from_email <- lift (dindex cfg "smtp_from") ;;
        configure_smtp server port username password from_email to_emails) ;;;
     syslog_enabled <- lift (dindex cfg "syslog_enabled") ;;
     when (truthy syslog_enabled)
       (server <- lift (dindex cfg "syslog_server") ;;
        port <- lift (dindex cfg "syslog_port") ;;
        configure_syslog server port) ;;;
     when (truthy (dget cfg "controller_ip" VNone))
       (active <- gets polling_active ;;
        when active
          (modify (set_polling_active false) ;;; perform StopPoller) ;;;
        modify (set_polling_active true) ;;;
        perform StartPoller) ;;;
     ret Accepted)
    (fun e => ret (Rejected (HandlerException e))).

(** POST /api/refresh *)
Definition refresh_license : M response :=
  try_except
    (cfg <- gets config_data ;;
     if negb (truthy (dget cfg "controller_ip" VNone))
     then ret (Rejected NoController)
     else
       controller_ip <- lift (dindex cfg "controller_ip") ;;
       username <- lift (dindex cfg "username") ;;
       password <- lift (dindex cfg "password") ;;
       result <- Fetch.get_license_usage controller_ip username password ;;
       match result with
       | Fetch.Success data =>
           modify (set_license_data data) ;;;
           snapshot <- gets license_data ;;
           check_license_alerts snapshot ;;;
           ret Accepted
       | Fetch.Error why => ret (Rejected (RefreshFailed why))
       end)
    (fun e => ret (Rejected (HandlerException e))).

(** [l[i] = v] at a position inside the list. *)
Fixpoint list_set (l : list value) (i : nat) (v : value) : list value :=
  match l, i with
  | [], _ => []
  | _ :: rest, O => v :: rest
  | x :: rest, S i' => x :: list_set rest i' v
  end.

(** [config_data['alert_settings'][hostname] = rule]: an item of the
    dict, or of a list when the settings are one and the hostname an
    int (from the end when negative). *)
Definition store_rule (hostname rule : value) : M unit :=
  cfg <- gets config_data ;;
  settings <- lift (dindex cfg "alert_settings") ;;
  let put (v : value) :=
    modify (set_config_data (dset (VStr "alert_settings") v cfg)) in
  match settings with
  | VDict rules =>
      if hashable hostname
      then put (VDict (dset hostname rule rules))
      else raise TypeError
  | VList l =>
      let at_index (i : Z) :=
        let n := Z.of_nat (List.length l) in
        let j := if i <? 0 then i + n else i in
        if (0 <=? j) && (j <? n)
        then put (VList (list_set l (Z.to_nat j) rule))
        else raise IndexError in
      match hostname with
      | VInt i => at_index i
      | VBool b => at_index (b2z b)
      | _ => raise TypeError
      end
  | _ => raise TypeError
  end.

(** POST /api/save-alert-settings, on the body [request.json]. *)
Definition save_alert_settings (data : value) : M response :=
  try_except
    (hostname <- lift (get data "hostname" VNone) ;;
     threshold <- lift (get data "threshold" VNone) ;;
     email_enabled <- lift (get data "email_enabled" (VBool false)) ;;
     syslog_enabled <- lift (get data "syslog_enabled" (VBool false)) ;;
     if negb (truthy hostname) then ret (Rejected MissingHostname)
     else
       cfg <- gets config_data ;;
       when (negb (has_key cfg "alert_settings"))
         (modify (set_config_data
                    (dset (VStr "alert_settings") (VDict []) cfg))) ;;;
       stored <- lift (if truthy threshold then int threshold else Ok 0) ;;
       store_rule hostname
         (VDict [(VStr "threshold", VInt stored);
                 (VStr "email_enabled", email_enabled);
                 (VStr "syslog_enabled", syslog_enabled)]) ;;;
       save_config ;;;
       ret Accepted)
    (fun e => ret (Rejected (HandlerException e))).

(** What POST /api/send-alert answers. *)
Inductive alert_answer :=
| AlertSent
| AlertNotSent
| ChannelNotEnabled
| UnsupportedType
| MissingParameter
| AlertException (e : exn).

(** POST /api/send-alert, on the body [request.json]. *)
Definition send_alert (data : value) : M alert_answer :=
  try_except
    (hostname <- lift (get data "hostname" VNone) ;;
     ap_value <- lift (get data "ap_value" VNone) ;;
     threshold <- lift (get data "threshold" VNone) ;;
     alert_type <- lift (get data "alert_type" VNone) ;;
     if negb (truthy hostname && truthy ap_value && truthy threshold
              && truthy alert_type)
     then ret MissingParameter
     else
       let msg := RequestedAlertText hostname ap_value threshold alert_type in
       cfg <- gets config_data ;;
       if py_eq alert_type (VStr "email") then
         if truthy (dget cfg "smtp_enabled" (VBool false)) then
           lazy_configure_smtp ;;;
           success <- send_email msg ;;
           ret (if success then AlertSent else AlertNotSent)
         else ret ChannelNotEnabled
       else if py_eq alert_type (VStr "syslog") then
         if truthy (dget cfg "syslog_enabled" (VBool false)) then
           lazy_configure_syslog ;;;
           success <- send_syslog msg ;;
           ret (if success then AlertSent else AlertNotSent)
         else ret ChannelNotEnabled
       else ret UnsupportedType)
    (fun e => ret (AlertException e)).

(** The rule kept for a hostname, if any. *)
Definition stored_rule (cfg : dict) (hostname : value) : option value :=
  match lookup (VStr "alert_settings") cfg with
  | Some (VDict rules) => lookup hostname rules
  | _ => None
  end.

End Web.

(** ** Predicates used in the statements *)

(** [m] leaves the part [f] of the state as it found it, whether it
    returns or raises. *)
Definition keeps {X A} (f : state -> X) (m : M A) : Prop :=
  forall s, f (snd (m s)) = f s.

(** The parts of the state that are not the outside world. *)
Definition world_blind {X} (f : state -> X) : Prop :=
  forall h i t s, f (set_world h i t s) = f s.

(** The parts that are not the notification manager's either. *)
Definition channel_blind {X} (f : state -> X) : Prop :=
  (forall c s, f (set_smtp_config c s) = f s) /\
  (forall c s, f (set_syslog_config c s) = f s).

(** A client on which no login has returned success yet: a new one, and
    what any call leaves of such a client as long as it is not a login
    that succeeds. *)
Inductive before_login : Client.ArubaAPIClient -> Prop :=
| before_login_new ip : before_login (Client.new ip)
| before_login_failed c username password s why c' s' :
    before_login c ->
    Client.login c username password s = (Ok (Client.Error why, c'), s') ->
    before_login c'
| before_login_show c command s r c' s' :
    before_login c ->
    Client.show_command c command s = (Ok (r, c'), s') ->
    before_login c'
| before_login_logout c s r c' s' :
    before_login c ->
    Client.logout c s = (Ok (r, c'), s') ->
    before_login c'.

(** What [send_email] does when every step succeeds: the connection by
    port, then login, message and quit. *)
Definition smtp_script (c : smtp_settings) (to_header : string)
  (msg : message) : list effect :=
  (if py_eq (smtp_port c) (VInt 465)
   then [SmtpSSL (smtp_server c) (smtp_port c)]
   else [SmtpPlain (smtp_server c) (smtp_port c); StartTls])
  ++ [SmtpLogin (smtp_username c) (smtp_password c);
      SendMessage (smtp_from_email c) to_header msg;
      SmtpQuit].

(** [try: m  except Exception: return False] *)
Definition attempt (m : M bool) : M bool :=
  try_except m (fun _ => ret false).

(** [m] performs an initial segment of [script], and its first step at
    least when there is one. *)
Definition follows (m : M bool) (script : list effect) : Prop :=
  forall s, exists n : nat,
    (script <> [] -> (1 <= n)%nat) /\
    trace (snd (attempt m s)) = trace s ++ firstn n script.

(** A controller that answers no request. *)
Definition unreachable (s : state) : Prop :=
  Forall (fun r => r = Fails) (http s).

(** ** Sample data *)

Definition email_rule_10 : value :=
  VDict [(VStr "threshold", VInt 10);
         (VStr "email_enabled", VBool true);
         (VStr "syslog_enabled", VBool false)].

(** A rule map with one rule, for ap-02. *)
Definition rules_ap02 : dict :=
  [(VStr "alert_settings", VDict [(VStr "ap-02", email_rule_10)])].

Definition usage_row (h : string) (ap : value) : value :=
  VDict [(VStr "Hostname", VStr h); (VStr "AP", ap)].

Definition default_pool (rows : list value) : value :=
  VDict [(VStr "License Clients License Usage for pool default",
          VList rows)].

Definition idle_state : state :=
  {| config_data := []; license_data := VDict []; polling_active := false;
     smtp_config := None; syslog_config := None;
     http := []; io := []; trace := [] |}.

Definition controller_config (interval : Z) : dict :=
  [(VStr "controller_ip", VStr "10.0.60.60");
   (VStr "username", VStr "admin");
   (VStr "password", VStr "secret");
   (VStr "polling_interval", VInt interval)].

Definition old_snapshot : value :=
  VDict [(VStr "license_usage", VDict []);
         (VStr "license_summary", VDict [])].

(** A running poller with a snapshot from an earlier cycle, and a
    controller that will answer as [replies] say. *)
Definition polling_state (interval : Z) (replies : list reply) : state :=
  {| config_data := controller_config interval;
     license_data := old_snapshot; polling_active := true;
     smtp_config := None; syslog_config := None;
     http := replies; io := []; trace := [] |}.

(** The controller turns a login down, or grants it a session. *)
Definition login_rejected : reply :=
  Replies (VDict [(VStr "_global_result",
                   VDict [(VStr "status", VStr "1")])]).

Definition login_granted : reply :=
  Replies (VDict [(VStr "_global_result",
                   VDict [(VStr "status", VStr "0");
                          (VStr "UIDARUBA", VStr "f3a1")])]).

(** Every step of mail and file I/O goes through. *)
Definition all_ok : list bool := [true; true; true; true; true; true; true].

Definition mail_settings (port : Z) : smtp_settings :=
  {| smtp_server := VStr "mail.example.com"; smtp_port := VInt port;
     smtp_username := VStr "monitor"; smtp_password := VStr "secret";
     smtp_from_email := VStr "monitor@example.com";
     smtp_to_emails := [VStr "noc@example.com"] |}.

Definition mail_state (port : Z) (outcomes : list bool) : state :=
  {| config_data := []; license_data := VDict []; polling_active := false;
     smtp_config := Some (mail_settings port); syslog_config := None;
     http := []; io := outcomes; trace := [] |}.

Definition mail_config (smtp_to : string) : dict :=
  [(VStr "controller_ip", VStr "10.0.60.60");
   (VStr "username", VStr "admin");
   (VStr "password", VStr "secret");
   (VStr "polling_interval", VInt 5);
   (VStr "smtp_enabled", VBool true);
   (VStr "smtp_server", VStr "mail.example.com");
   (VStr "smtp_port", VInt 587);
   (VStr "smtp_username", VStr "monitor");
   (VStr "smtp_password", VStr "secret");
   (VStr "smtp_from", VStr "monitor@example.com");
   (VStr "smtp_to", VStr smtp_to);
   (VStr "syslog_enabled", VBool false);
   (VStr "syslog_server", VStr "");
   (VStr "syslog_port", VInt 514);
   (VStr "enable_notifications", VBool false)].

Definition mail_form (smtp_to : string) : Web.form :=
  [("controller_ip", "10.0.60.60"); ("username", "admin");
   ("password", "secret"); ("polling_interval", "5");
   ("smtp_enabled", "on"); ("smtp_server", "mail.example.com");
   ("smtp_port", "587"); ("smtp_username", "monitor");
   ("smtp_password", "secret"); ("smtp_from", "monitor@example.com");
   ("smtp_to", smtp_to); ("syslog_server", ""); ("syslog_port", "514")]%string.

(** The process as it starts with a configuration file on disk:
    [load_config] fills [config_data] and the notification manager is
    not configured. *)
Definition started_state (smtp_to : string) (outcomes : list bool) : state :=
  {| config_data := mail_config smtp_to; license_data := VDict [];
     polling_active := true; smtp_config := None; syslog_config := None;
     http := []; io := outcomes; trace := [] |}.

Definition alert_ap01 : AlertEvent :=
  {| hostname := VStr "ap-01"; ap_value := 12; threshold := VInt 10;
     alert_type := "email" |}.

Definition threshold_request (hostname : string) (threshold : value) : value :=
  VDict [(VStr "hostname", VStr hostname);
         (VStr "threshold", threshold);
         (VStr "email_enabled", VBool true);
         (VStr "syslog_enabled", VBool false)].

(** ** Further predicates *)

(** An event that the rule and the usage it carries account for: the
    usage is over the threshold, the threshold is over 0, and the
    channel is one of the two. *)
Definition justified (ev : AlertEvent) : Prop :=
  py_gt (VInt (ap_value ev)) (threshold ev) = Ok true
  /\ py_gt (threshold ev) (VInt 0) = Ok true
  /\ (alert_type ev = "email"%string \/ alert_type ev = "syslog"%string).

(** The snapshot [get_license_usage] builds from the two replies. *)
Definition snapshot_of (usage summary : value) : value :=
  VDict [(VStr "license_usage", usage); (VStr "license_summary", summary)].

(** A reply that grants a login and names the session [uid]. *)
Definition grants (body uid : value) : Prop :=
  exists d g, body = VDict d
    /\ lookup (VStr "_global_result") d = Some (VDict g)
    /\ lookup (VStr "status") g = Some (VStr "0")
    /\ lookup (VStr "UIDARUBA") g = Some uid.

(** A reply to a logout that can be read: an object whose
    [_global_result], if it has one, is an object. *)
Definition readable (body : value) : Prop :=
  exists d g, body = VDict d
    /\ dget d "_global_result" (VDict []) = VDict g.
(** A process with a rule for ap-02, and a controller that reports
    ap-02 over its threshold. *)
Definition refresh_state : state :=
  {| config_data := controller_config 5 ++ rules_ap02;
     license_data := VDict []; polling_active := true;
     smtp_config := None; syslog_config := None;
     http := [login_granted;
              Replies (default_pool [usage_row "ap-02" (VStr "12")]);
              Fails; Fails];
     io := all_ok; trace := [] |}.

(** The four requests of a complete fetch. *)
Definition complete_fetch : list effect :=
  [HttpLogin (VStr "10.0.60.60") (VStr "admin") (VStr "secret");
   HttpShow (VStr "10.0.60.60") "show license-usage" (VStr "f3a1");
   HttpShow (VStr "10.0.60.60") "show license summary" (VStr "f3a1");
   HttpLogout (VStr "10.0.60.60")].
(** A process that mails alerts, with a rule for ap-02, and a
    controller that reports ap-02 over its threshold. *)
Definition alerting_state (outcomes : list bool) : state :=
  {| config_data := mail_config "noc@example.com" ++ rules_ap02;
     license_data := VDict []; polling_active := true;
     smtp_config := None; syslog_config := None;
     http := [login_granted;
              Replies (default_pool [usage_row "ap-02" (VStr "12")]);
              Fails; Fails];
     io := outcomes; trace := [] |}.

Definition alert_ap02 : AlertEvent :=
  {| hostname := VStr "ap-02"; ap_value := 12; threshold := VInt 10;
     alert_type := "email" |}.

(** [m], run under [attempt], reports success only after the whole of
    [script]. *)
Definition completes (m : M bool) (script : list effect) : Prop :=
  forall s s', attempt m s = (Ok true, s') -> trace s' = trace s ++ script.
(** ** aruba_license_monitor.py: the key of a client in [clients] *)

Module Monitor.

(** [get_client_key(controller_ip, username)], on the two strings its
    signature takes: [f"{controller_ip}_{username}"]. *)
Definition get_client_key (controller_ip username : string) : string :=
  (controller_ip ++ "_" ++ username)%string.

End Monitor.

(** A string without an underscore. *)
Fixpoint no_underscore (s : string) : bool :=
  match s with
  | EmptyString => true
  | String c r => negb (Ascii.eqb c "_") && no_underscore r
  end.

(** The recipients [save_config_api] makes of the form's field. *)
Definition recipients_of (f : Web.form) : list value :=
  map VStr
    (filter (fun e => negb (e =? "")%string)
       (map strip
          (split ","
             match Web.form_get f "smtp_to" with
             | Some v => v
             | None => EmptyString
             end))).

(** The configuration [save_config_api] puts in place of [old]: the
    form's fields, and the rule map of [old] when it has one. *)
Definition replacement (old nc : dict) : dict :=
  match lookup (VStr "alert_settings") old with
  | Some kept => dset (VStr "alert_settings") kept nc
  | None => nc
  end.
(** [save_config_api] from the point where the new configuration is in
    place: the file is written and read back, the channels the
    configuration enables are configured, the poller is restarted. *)
Definition save_config_api_rest : M Web.response :=
  Web.save_config ;;;
  io_step ReadConfig ;;;
  cfg <- gets config_data ;;
  smtp_enabled <- lift (dindex cfg "smtp_enabled") ;;
  when (truthy smtp_enabled)
    (smtp_to <- lift (dindex cfg "smtp_to") ;;
     to_emails <- lift (Web.split_recipients smtp_to) ;;
     server <- lift (dindex cfg "smtp_server") ;;
     port <- lift (dindex cfg "smtp_port") ;;
     username <- lift (dindex cfg "smtp_username") ;;
     password <- lift (dindex cfg "smtp_password") ;;
     from_email <- lift (dindex cfg "smtp_from") ;;
     Notify.configure_smtp server port username password from_email
                           to_emails) ;;;
  syslog_enabled <- lift (dindex cfg "syslog_enabled") ;;
  when (truthy syslog_enabled)
    (server <- lift (dindex cfg "syslog_server") ;;
     port <- lift (dindex cfg "syslog_port") ;;
     Notify.configure_syslog server port) ;;;
  when (truthy (dget cfg "controller_ip" VNone))
    (active <- gets polling_active ;;
     when active
       (modify (set_polling_active false) ;;; perform StopPoller) ;;;
     modify (set_polling_active true) ;;;
     perform StartPoller) ;;;
  ret Web.Accepted.

(** The channels as an accepted save leaves them. *)
Definition mail_of (cfg : dict) (recipients : list value) : smtp_settings :=
  {| smtp_server := dget cfg "smtp_server" VNone;
     smtp_port := dget cfg "smtp_port" VNone;
     smtp_username := dget cfg "smtp_username" VNone;
     smtp_password := dget cfg "smtp_password" VNone;
     smtp_from_email := dget cfg "smtp_from" VNone;
     smtp_to_emails := recipients |}.

Definition syslog_of (cfg : dict) : syslog_settings :=
  {| syslog_server := dget cfg "syslog_server" VNone;
     syslog_port := dget cfg "syslog_port" VNone |}.

(** The steps of an accepted save, from the state [s0] that holds the
    new configuration: the two file operations, ... *)
Definition after_files (s0 : state) (rest : list bool) : state :=
  set_world (http s0) rest
    (trace s0 ++ [WriteConfig (config_data s0); ReadConfig]) s0.

(** ... the channels that the configuration enables, ... *)
Definition after_channels (s1 : state) (recipients : list value) : state :=
  let cfg := config_data s1 in
  let s2 := if truthy (dget cfg "smtp_enabled" VNone)
            then set_smtp_config (Some (mail_of cfg recipients)) s1
            else s1 in
  if truthy (dget cfg "syslog_enabled" VNone)
  then set_syslog_config (Some (syslog_of cfg)) s2
  else s2.

(** ... and the poller, stopped if it runs and started, when the
    configuration names a controller. *)
Definition after_restart (s3 : state) : state :=
  if truthy (dget (config_data s3) "controller_ip" VNone)
  then set_world (http s3) (io s3)
         (trace s3 ++ (if polling_active s3 then [StopPoller] else [])
                   ++ [StartPoller])
         (set_polling_active true s3)
  else s3.

(** The keys that [save_config_api] reads back with [config_data[k]]. *)
Definition keys_read : list string :=
  ["smtp_enabled"; "smtp_to"; "smtp_server"; "smtp_port"; "smtp_username";
   "smtp_password"; "smtp_from"; "syslog_enabled"; "syslog_server";
   "syslog_port"]%string.
(** The state once [save_alert_settings] has made sure of a rule map:
    an empty one is put into a configuration that has none. *)
Definition with_rule_map (s : state) : state :=
  if has_key (config_data s) "alert_settings" then s
  else set_config_data
         (dset (VStr "alert_settings") (VDict []) (config_data s)) s.

(** The rule [save_alert_settings] files for the request body [d]. *)
Definition rule_of (d : dict) (z : Z) : value :=
  VDict [(VStr "threshold", VInt z);
         (VStr "email_enabled", dget d "email_enabled" (VBool false));
         (VStr "syslog_enabled", dget d "syslog_enabled" (VBool false))].

(** The state with the rule filed under a string hostname. *)
Definition with_rule (s : state) (h : string) (rule : value) (rules : dict)
  : state :=
  set_config_data
    (dset (VStr "alert_settings") (VDict (dset (VStr h) rule rules))
          (config_data (with_rule_map s)))
    (with_rule_map s).

(** A configuration whose rule map, if it has one, is a dict. *)
Definition rule_map_is_dict (cfg : dict) : Prop :=
  forall v, lookup (VStr "alert_settings") cfg = Some v ->
            exists rules, v = VDict rules.
(** What is attempted of a script whose steps succeed or fail as the
    outcomes say, an outcome that is missing being a failure: the steps
    up to and including the first that fails. *)
Fixpoint attempted (script : list effect) (outcomes : list bool)
  : list effect :=
  match script with
  | [] => []
  | e :: rest =>
      e :: match outcomes with
           | true :: later => attempted rest later
           | _ => []
           end
  end.

(** Whether every step of the script succeeds. *)
Fixpoint completed (script : list effect) (outcomes : list bool) : bool :=
  match script with
  | [] => true
  | _ :: rest =>
      match outcomes with
      | true :: later => completed rest later
      | _ => false
      end
  end.

(** The outcomes left once the script has been attempted. *)
Fixpoint unused (script : list effect) (outcomes : list bool) : list bool :=
  match script with
  | [] => outcomes
  | _ :: rest =>
      match outcomes with
      | true :: later => unused rest later
      | _ :: later => later
      | [] => []
      end
  end.

(** The To headers of the messages handed to the mail server. *)
Fixpoint to_headers (t : list effect) : list string :=
  match t with
  | [] => []
  | SendMessage _ to_header _ :: rest => to_header :: to_headers rest
  | _ :: rest => to_headers rest
  end.

(** The recipients a string lists: its parts between commas, stripped,
    the empty ones left out, as [save_config_api] takes them. *)
Definition listed (s : string) : list string :=
  filter (fun e => negb (e =? "")%string) (map strip (split "," s)).


(** * Properties *)

(** ** Values *)

Lemma py_gt_int (u t : Z) : py_gt (VInt u) (VInt t) = Ok (t <? u).
Proof.
  unfold py_gt, num_of, num_compare. cbn [Z.min Z.compare Z.sub Z.opp].
  change (2 ^ 0) with 1. rewrite !Z.mul_1_r. f_equal.
  destruct (Z.compare_spec u t), (Z.ltb_spec t u); (reflexivity || lia).
Qed.

Lemma num_compare_refl (x : Z * Z) : num_compare x x = Eq.
Proof. destruct x as [m e]. unfold num_compare. apply Z.compare_refl. Qed.

Lemma py_eq_refl (k : value) : hashable k = true -> py_eq k k = true.
Proof.
  destruct k; cbn; intros H; try reflexivity; try discriminate.
  - rewrite Z.compare_refl. reflexivity.
  - rewrite Z.compare_refl. reflexivity.
  - rewrite Z.compare_refl. reflexivity.
  - apply String.eqb_refl.
Qed.

Lemma lookup_dset_same (k v : value) (d : dict) :
  py_eq k k = true -> lookup k (dset k v d) = Some v.
Proof.
  intros Hk. induction d as [|[k' v'] rest IH]; cbn.
  - rewrite Hk. reflexivity.
  - destruct (py_eq k k') eqn:E; cbn; rewrite E; [reflexivity | exact IH].
Qed.

(** A truthy [d.get(k)] is an item of the dict. *)
Lemma truthy_dget_lookup (d : dict) (k : string) (h : value) :
  dget d k VNone = h -> truthy h = true -> lookup (VStr k) d = Some h.
Proof.
  unfold dget. destruct (lookup (VStr k) d); intros <- Ht;
    [reflexivity | discriminate].
Qed.

Example int_examples :
  int (VStr " 12 ") = Ok 12 /\ int (VStr "-7") = Ok (-7) /\
  int (VStr "1_000") = Ok 1000 /\ int (VStr "N/A") = Raise ValueError /\
  int (VStr "") = Raise ValueError /\ int (VStr "1__0") = Raise ValueError /\
  int (VFloat (-5) (-1)) = Ok (-2) /\ int (VBool true) = Ok 1 /\
  int VNone = Raise TypeError.
Proof. repeat split; reflexivity. Qed.

Example split_strip_examples :
  split "," "a@x.org, b@x.org ,,c@x.org" =
    ["a@x.org"; " b@x.org "; ""; "c@x.org"]%string
  /\ strip "  b@x.org  " = "b@x.org"%string
  /\ Web.split_recipients (VStr "a@x.org, b@x.org ,,c@x.org") =
     Ok [VStr "a@x.org"; VStr "b@x.org"; VStr "c@x.org"].
Proof. repeat split; reflexivity. Qed.

(** ** The scan *)

Lemma sbind_ret_l {A B} (a : A) (k : A -> scan B) :
  Alerts.sbind (Alerts.ret a) k = k a.
Proof. unfold Alerts.sbind, Alerts.ret. destruct (k a). reflexivity. Qed.

Lemma sbind_lift_ok {A B} (a : A) (k : A -> scan B) :
  Alerts.sbind (Alerts.lift (Ok a)) k = k a.
Proof. unfold Alerts.sbind, Alerts.lift. destruct (k a). reflexivity. Qed.

Lemma sbind_lift_raise {A B} (e : exn) (k : A -> scan B) :
  Alerts.sbind (Alerts.lift (Raise e)) k = ([], Raise e).
Proof. reflexivity. Qed.

Lemma scan_for_each_app {X} (body : X -> scan unit) (l1 l2 : list X) :
  Alerts.for_each body (l1 ++ l2) =
  Alerts.sbind (Alerts.for_each body l1)
               (fun _ => Alerts.for_each body l2).
Proof.
  induction l1 as [|x l1 IH]; cbn [Alerts.for_each app].
  - unfold Alerts.sbind, Alerts.ret.
    destruct (Alerts.for_each body l2). reflexivity.
  - rewrite IH. unfold Alerts.sbind.
    destruct (body x) as [ev [[]|e]]; [|reflexivity].
    destruct (Alerts.for_each body l1) as [ev1 [[]|e1]]; [|reflexivity].
    destruct (Alerts.for_each body l2) as [ev2 r2].
    rewrite app_assoc. reflexivity.
Qed.

(** A row that fails the guard of the loop body is passed over: no
    parse, no lookup, no event, no exception. *)
Lemma check_client_guard_false (alert_settings : value) (d : dict) :
  truthy (dget d "Hostname" VNone)
  && negb (py_eq (dget d "Hostname" VNone) (VStr "TOTAL")) = false ->
  check_client alert_settings (VDict d) = ([], Ok tt).
Proof.
  intros H. unfold check_client. cbn [get]. rewrite sbind_lift_ok, H.
  reflexivity.
Qed.

(** So are a row without a Hostname and the TOTAL row. *)
Lemma check_client_skipped (alert_settings : value) (d : dict) :
  lookup (VStr "Hostname") d = None \/
  lookup (VStr "Hostname") d = Some (VStr "TOTAL") ->
  check_client alert_settings (VDict d) = ([], Ok tt).
Proof.
  intros H. apply check_client_guard_false. unfold dget.
  destruct H as [-> | ->]; reflexivity.
Qed.

(** A row that is not a dict has no Hostname to read: it gives no event,
    and the scan ends on the AttributeError. *)
Lemma check_client_not_a_dict (alert_settings client : value) :
  (forall d, client <> VDict d) ->
  check_client alert_settings client = ([], Raise AttributeError).
Proof.
  intros H. destruct client; try reflexivity. destruct (H d eq_refl).
Qed.

(** What an evaluated row with a rule of integer threshold gives. *)
Lemma check_client_evaluated
  (alert_settings client h ap : value) (u t : Z) (rd : dict) :
  get client "Hostname" VNone = Ok h ->
  truthy h && negb (py_eq h (VStr "TOTAL")) = true ->
  get client "AP" (VInt 0) = Ok ap ->
  int ap = Ok u ->
  get_key alert_settings h = Ok (VDict rd) ->
  rd <> [] ->
  dget rd "threshold" (VInt 0) = VInt t ->
  check_client alert_settings client =
    (if (0 <? t) && (t <? u)
     then (if truthy (dget rd "email_enabled" (VBool false))
           then [{| hostname := h; ap_value := u; threshold := VInt t;
                    alert_type := "email" |}]
           else []) ++
          (if truthy (dget rd "syslog_enabled" (VBool false))
           then [{| hostname := h; ap_value := u; threshold := VInt t;
                    alert_type := "syslog" |}]
           else [])
     else [], Ok tt).
Proof.
  intros Hh Hev Hap Hu Hrule Hne Ht.
  destruct client as [| | | | | |d]; try discriminate Hh.
  cbn [get] in Hh, Hap. injection Hh as Hh. injection Hap as Hap.
  apply andb_prop in Hev as Hev'. destruct Hev' as [Htr _].
  pose proof (truthy_dget_lookup _ _ _ Hh Htr) as Hl.
  unfold check_client. cbn [get]. rewrite sbind_lift_ok, Hh, Hev.
  unfold index, dindex. rewrite Hl, sbind_lift_ok, sbind_lift_ok.
  rewrite Hap, Hu, sbind_lift_ok, Hrule, sbind_lift_ok.
  destruct rd as [|item rd']; [contradiction|].
  cbn [negb get truthy]. rewrite !sbind_lift_ok, Ht, py_gt_int.
  rewrite sbind_lift_ok.
  destruct (t <? u) eqn:Eu.
  - rewrite py_gt_int, sbind_lift_ok, andb_true_r.
    destruct (0 <? t); [|reflexivity].
    destruct (truthy (dget (item :: rd') "email_enabled" (VBool false))),
             (truthy (dget (item :: rd') "syslog_enabled" (VBool false)));
      reflexivity.
  - rewrite sbind_lift_ok, andb_false_r. reflexivity.
Qed.

(** A rule whose threshold is 0 or less never alerts. *)
Lemma nonpositive_threshold_never_alerts
  (alert_settings client h ap : value) (u t : Z) (rd : dict) :
  get client "Hostname" VNone = Ok h ->
  truthy h && negb (py_eq h (VStr "TOTAL")) = true ->
  get client "AP" (VInt 0) = Ok ap ->
  int ap = Ok u ->
  get_key alert_settings h = Ok (VDict rd) ->
  rd <> [] ->
  dget rd "threshold" (VInt 0) = VInt t ->
  t <= 0 ->
  check_client alert_settings client = ([], Ok tt).
Proof.
  intros Hh Hev Hap Hu Hrule Hne Ht Hle.
  rewrite (check_client_evaluated _ _ _ _ _ _ _ Hh Hev Hap Hu Hrule Hne Ht).
  destruct (Z.ltb_spec 0 t); [lia | reflexivity].
Qed.

(** The scan of the rows around one: the rows before it, which are
    taken to evaluate without error, then the row, then what the scan
    makes of the rows after it. *)
Lemma scan_rows_around {X} (body : X -> scan unit) (pre post : list X)
  (x : X) (calls : list AlertEvent) :
  Forall (fun row => snd (body row) = Ok tt) pre ->
  body x = (calls, Ok tt) ->
  Alerts.for_each body (pre ++ x :: post)
  = (flat_map (fun row => fst (body row)) pre
     ++ calls ++ fst (Alerts.for_each body post),
     snd (Alerts.for_each body post)).
Proof.
  intros Hpre Hx. induction Hpre as [|a pre Ha _ IH]; cbn [app flat_map].
  - cbn [Alerts.for_each]. rewrite Hx. unfold Alerts.sbind.
    destruct (Alerts.for_each body post) as [ev r]. reflexivity.
  - cbn [Alerts.for_each]. destruct (body a) as [ea ra]. cbn [snd] in Ha.
    subst ra. rewrite IH. cbn [Alerts.sbind fst]. rewrite app_assoc.
    reflexivity.
Qed.

(** A rule that is found makes the rule map a true value. *)
Lemma rule_found_settings_true (alert_settings h : value) (rd : dict) :
  get_key alert_settings h = Ok (VDict rd) -> truthy alert_settings = true.
Proof.
  destruct alert_settings as [| | | | | |d]; cbn; try discriminate.
  destruct (hashable h); [|discriminate].
  destruct d as [|item d]; [discriminate | reflexivity].
Qed.

(** C1. A row that is evaluated (its Hostname is present and is not
    TOTAL, and the pools and the rows before it have been gone through
    without error), whose usage parses to [u] and whose hostname has a
    rule with integer threshold [t], sets off calls of
    [send_alert_notification] exactly when [0 < t < u]: then one call
    for the email channel if the rule's email flag is set and one for
    the syslog channel if its syslog flag is set, each independently of
    the other; at [u = t] it sets off none.  [check_license_alerts]
    makes these calls after those of the pools and rows before and ahead
    of those of the rows and pools after. *)
Theorem alert_exactly_when_over_threshold
  (s : state) (pool_name : string) (pre post : list value)
  (pools_before pools_after : list (value * value))
  (events_before : list AlertEvent)
  (client h ap : value) (u t : Z) (rd : dict) :
  let alert_settings := dget (config_data s) "alert_settings" (VDict []) in
  String.prefix pool_prefix pool_name = true ->
  Alerts.for_each (check_pool alert_settings) pools_before
    = (events_before, Ok tt) ->
  Forall (fun row => snd (check_client alert_settings row) = Ok tt) pre ->
  get client "Hostname" VNone = Ok h ->
  truthy h && negb (py_eq h (VStr "TOTAL")) = true ->
  get client "AP" (VInt 0) = Ok ap ->
  int ap = Ok u ->
  get_key alert_settings h = Ok (VDict rd) ->
  rd <> [] ->
  dget rd "threshold" (VInt 0) = VInt t ->
  let ev channel := {| hostname := h; ap_value := u;
                       threshold := VInt t; alert_type := channel |} in
  let email := truthy (dget rd "email_enabled" (VBool false)) in
  let syslog := truthy (dget rd "syslog_enabled" (VBool false)) in
  let calls :=
    if (0 <? t) && (t <? u)
    then (if email then [ev "email"%string] else []) ++
         (if syslog then [ev "syslog"%string] else [])
    else [] in
  let later :=
    Alerts.sbind (Alerts.for_each (check_client alert_settings) post)
      (fun _ => Alerts.for_each (check_pool alert_settings) pools_after) in
  check_client alert_settings client = (calls, Ok tt)
  /\ (u = t -> calls = [])
  /\ Notify.check_license_alerts
       (VDict (pools_before
               ++ (VStr pool_name, VList (pre ++ client :: post))
                  :: pools_after)) s
     = Runtime.for_each Notify.send_alert_notification
         (events_before
          ++ flat_map (fun row => fst (check_client alert_settings row)) pre
          ++ calls
          ++ fst later) s.
Proof.
  intros alert_settings Hname Hpools Hpre Hh Hev Hap Hu Hrule Hne Ht
         ev email syslog calls later.
  pose proof (check_client_evaluated _ _ _ _ _ _ _
                Hh Hev Hap Hu Hrule Hne Ht) as E.
  split; [exact E|]. split.
  - intros ->. unfold calls. rewrite Z.ltb_irrefl, andb_false_r.
    reflexivity.
  - unfold Notify.check_license_alerts, mbind, gets. f_equal.
    unfold Alerts.check_license_alerts, check_license_alerts_body.
    fold alert_settings.
    rewrite (rule_found_settings_true _ _ _ Hrule). cbn [negb items].
    rewrite sbind_lift_ok, scan_for_each_app, Hpools.
    cbn [Alerts.for_each].
    unfold check_pool at 1. cbn [startswith iter]. rewrite Hname.
    rewrite !sbind_lift_ok.
    rewrite (scan_rows_around (check_client alert_settings) pre post
               client calls Hpre E).
    unfold later.
    destruct (Alerts.for_each (check_client alert_settings) post)
      as [evs_post [[]|e]];
      [destruct (Alerts.for_each (check_pool alert_settings) pools_after)
         as [evs_after r]|];
      cbn [Alerts.sbind Alerts.try_except fst snd];
      try destruct r;
      cbn [Alerts.try_except fst];
      rewrite <- ?app_assoc; reflexivity.
Qed.

(** The second scenario of the specification's section 8, through the
    theorem: rule 10 with email only for ap-02, usage 12, after an item
    that is no pool and a row for ap-01, which has no rule.  The one
    call is the mail. *)
Lemma alert_exactly_when_over_threshold_witness :
  trace
    (snd (Notify.check_license_alerts
            (VDict ([(VStr "_meta", VList [VStr "Hostname"; VStr "AP"])]
                    ++ (VStr "License Clients License Usage for pool default",
                        VList ([usage_row "ap-01" (VStr "30")]
                               ++ usage_row "ap-02" (VStr "12") :: []))
                       :: []))
            (set_world [] all_ok [] (alerting_state []))))
  = [SmtpPlain (VStr "mail.example.com") (VInt 587); StartTls;
     SmtpLogin (VStr "monitor") (VStr "secret");
     SendMessage (VStr "monitor@example.com") "noc@example.com"
                 (AlertText alert_ap02);
     SmtpQuit].
Proof.
  rewrite (proj2 (proj2 (alert_exactly_when_over_threshold
    (set_world [] all_ok [] (alerting_state []))
    "License Clients License Usage for pool default"
    [usage_row "ap-01" (VStr "30")] []
    [(VStr "_meta", VList [VStr "Hostname"; VStr "AP"])] [] []
    (usage_row "ap-02" (VStr "12")) (VStr "ap-02") (VStr "12") 12 10
    [(VStr "threshold", VInt 10);
     (VStr "email_enabled", VBool true);
     (VStr "syslog_enabled", VBool false)]
    eq_refl eq_refl ltac:(repeat constructor)
    eq_refl eq_refl eq_refl eq_refl eq_refl
    ltac:(discriminate) eq_refl))).
  reflexivity.
Defined.

Lemma scan_for_each_replace {X} (body : X -> scan unit) (x y : X)
  (l1 l2 : list X) :
  body x = body y ->
  Alerts.for_each body (l1 ++ x :: l2) = Alerts.for_each body (l1 ++ y :: l2).
Proof.
  intros H. rewrite !scan_for_each_app. cbn [Alerts.for_each].
  rewrite H. reflexivity.
Qed.

Lemma scan_for_each_skip {X} (body : X -> scan unit) (x : X)
  (l1 l2 : list X) :
  body x = ([], Ok tt) ->
  Alerts.for_each body (l1 ++ x :: l2) = Alerts.for_each body (l1 ++ l2).
Proof.
  intros H. rewrite !scan_for_each_app. cbn [Alerts.for_each].
  rewrite H. f_equal.
  unfold Alerts.sbind. destruct (Alerts.for_each body l2). reflexivity.
Qed.

(** C4. A row whose Hostname is absent or is "TOTAL" gives no event and
    no error, whatever its usage value and whatever the rules; the scan
    of its pool, and the whole check of the snapshot holding that pool,
    come out as if the row were not there. *)
Theorem total_and_nameless_rows_not_evaluated
  (config_data : dict) (alert_settings pool_name : value)
  (pre post : list value) (pools_before pools_after : list (value * value))
  (d : dict) :
  lookup (VStr "Hostname") d = None \/
  lookup (VStr "Hostname") d = Some (VStr "TOTAL") ->
  check_client alert_settings (VDict d) = ([], Ok tt)
  /\ Alerts.for_each (check_client alert_settings) (pre ++ VDict d :: post)
     = Alerts.for_each (check_client alert_settings) (pre ++ post)
  /\ Alerts.check_license_alerts config_data
       (VDict (pools_before
               ++ (pool_name, VList (pre ++ VDict d :: post)) :: pools_after))
     = Alerts.check_license_alerts config_data
       (VDict (pools_before
               ++ (pool_name, VList (pre ++ post)) :: pools_after)).
Proof.
  intros H.
  assert (Hskip : forall settings, Alerts.for_each (check_client settings)
                    (pre ++ VDict d :: post)
                  = Alerts.for_each (check_client settings) (pre ++ post)).
  { intros settings. apply scan_for_each_skip.
    apply check_client_skipped, H. }
  split; [apply check_client_skipped, H|].
  split; [apply Hskip|].
  unfold Alerts.check_license_alerts, check_license_alerts_body.
  destruct (negb (truthy (dget config_data "alert_settings" (VDict []))));
    [reflexivity|].
  cbn [items]. rewrite !sbind_lift_ok. f_equal.
  apply scan_for_each_replace.
  unfold check_pool. destruct (startswith pool_name pool_prefix) as [[]|e];
    rewrite ?sbind_lift_ok, ?sbind_lift_raise; try reflexivity.
  cbn [iter]. rewrite !sbind_lift_ok. apply Hskip.
Qed.

(** The last scenario of section 8: a TOTAL row with usage 999 and a
    rule filed under "TOTAL". *)
Lemma total_and_nameless_rows_not_evaluated_witness :
  check_client
    (VDict [(VStr "TOTAL",
             VDict [(VStr "threshold", VInt 10);
                    (VStr "email_enabled", VBool true);
                    (VStr "syslog_enabled", VBool true)])])
    (VDict [(VStr "Hostname", VStr "TOTAL"); (VStr "AP", VStr "999")])
  = ([], Ok tt).
Proof.
  exact (proj1 (total_and_nameless_rows_not_evaluated
    [] (VDict [(VStr "TOTAL",
             VDict [(VStr "threshold", VInt 10);
                    (VStr "email_enabled", VBool true);
                    (VStr "syslog_enabled", VBool true)])])
    (VStr "License Clients License Usage for pool default") [] [] [] []
    [(VStr "Hostname", VStr "TOTAL"); (VStr "AP", VStr "999")]
    (or_intror eq_refl))).
Defined.

(** *** Malformed usage values *)

(** C2, on the code.  With a rule for ap-02 only, the pool
    [ap-01: "N/A"; ap-02: "12"] yields no call at all and no mail is
    sent, while the same pool with 0 in place of "N/A" yields the email
    call for ap-02 and the mail goes out.  [int] raises on the malformed
    value, which is not read as 0, and the handler around the whole
    check ends the scan there: the rows after it are not evaluated. *)
Theorem malformed_usage_is_not_zero :
  int (VStr "N/A") = Raise ValueError
  /\ Alerts.check_license_alerts rules_ap02
       (default_pool [usage_row "ap-01" (VStr "N/A");
                      usage_row "ap-02" (VStr "12")])
     = ([], Ok tt)
  /\ Alerts.check_license_alerts rules_ap02
       (default_pool [usage_row "ap-01" (VInt 0);
                      usage_row "ap-02" (VStr "12")])
     = ([{| hostname := VStr "ap-02"; ap_value := 12;
            threshold := VInt 10; alert_type := "email" |}], Ok tt)
  /\ Alerts.check_license_alerts rules_ap02
       (default_pool [usage_row "ap-01" (VStr "N/A");
                      usage_row "ap-02" (VStr "12")])
     <> Alerts.check_license_alerts rules_ap02
       (default_pool [usage_row "ap-01" (VInt 0);
                      usage_row "ap-02" (VStr "12")])
  /\ Notify.check_license_alerts
       (default_pool [usage_row "ap-01" (VStr "N/A");
                      usage_row "ap-02" (VStr "12")])
       (set_world [] all_ok [] (alerting_state []))
     = (Ok tt, set_world [] all_ok [] (alerting_state []))
  /\ trace
       (snd (Notify.check_license_alerts
               (default_pool [usage_row "ap-01" (VInt 0);
                              usage_row "ap-02" (VStr "12")])
               (set_world [] all_ok [] (alerting_state []))))
     = [SmtpPlain (VStr "mail.example.com") (VInt 587); StartTls;
        SmtpLogin (VStr "monitor") (VStr "secret");
        SendMessage (VStr "monitor@example.com") "noc@example.com"
                    (AlertText alert_ap02);
        SmtpQuit].
Proof.
  repeat split; try reflexivity.
  vm_compute. discriminate.
Qed.

(** An evaluated row whose usage value [int] rejects raises, whether or
    not its hostname has a rule. *)
Lemma check_client_malformed (alert_settings : value) (d : dict)
  (h : value) (e : exn) :
  dget d "Hostname" VNone = h ->
  truthy h && negb (py_eq h (VStr "TOTAL")) = true ->
  int (dget d "AP" (VInt 0)) = Raise e ->
  check_client alert_settings (VDict d) = ([], Raise e).
Proof.
  intros Hh Hev Hbad.
  apply andb_prop in Hev as Hev'. destruct Hev' as [Htr _].
  pose proof (truthy_dget_lookup _ _ _ Hh Htr) as Hl.
  unfold check_client. cbn [get]. rewrite sbind_lift_ok, Hh, Hev.
  unfold index, dindex. rewrite Hl, !sbind_lift_ok, Hbad.
  reflexivity.
Qed.

(** In general: a malformed usage value in an evaluated row stops the
    check at that row.  The events are those of the pools and rows
    before it (which are taken to scan without error), the rows and
    pools after it are not evaluated, and the error is caught inside
    [check_license_alerts], which returns normally. *)
Theorem malformed_usage_stops_scan
  (config_data : dict) (pool_name : string) (d : dict) (h : value)
  (e : exn) (pre post : list value)
  (pools_before pools_after : list (value * value))
  (events_before events_pre : list AlertEvent) :
  let alert_settings := dget config_data "alert_settings" (VDict []) in
  truthy alert_settings = true ->
  String.prefix pool_prefix pool_name = true ->
  dget d "Hostname" VNone = h ->
  truthy h && negb (py_eq h (VStr "TOTAL")) = true ->
  int (dget d "AP" (VInt 0)) = Raise e ->
  Alerts.for_each (check_pool alert_settings) pools_before
    = (events_before, Ok tt) ->
  Alerts.for_each (check_client alert_settings) pre = (events_pre, Ok tt) ->
  Alerts.check_license_alerts config_data
    (VDict (pools_before
            ++ (VStr pool_name, VList (pre ++ VDict d :: post))
               :: pools_after))
  = (events_before ++ events_pre, Ok tt).
Proof.
  intros alert_settings Hset Hname Hh Hev Hbad Hpools Hpre.
  unfold Alerts.check_license_alerts, check_license_alerts_body.
  fold alert_settings. rewrite Hset. cbn [negb items].
  rewrite sbind_lift_ok, scan_for_each_app, Hpools.
  cbn [Alerts.for_each Alerts.sbind].
  unfold check_pool at 1. cbn [startswith iter]. rewrite Hname.
  rewrite !sbind_lift_ok, scan_for_each_app, Hpre.
  cbn [Alerts.for_each Alerts.sbind].
  rewrite (check_client_malformed alert_settings d h e Hh Hev Hbad).
  cbn [Alerts.sbind Alerts.try_except app]. rewrite app_nil_r.
  reflexivity.
Qed.

Lemma malformed_usage_stops_scan_witness :
  Alerts.check_license_alerts
    [(VStr "alert_settings", VDict [(VStr "ap-00", email_rule_10)])]
    (VDict ([] ++ (VStr "License Clients License Usage for pool default",
                   VList ([usage_row "ap-00" (VStr "11")]
                          ++ usage_row "ap-01" (VStr "N/A")
                             :: [usage_row "ap-00" (VStr "12")]))
                  :: []))
  = ([] ++ [{| hostname := VStr "ap-00"; ap_value := 11;
               threshold := VInt 10; alert_type := "email" |}], Ok tt).
Proof.
  exact (malformed_usage_stops_scan
    [(VStr "alert_settings", VDict [(VStr "ap-00", email_rule_10)])]
    "License Clients License Usage for pool default"
    [(VStr "Hostname", VStr "ap-01"); (VStr "AP", VStr "N/A")]
    (VStr "ap-01") ValueError
    [usage_row "ap-00" (VStr "11")] [usage_row "ap-00" (VStr "12")]
    [] [] []
    [{| hostname := VStr "ap-00"; ap_value := 11;
        threshold := VInt 10; alert_type := "email" |}]
    eq_refl eq_refl eq_refl eq_refl eq_refl eq_refl eq_refl).
Defined.

(** ** What a computation leaves alone *)

Section Frame.

Context {X : Type} (f : state -> X).

Lemma keeps_ret {A} (a : A) : keeps f (ret a).
Proof. intros s. reflexivity. Qed.

Lemma keeps_raise {A} (e : exn) : keeps f (@raise A e).
Proof. intros s. reflexivity. Qed.

Lemma keeps_lift {A} (r : res A) : keeps f (lift r).
Proof. intros s. reflexivity. Qed.

Lemma keeps_gets {A} (g : state -> A) : keeps f (gets g).
Proof. intros s. reflexivity. Qed.

Lemma keeps_modify (g : state -> state) :
  (forall s, f (g s) = f s) -> keeps f (modify g).
Proof. intros H s. apply H. Qed.

Lemma keeps_bind {A B} (m : M A) (k : A -> M B) :
  keeps f m -> (forall a, keeps f (k a)) -> keeps f (mbind m k).
Proof.
  intros Hm Hk s. unfold mbind. specialize (Hm s).
  destruct (m s) as [[a|e] s']; cbn [snd] in *.
  - rewrite Hk. exact Hm.
  - exact Hm.
Qed.

Lemma keeps_try_except {A} (m : M A) (h : exn -> M A) :
  keeps f m -> (forall e, keeps f (h e)) -> keeps f (try_except m h).
Proof.
  intros Hm Hh s. unfold try_except. specialize (Hm s).
  destruct (m s) as [[a|e] s']; cbn [snd] in *.
  - exact Hm.
  - rewrite Hh. exact Hm.
Qed.

Lemma keeps_try_except_request {A} (m h : M A) :
  keeps f m -> keeps f h -> keeps f (try_except_request m h).
Proof.
  intros Hm Hh s. unfold try_except_request. specialize (Hm s).
  destruct (m s) as [[a|[]] s']; cbn [snd] in *; try exact Hm.
  rewrite Hh. exact Hm.
Qed.

Lemma keeps_when (c : bool) (m : M unit) : keeps f m -> keeps f (when c m).
Proof. intros H. destruct c; [exact H | apply keeps_ret]. Qed.

Lemma keeps_for_each {Y} (body : Y -> M unit) (l : list Y) :
  (forall y, keeps f (body y)) -> keeps f (for_each body l).
Proof.
  intros H. induction l as [|y l IH]; cbn [for_each].
  - apply keeps_ret.
  - apply keeps_bind; [apply H | intros _; exact IH].
Qed.

Lemma keeps_http_request (e : effect) : world_blind f -> keeps f (http_request e).
Proof.
  intros H s. unfold http_request.
  destruct (http s) as [|[|body] rest]; cbn [snd]; apply H.
Qed.

Lemma keeps_io_step (e : effect) : world_blind f -> keeps f (io_step e).
Proof.
  intros H s. unfold io_step.
  destruct (io s) as [|[] rest]; cbn [snd]; apply H.
Qed.

Lemma keeps_perform (e : effect) : world_blind f -> keeps f (perform e).
Proof. intros H s. apply H. Qed.

Lemma keeps_wait (d : duration) (ns : Z) :
  world_blind f -> keeps f (Poller.wait d ns).
Proof.
  intros H s. unfold Poller.wait.
  destruct (ns <=? Poller.clock_room); [apply H|].
  destruct (io s) as [|[] rest]; cbn [snd]; first [apply H | reflexivity].
Qed.

End Frame.

(** Splits a goal [keeps f m] along the shape of [m]. *)
Ltac frame_step :=
  match goal with
  | |- keeps _ (mbind _ _) => apply keeps_bind; [|intros ?]
  | |- keeps _ (try_except _ _) => apply keeps_try_except; [|intros ?]
  | |- keeps _ (try_except_request _ _) => apply keeps_try_except_request
  | |- keeps _ (when _ _) => apply keeps_when
  | |- keeps _ (for_each _ _) => apply keeps_for_each; intros ?
  | |- keeps _ (ret _) => apply keeps_ret
  | |- keeps _ (raise _) => apply keeps_raise
  | |- keeps _ (lift _) => apply keeps_lift
  | |- keeps _ (gets _) => apply keeps_gets
  | |- keeps _ (http_request _) => apply keeps_http_request; assumption
  | |- keeps _ (io_step _) => apply keeps_io_step; assumption
  | |- keeps _ (perform _) => apply keeps_perform; assumption
  | |- keeps _ (Poller.wait _ _) => apply keeps_wait; assumption
  | |- keeps _ (if ?c then _ else _) => destruct c
  | |- keeps _ (match ?x with _ => _ end) => destruct x
  end.

Ltac frame := repeat frame_step.

(** ** The device session client *)

Section ClientFrame.

Context {X : Type} (f : state -> X) (Hw : world_blind f).

Lemma login_keeps c username password :
  keeps f (Client.login c username password).
Proof. unfold Client.login. frame. Qed.

Lemma logout_keeps c : keeps f (Client.logout c).
Proof. unfold Client.logout. frame. Qed.

Lemma show_command_keeps c command :
  keeps f (Client.show_command c command).
Proof. unfold Client.show_command. frame. Qed.

Lemma get_license_usage_keeps ip username password :
  keeps f (Fetch.get_license_usage ip username password).
Proof.
  unfold Fetch.get_license_usage.
  frame; first [apply login_keeps | apply logout_keeps
               | apply show_command_keeps].
Qed.

End ClientFrame.

(** Without a session identifier the two calls answer at once. *)
Lemma refused_without_uid c command s :
  truthy (Client.uid_aruba c) = false ->
  Client.show_command c command s
    = (Ok (Client.Error Client.NotLoggedIn, c), s)
  /\ Client.logout c s = (Ok (Client.Error Client.NotLoggedIn, c), s).
Proof.
  intros H. unfold Client.show_command, Client.logout. rewrite H.
  split; reflexivity.
Qed.

(** A login that reports an error has not touched the client. *)
Lemma login_error_same_client c username password s why c' s' :
  Client.login c username password s = (Ok (Client.Error why, c'), s') ->
  c' = c.
Proof.
  unfold Client.login, try_except_request, mbind, http_request, lift, ret.
  destruct (http s) as [|[|body] rest]; try (intros [= _ <- _]; reflexivity).
  destruct (get body "_global_result" (VDict [])) as [global|e];
    [|destruct e; intros [=]; congruence].
  destruct (get global "status" VNone) as [status|e];
    [|destruct e; intros [=]; congruence].
  destruct (py_eq status (VStr "0")).
  - destruct (index body "_global_result") as [global'|e];
      [|destruct e; intros [=]; congruence].
    destruct (index global' "UIDARUBA") as [uid|e];
      [|destruct e; intros [=]; congruence].
    intros [=].
  - intros [= _ <- _]. reflexivity.
Qed.

Lemma before_login_no_uid c : before_login c -> Client.uid_aruba c = VNone.
Proof.
  induction 1 as [ip | c u p s why c' s' _ IH Hl
                 | c cmd s r c' s' _ IH Hs | c s r c' s' _ IH Ho].
  - reflexivity.
  - apply login_error_same_client in Hl. subst c'. exact IH.
  - assert (Hf : truthy (Client.uid_aruba c) = false) by (rewrite IH; reflexivity).
    destruct (refused_without_uid c cmd s Hf) as [E _].
    rewrite E in Hs. injection Hs as _ <- _. exact IH.
  - assert (Hf : truthy (Client.uid_aruba c) = false) by (rewrite IH; reflexivity).
    destruct (refused_without_uid c "" s Hf) as [_ E].
    rewrite E in Ho. injection Ho as _ <- _. exact IH.
Qed.

(** C10. On a client that has not logged in successfully, [show_command]
    and [logout] return the error result "not logged in"; the state of
    the world after the call is the state before it (no request was
    sent, no reply consumed) and the client is the same. *)
Theorem calls_before_login_are_refused c command s :
  before_login c ->
  Client.show_command c command s
    = (Ok (Client.Error Client.NotLoggedIn, c), s)
  /\ Client.logout c s = (Ok (Client.Error Client.NotLoggedIn, c), s).
Proof.
  intros H. apply refused_without_uid.
  rewrite (before_login_no_uid c H). reflexivity.
Qed.

(** A client whose only login was turned down by the controller. *)
Lemma calls_before_login_are_refused_witness :
  let c := Client.new (VStr "10.0.60.60") in
  Client.show_command c "show license-usage" idle_state
    = (Ok (Client.Error Client.NotLoggedIn, c), idle_state)
  /\ Client.logout c idle_state
    = (Ok (Client.Error Client.NotLoggedIn, c), idle_state).
Proof.
  apply (calls_before_login_are_refused _ "show license-usage" idle_state).
  apply (before_login_failed (Client.new (VStr "10.0.60.60"))
           (VStr "admin") (VStr "wrong")
           (set_world [Replies (VDict [(VStr "_global_result",
                         VDict [(VStr "status", VStr "1")])])] [] []
                      idle_state)
           (Client.LoginRejected (VDict [(VStr "_global_result",
                         VDict [(VStr "status", VStr "1")])]))
           (Client.new (VStr "10.0.60.60"))
           (set_world [] [] [HttpLogin (VStr "10.0.60.60") (VStr "admin")
                                       (VStr "wrong")] idle_state)).
  - apply before_login_new.
  - reflexivity.
Defined.

(** ** The senders *)

Section NotifyFrame.

Context {X : Type} (f : state -> X).
Context (Hw : world_blind f) (Hc : channel_blind f).

Lemma connect_keeps c : keeps f (Notify.connect c).
Proof. unfold Notify.connect. frame. Qed.

Lemma send_email_keeps msg : keeps f (Notify.send_email msg).
Proof. unfold Notify.send_email. frame. apply connect_keeps. Qed.

Lemma send_syslog_keeps msg : keeps f (Notify.send_syslog msg).
Proof. unfold Notify.send_syslog. frame. Qed.

Lemma configure_smtp_keeps server port username password from_email to :
  keeps f (Notify.configure_smtp server port username password
                                 from_email to).
Proof. apply keeps_modify. intros s. apply (proj1 Hc). Qed.

Lemma configure_syslog_keeps server port :
  keeps f (Notify.configure_syslog server port).
Proof. apply keeps_modify. intros s. apply (proj2 Hc). Qed.

Lemma send_alert_notification_keeps ev :
  keeps f (Notify.send_alert_notification ev).
Proof.
  unfold Notify.send_alert_notification, Notify.lazy_configure_smtp,
    Notify.lazy_configure_syslog.
  frame; first [apply send_email_keeps | apply send_syslog_keeps
               | apply configure_smtp_keeps | apply configure_syslog_keeps].
Qed.

Lemma check_license_alerts_keeps license_data :
  keeps f (Notify.check_license_alerts license_data).
Proof.
  unfold Notify.check_license_alerts. frame.
  apply send_alert_notification_keeps.
Qed.

Lemma send_notifications_keeps license_data :
  keeps f (Notify.send_notifications license_data).
Proof.
  unfold Notify.send_notifications.
  frame; first [apply send_email_keeps | apply send_syslog_keeps].
Qed.

End NotifyFrame.

Lemma config_world_blind : world_blind config_data.
Proof. intros h i t s. reflexivity. Qed.

Lemma config_channel_blind : channel_blind config_data.
Proof. split; intros c s; reflexivity. Qed.

Lemma snapshot_world_blind : world_blind license_data.
Proof. intros h i t s. reflexivity. Qed.

Lemma snapshot_channel_blind : channel_blind license_data.
Proof. split; intros c s; reflexivity. Qed.

(** ** Fetching *)

(** [get_license_usage] reports every failure as a result: it returns,
    with success or an error, and never raises. *)
Lemma get_license_usage_returns ip username password s :
  exists r s', Fetch.get_license_usage ip username password s = (Ok r, s').
Proof.
  unfold Fetch.get_license_usage, try_except.
  match goal with |- context [match ?m s with _ => _ end] =>
    destruct (m s) as [[r|e] s1] end.
  - eauto.
  - unfold ret. eauto.
Qed.

Lemma truthy_dget_dindex (d : dict) (k : string) :
  truthy (dget d k VNone) = true -> dindex d k = Ok (dget d k VNone).
Proof.
  unfold dget, dindex. destruct (lookup (VStr k) d); [reflexivity|discriminate].
Qed.

Lemma dindex_dget (d : dict) (k : string) (v : value) :
  dindex d k = Ok v -> dget d k VNone = v.
Proof.
  unfold dget, dindex. destruct (lookup (VStr k) d); congruence.
Qed.

(** ** Running a computation from a given state *)

Lemma mbind_gets {A B} (g : state -> A) (k : A -> M B) s :
  mbind (gets g) k s = k (g s) s.
Proof. reflexivity. Qed.

Lemma mbind_lift_ok {A B} (a : A) (k : A -> M B) s :
  mbind (lift (Ok a)) k s = k a s.
Proof. reflexivity. Qed.

Lemma mbind_lift_raise {A B} (e : exn) (k : A -> M B) s :
  mbind (lift (Raise e)) k s = (Raise e, s).
Proof. reflexivity. Qed.

Lemma mbind_run {A B} (m : M A) (k : A -> M B) s a s' :
  m s = (Ok a, s') -> mbind m k s = k a s'.
Proof. intros H. unfold mbind. rewrite H. reflexivity. Qed.

Lemma mbind_run_raise {A B} (m : M A) (k : A -> M B) s e s' :
  m s = (Raise e, s') -> mbind m k s = (Raise e, s').
Proof. intros H. unfold mbind. rewrite H. reflexivity. Qed.

(** [send_alert_notification] catches whatever is raised inside it. *)
Lemma send_alert_notification_returns ev s :
  exists s', Notify.send_alert_notification ev s = (Ok tt, s').
Proof.
  unfold Notify.send_alert_notification, try_except.
  match goal with |- context [match ?m s with _ => _ end] =>
    destruct (m s) as [[[]|e] s1] end.
  - eauto.
  - unfold ret. eauto.
Qed.

Lemma for_each_returns {Y} (body : Y -> M unit) (l : list Y) :
  (forall y s, exists s', body y s = (Ok tt, s')) ->
  forall s, exists s', for_each body l s = (Ok tt, s').
Proof.
  intros H. induction l as [|y l IH]; intros s; cbn [for_each].
  - exists s. reflexivity.
  - destruct (H y s) as [s1 E]. rewrite (mbind_run _ _ _ _ _ E). apply IH.
Qed.

(** The scan itself returns normally on every input, and so does the
    whole of [check_license_alerts] with its notifications. *)
Lemma scan_never_raises (config_data : dict) (license_data : value) :
  snd (Alerts.check_license_alerts config_data license_data) = Ok tt.
Proof.
  unfold Alerts.check_license_alerts, Alerts.try_except.
  destruct (check_license_alerts_body config_data license_data)
    as [ev [[]|e]]; reflexivity.
Qed.

Lemma check_license_alerts_returns license_data s :
  exists s', Notify.check_license_alerts license_data s = (Ok tt, s').
Proof.
  unfold Notify.check_license_alerts. rewrite mbind_gets.
  apply for_each_returns. apply send_alert_notification_returns.
Qed.

Section FrameAt.

Context {X : Type} (f : state -> X).

Lemma bind_at {A B} (m : M A) (k : A -> M B) s (x : X) :
  f (snd (m s)) = x -> (forall a, keeps f (k a)) ->
  f (snd (mbind m k s)) = x.
Proof.
  intros Hm Hk. unfold mbind.
  destruct (m s) as [[a|e] s']; cbn [snd] in *.
  - rewrite Hk. exact Hm.
  - exact Hm.
Qed.

Lemma try_at {A} (m : M A) (h : exn -> M A) s (x : X) :
  f (snd (m s)) = x -> (forall e, keeps f (h e)) ->
  f (snd (try_except m h s)) = x.
Proof.
  intros Hm Hh. unfold try_except.
  destruct (m s) as [[a|e] s']; cbn [snd] in *.
  - exact Hm.
  - rewrite Hh. exact Hm.
Qed.

End FrameAt.

(** ** The snapshot *)

Section CycleAfterFetch.

Context {X : Type} (f : state -> X).
Context (Hperform : forall e, keeps f (perform e)).
Context (Hwait : forall d ns, keeps f (Poller.wait d ns)).

(** A cycle that has no credentials to poll with only sleeps. *)
Lemma polling_cycle_without_credentials s :
  truthy (dget (config_data s) "controller_ip" VNone)
  && truthy (dget (config_data s) "username" VNone)
  && truthy (dget (config_data s) "password" VNone) = false ->
  f (snd (Poller.polling_cycle s)) = f s.
Proof.
  intros Hc. unfold Poller.polling_cycle. apply try_at.
  2:{ intros e. apply Hperform. }
  rewrite mbind_gets. apply bind_at.
  2:{ intros _. frame. apply Hwait. }
  rewrite Hc. reflexivity.
Qed.

(** After a fetch that failed, a cycle only sleeps: what it leaves of
    the state, the sleep apart, is what the fetch left. *)
Lemma polling_cycle_after_failed_fetch s s1 why :
  truthy (dget (config_data s) "controller_ip" VNone)
  && truthy (dget (config_data s) "username" VNone)
  && truthy (dget (config_data s) "password" VNone) = true ->
  Fetch.get_license_usage
    (dget (config_data s) "controller_ip" VNone)
    (dget (config_data s) "username" VNone)
    (dget (config_data s) "password" VNone) s
  = (Ok (Fetch.Error why), s1) ->
  f (snd (Poller.polling_cycle s)) = f s1.
Proof.
  intros Hc Hfetch. unfold Poller.polling_cycle. apply try_at.
  2:{ intros e. apply Hperform. }
  rewrite mbind_gets. apply bind_at.
  2:{ intros _. frame. apply Hwait. }
  rewrite Hc. cbn [when].
  apply andb_prop in Hc. destruct Hc as [Hc Ep].
  apply andb_prop in Hc. destruct Hc as [Eip Eu].
  rewrite (truthy_dget_dindex _ _ Eip), mbind_lift_ok.
  rewrite (truthy_dget_dindex _ _ Eu), mbind_lift_ok.
  rewrite (truthy_dget_dindex _ _ Ep), mbind_lift_ok.
  rewrite (mbind_run _ _ _ _ _ Hfetch). reflexivity.
Qed.

End CycleAfterFetch.

Lemma wait_keeps_snapshot d ns : keeps license_data (Poller.wait d ns).
Proof.
  intros s. unfold Poller.wait.
  destruct (ns <=? Poller.clock_room); [reflexivity|].
  destruct (io s) as [|[] rest]; reflexivity.
Qed.

Lemma wait_keeps_replies d ns : keeps http (Poller.wait d ns).
Proof.
  intros s. unfold Poller.wait.
  destruct (ns <=? Poller.clock_room); [reflexivity|].
  destruct (io s) as [|[] rest]; reflexivity.
Qed.

Lemma perform_keeps_snapshot e : keeps license_data (perform e).
Proof. apply keeps_perform, snapshot_world_blind. Qed.

Lemma perform_keeps_replies e : keeps http (perform e).
Proof. intros s. reflexivity. Qed.

(** A refresh whose fetch failed leaves the snapshot; so does one that
    stops before the fetch. *)
Lemma refresh_after_failed_fetch s s1 why :
  Fetch.get_license_usage
    (dget (config_data s) "controller_ip" VNone)
    (dget (config_data s) "username" VNone)
    (dget (config_data s) "password" VNone) s
  = (Ok (Fetch.Error why), s1) ->
  license_data s1 = license_data s ->
  license_data (snd (Web.refresh_license s)) = license_data s.
Proof.
  intros Hfetch H1. unfold Web.refresh_license. apply try_at.
  2:{ intros e. apply keeps_ret. }
  rewrite mbind_gets.
  destruct (truthy (dget (config_data s) "controller_ip" VNone)) eqn:Eip;
    [|reflexivity].
  cbn [negb].
  rewrite (truthy_dget_dindex _ _ Eip), mbind_lift_ok.
  destruct (dindex (config_data s) "username") as [u|e] eqn:Eu;
    [|reflexivity].
  rewrite mbind_lift_ok.
  destruct (dindex (config_data s) "password") as [p|e] eqn:Ep;
    [|reflexivity].
  rewrite mbind_lift_ok.
  apply dindex_dget in Eu, Ep. subst u p.
  rewrite (mbind_run _ _ _ _ _ Hfetch). exact H1.
Qed.

(** C7. When the fetch of a poll cycle or of a manual refresh fails,
    with a login error, a command error or an exception, all of which
    [get_license_usage] reports as an error result, the snapshot
    [license_data] after the cycle, and after the refresh, is the one
    from before. *)
Theorem failed_fetch_keeps_snapshot (s s1 : state) (why : Fetch.failure) :
  Fetch.get_license_usage
    (dget (config_data s) "controller_ip" VNone)
    (dget (config_data s) "username" VNone)
    (dget (config_data s) "password" VNone) s
  = (Ok (Fetch.Error why), s1) ->
  license_data (snd (Poller.polling_cycle s)) = license_data s
  /\ license_data (snd (Web.refresh_license s)) = license_data s.
Proof.
  intros Hfetch.
  assert (H1 : license_data s1 = license_data s).
  { pose proof (get_license_usage_keeps license_data snapshot_world_blind
                  (dget (config_data s) "controller_ip" VNone)
                  (dget (config_data s) "username" VNone)
                  (dget (config_data s) "password" VNone) s) as K.
    rewrite Hfetch in K. exact K. }
  split.
  - destruct (truthy (dget (config_data s) "controller_ip" VNone)
              && truthy (dget (config_data s) "username" VNone)
              && truthy (dget (config_data s) "password" VNone)) eqn:Hc.
    + rewrite (polling_cycle_after_failed_fetch license_data
                 perform_keeps_snapshot wait_keeps_snapshot s s1 why Hc Hfetch).
      exact H1.
    + apply (polling_cycle_without_credentials license_data
               perform_keeps_snapshot wait_keeps_snapshot s Hc).
  - apply (refresh_after_failed_fetch s s1 why Hfetch H1).
Qed.

(** The controller is unreachable at login. *)
Lemma failed_fetch_keeps_snapshot_witness :
  license_data (snd (Poller.polling_cycle (polling_state 5 [Fails])))
    = old_snapshot
  /\ license_data (snd (Web.refresh_license (polling_state 5 [Fails])))
    = old_snapshot.
Proof.
  exact (failed_fetch_keeps_snapshot (polling_state 5 [Fails])
    (set_world [] [] [HttpLogin (VStr "10.0.60.60") (VStr "admin")
                                (VStr "secret")] (polling_state 5 [Fails]))
    (Fetch.LoginFailed Client.LoginRequestError) eq_refl).
Defined.

(** The failures of a fetch, each reported as an error result: no
    connection at login, a login turned down, a usage command that
    fails, and an exception (here a login reply that is not a dict). *)
Example fetch_failures :
  fst (Fetch.get_license_usage (VStr "10.0.60.60") (VStr "admin")
         (VStr "secret") (polling_state 5 [Fails]))
  = Ok (Fetch.Error (Fetch.LoginFailed Client.LoginRequestError))
  /\ fst (Fetch.get_license_usage (VStr "10.0.60.60") (VStr "admin")
         (VStr "secret") (polling_state 5 [login_rejected]))
  = Ok (Fetch.Error (Fetch.LoginFailed
          (Client.LoginRejected
             (VDict [(VStr "_global_result",
                      VDict [(VStr "status", VStr "1")])]))))
  /\ fst (Fetch.get_license_usage (VStr "10.0.60.60") (VStr "admin")
         (VStr "secret") (polling_state 5 [login_granted; Fails]))
  = Ok (Fetch.Error (Fetch.UsageCommandFailed Client.ShowRequestError))
  /\ fst (Fetch.get_license_usage (VStr "10.0.60.60") (VStr "admin")
         (VStr "secret") (polling_state 5 [Replies (VList [])]))
  = Ok (Fetch.Error (Fetch.FetchException AttributeError)).
Proof. repeat split; reflexivity. Qed.

(** Against a controller that does not answer, the fetch fails at the
    login. *)
Lemma fetch_unreachable ip username password s :
  unreachable s ->
  Fetch.get_license_usage ip username password s
  = (Ok (Fetch.Error (Fetch.LoginFailed Client.LoginRequestError)),
     set_world (tl (http s)) (io s)
               (trace s ++ [HttpLogin ip username password]) s).
Proof.
  unfold unreachable. intros H.
  unfold Fetch.get_license_usage, try_except, Client.login,
    try_except_request, mbind, http_request.
  destruct (http s) as [|r rest]; [reflexivity|].
  inversion H as [|r' rest' Hr Hrest]; subst. reflexivity.
Qed.

Lemma polling_cycle_unreachable s :
  unreachable s ->
  unreachable (snd (Poller.polling_cycle s))
  /\ license_data (snd (Poller.polling_cycle s)) = license_data s.
Proof.
  intros H.
  destruct (truthy (dget (config_data s) "controller_ip" VNone)
            && truthy (dget (config_data s) "username" VNone)
            && truthy (dget (config_data s) "password" VNone)) eqn:Hc.
  - pose proof (fetch_unreachable
                  (dget (config_data s) "controller_ip" VNone)
                  (dget (config_data s) "username" VNone)
                  (dget (config_data s) "password" VNone) s H) as Hf.
    split.
    + unfold unreachable.
      rewrite (polling_cycle_after_failed_fetch http perform_keeps_replies
               wait_keeps_replies
                 s _ _ Hc Hf).
      cbn [http set_world]. unfold unreachable in H.
      destruct (http s); [constructor|]. inversion H; assumption.
    + rewrite (polling_cycle_after_failed_fetch license_data
                 perform_keeps_snapshot wait_keeps_snapshot s _ _ Hc Hf).
      reflexivity.
  - split.
    + unfold unreachable.
      rewrite (polling_cycle_without_credentials http perform_keeps_replies
               wait_keeps_replies
                 s Hc).
      exact H.
    + apply (polling_cycle_without_credentials license_data
               perform_keeps_snapshot wait_keeps_snapshot s Hc).
Qed.

(** However long the loop runs against a controller that does not
    answer, the snapshot served stays the last one fetched. *)
Lemma polling_loop_unreachable (n : nat) :
  forall s, unreachable s ->
  license_data (snd (Poller.polling_loop n s)) = license_data s.
Proof.
  induction n as [|n IH]; intros s H; [reflexivity|].
  cbn [Poller.polling_loop]. rewrite mbind_gets.
  destruct (polling_active s); [|reflexivity].
  destruct (polling_cycle_unreachable s H) as [Hu Hl].
  destruct (Poller.polling_cycle s) as [[[]|e] s2] eqn:E; cbn [snd] in *.
  - rewrite (mbind_run _ _ _ _ _ E). rewrite (IH s2 Hu). exact Hl.
  - rewrite (mbind_run_raise _ _ _ _ _ E). exact Hl.
Qed.

(** ** The sleep after a failed cycle *)


(** An interval of whole minutes within [sleep_limit] is slept, and no
    question is put to the world. *)
Lemma sleep_of_minutes (z : Z) (s : state) :
  0 <= z * 60 <= Poller.sleep_limit ->
  (a <- lift (Poller.sleep_arg (VInt z)) ;; Poller.wait (fst a) (snd a)) s
  = perform (Sleep (Seconds (z * 60))) s.
Proof.
  unfold Poller.sleep_limit. intros H.
  unfold Poller.sleep_arg, Poller.whole_ns.
  destruct (Z.ltb_spec (z * 60) (- 9223372036)); [lia|].
  destruct (Z.ltb_spec 9223372036 (z * 60)); [lia|].
  destruct (Z.ltb_spec (z * 60) 0); [lia|].
  cbn [orb bind]. rewrite mbind_lift_ok. cbn [fst snd].
  unfold Poller.wait, Poller.clock_room.
  destruct (Z.leb_spec (z * 60 * 10 ^ 9) (2 ^ 62)); [reflexivity | lia].
Qed.

(** After a fetch that failed, the cycle goes on to the ordinary sleep:
    with an interval of [z] minutes the worker sleeps [z * 60] seconds. *)
Lemma failed_fetch_sleeps_interval (s s1 : state) (why : Fetch.failure)
  (z : Z) :
  truthy (dget (config_data s) "controller_ip" VNone) = true ->
  truthy (dget (config_data s) "username" VNone) = true ->
  truthy (dget (config_data s) "password" VNone) = true ->
  Fetch.get_license_usage
    (dget (config_data s) "controller_ip" VNone)
    (dget (config_data s) "username" VNone)
    (dget (config_data s) "password" VNone) s
  = (Ok (Fetch.Error why), s1) ->
  dget (config_data s) "polling_interval" (VInt 86400) = VInt z ->
  0 <= z * 60 <= Poller.sleep_limit ->
  Poller.polling_cycle s
  = (Ok tt, set_world (http s1) (io s1)
                      (trace s1 ++ [Sleep (Seconds (z * 60))]) s1).
Proof.
  intros Eip Eu Ep Hfetch Hz Hrange.
  assert (Hcfg : config_data s1 = config_data s).
  { pose proof (get_license_usage_keeps config_data config_world_blind
                  (dget (config_data s) "controller_ip" VNone)
                  (dget (config_data s) "username" VNone)
                  (dget (config_data s) "password" VNone) s) as K.
    rewrite Hfetch in K. exact K. }
  unfold Poller.polling_cycle, try_except.
  rewrite mbind_gets, Eip, Eu, Ep. cbn [andb when].
  assert (E : (controller_ip <- lift (dindex (config_data s) "controller_ip") ;;
               username <- lift (dindex (config_data s) "username") ;;
               password <- lift (dindex (config_data s) "password") ;;
               result <- Fetch.get_license_usage controller_ip username
                           password ;;
               match result with
               | Fetch.Success data =>
                   modify (set_license_data data) ;;;
                   io_step (WriteSnapshot data) ;;;
                   snapshot <- gets license_data ;;
                   has <- lift (Notify.contains snapshot "license_usage") ;;
                   when has
                     (usage <- lift (index snapshot "license_usage") ;;
                      Notify.check_license_alerts usage) ;;;
                   cfg <- gets config_data ;;
                   when (truthy (dget cfg "enable_notifications"
                                      (VBool false)))
                     (Notify.send_notifications snapshot)
               | Fetch.Error _ => ret tt
               end) s = (Ok tt, s1)).
  { rewrite (truthy_dget_dindex _ _ Eip), mbind_lift_ok.
    rewrite (truthy_dget_dindex _ _ Eu), mbind_lift_ok.
    rewrite (truthy_dget_dindex _ _ Ep), mbind_lift_ok.
    rewrite (mbind_run _ _ _ _ _ Hfetch). reflexivity. }
  rewrite (mbind_run _ _ _ _ _ E).
  rewrite mbind_gets, Hcfg, Hz.
  rewrite (sleep_of_minutes z _ Hrange). reflexivity.
Qed.

(** C3, on the code.  With an interval of 5 minutes, a cycle that fails
    because the controller cannot be reached, because it turns the login
    down, or because the usage command fails, is followed by a sleep of
    300 seconds, the whole interval, and not of 60.  The sleep of 60
    seconds is that of the [except] branch, which none of these failures
    reaches: [get_license_usage] turns them into an error result. *)
Theorem failed_cycle_sleeps_whole_interval :
  trace (snd (Poller.polling_cycle (polling_state 5 [Fails])))
    = [HttpLogin (VStr "10.0.60.60") (VStr "admin") (VStr "secret");
       Sleep (Seconds 300)]
  /\ trace (snd (Poller.polling_cycle (polling_state 5 [login_rejected])))
    = [HttpLogin (VStr "10.0.60.60") (VStr "admin") (VStr "secret");
       Sleep (Seconds 300)]
  /\ trace (snd (Poller.polling_cycle
                   (polling_state 5 [login_granted; Fails; login_granted])))
    = [HttpLogin (VStr "10.0.60.60") (VStr "admin") (VStr "secret");
       HttpShow (VStr "10.0.60.60") "show license-usage" (VStr "f3a1");
       HttpLogout (VStr "10.0.60.60");
       Sleep (Seconds 300)].
Proof. repeat split; reflexivity. Qed.

(** The [except] branch is taken when something raises in the loop body
    itself, as when the snapshot file cannot be written: then the sleep
    is of 60 seconds, and the snapshot just fetched is the current one. *)
Lemma failed_snapshot_write_sleeps_a_minute :
  trace (snd (Poller.polling_cycle
                (set_world [login_granted; Replies (VDict []);
                            Replies (VDict []); login_granted]
                           [false] [] (polling_state 5 []))))
  = [HttpLogin (VStr "10.0.60.60") (VStr "admin") (VStr "secret");
     HttpShow (VStr "10.0.60.60") "show license-usage" (VStr "f3a1");
     HttpShow (VStr "10.0.60.60") "show license summary" (VStr "f3a1");
     HttpLogout (VStr "10.0.60.60");
     WriteSnapshot (VDict [(VStr "license_usage", VDict []);
                           (VStr "license_summary", VDict [])]);
     Sleep (Seconds 60)].
Proof. reflexivity. Qed.

(** ** The mail connection *)

Lemma py_eq_int (p q : Z) : py_eq (VInt p) (VInt q) = (p =? q).
Proof.
  unfold py_eq, num_of, num_compare. cbn [Z.min Z.compare Z.sub Z.opp].
  change (2 ^ 0) with 1. rewrite !Z.mul_1_r.
  destruct (Z.compare_spec p q), (Z.eqb_spec p q); (reflexivity || lia).
Qed.

Lemma follows_ret (b : bool) : follows (ret b) [].
Proof.
  intros s. exists 0%nat. split; [congruence|].
  cbn. rewrite app_nil_r. reflexivity.
Qed.

Lemma follows_step (e : effect) (k : M bool) (rest : list effect) :
  follows k rest -> follows (mbind (io_step e) (fun _ => k)) (e :: rest).
Proof.
  intros Hk s. unfold attempt, try_except, mbind, io_step.
  destruct (io s) as [|[] more].
  - exists 1%nat. split; [lia|]. reflexivity.
  - destruct (Hk (set_world (http s) more (trace s ++ [e]) s)) as (n & _ & Hn).
    exists (S n). split; [lia|].
    unfold attempt, try_except in Hn. rewrite Hn.
    cbn [trace set_world firstn]. rewrite <- app_assoc. reflexivity.
  - exists 1%nat. split; [lia|]. reflexivity.
Qed.

Lemma follows_assoc {A B} (m : M A) (k1 : A -> M B) (k2 : B -> M bool)
  (script : list effect) :
  follows (mbind m (fun a => mbind (k1 a) k2)) script ->
  follows (mbind (mbind m k1) k2) script.
Proof.
  intros H s. destruct (H s) as (n & Hn & Ht). exists n. split; [exact Hn|].
  rewrite <- Ht. unfold attempt, try_except, mbind.
  destruct (m s) as [[a|e] s1]; reflexivity.
Qed.

Lemma send_email_follows_script s c msg to_header :
  smtp_config s = Some c ->
  Notify.join_values ", " (smtp_to_emails c) = Ok to_header ->
  exists n : nat,
    (1 <= n)%nat /\
    trace (snd (Notify.send_email msg s))
    = trace s ++ firstn n (smtp_script c to_header msg).
Proof.
  intros Hc Hj. unfold Notify.send_email. rewrite mbind_gets, Hc, Hj.
  assert (F : follows
    (Notify.connect c ;;;
     io_step (SmtpLogin (smtp_username c) (smtp_password c)) ;;;
     io_step (SendMessage (smtp_from_email c) to_header msg) ;;;
     io_step SmtpQuit ;;; ret true)
    (smtp_script c to_header msg)).
  { unfold Notify.connect, smtp_script.
    destruct (py_eq (smtp_port c) (VInt 465)); cbn [app].
    - repeat apply follows_step. apply follows_ret.
    - apply follows_assoc. repeat apply follows_step. apply follows_ret. }
  destruct (F s) as (n & Hn & Ht). exists n. split.
  - apply Hn. unfold smtp_script.
    destruct (py_eq (smtp_port c) (VInt 465)); discriminate.
  - exact Ht.
Qed.

(** [send_email] on a configured manager whose recipients are strings:
    the script is attempted step by step as the world lets it, and the
    answer is whether all of it went through. *)
Lemma send_email_runs s c msg to_header :
  smtp_config s = Some c ->
  Notify.join_values ", " (smtp_to_emails c) = Ok to_header ->
  Notify.send_email msg s
  = (Ok (completed (smtp_script c to_header msg) (io s)),
     set_world (http s) (unused (smtp_script c to_header msg) (io s))
       (trace s ++ attempted (smtp_script c to_header msg) (io s)) s).
Proof.
  intros Hc Hj. unfold Notify.send_email. rewrite mbind_gets, Hc.
  unfold try_except. rewrite Hj, mbind_lift_ok.
  unfold Notify.connect, smtp_script.
  destruct (py_eq (smtp_port c) (VInt 465));
    unfold mbind, io_step, ret;
    destruct s as [cfg ld pa sc yc h i t]; cbn [io http trace set_world app];
    destruct i as [|[] [|[] [|[] [|[] [|[] i]]]]];
    cbn [io http trace set_world attempted completed unused app];
    rewrite <- ?app_assoc; reflexivity.
Qed.

(** Recipients that are not all strings cannot be joined into the To
    header: nothing is attempted. *)
Lemma send_email_unjoined s c msg e :
  smtp_config s = Some c ->
  Notify.join_values ", " (smtp_to_emails c) = Raise e ->
  Notify.send_email msg s = (Ok false, s).
Proof.
  intros Hc Hj. unfold Notify.send_email. rewrite mbind_gets, Hc.
  unfold try_except. rewrite Hj. reflexivity.
Qed.

(** C6. For every configured manager, what [send_email] does is decided
    by the port and by the world alone.  When the port equals 465 the
    script is the implicit-encryption connection SMTP_SSL, then the
    login, the message and the quit; for any other port, whatever kind
    of value it is, the script is the plain connection SMTP, then
    STARTTLS, then the login, the message and the quit.  The steps
    attempted are those of the script up to and including the first that
    fails, so that on a port other than 465 STARTTLS is attempted
    whenever the connection is made, and the login only once STARTTLS
    has gone through; the answer is True exactly when every step has.
    A manager whose recipients are not all strings fails on the To
    header, before any connection. *)
Theorem connection_mode_by_port s c msg :
  smtp_config s = Some c ->
  match Notify.join_values ", " (smtp_to_emails c) with
  | Ok to_header =>
      let rest := [SmtpLogin (smtp_username c) (smtp_password c);
                   SendMessage (smtp_from_email c) to_header msg;
                   SmtpQuit] in
      let script :=
        if py_eq (smtp_port c) (VInt 465)
        then SmtpSSL (smtp_server c) (smtp_port c) :: rest
        else SmtpPlain (smtp_server c) (smtp_port c) :: StartTls :: rest in
      trace (snd (Notify.send_email msg s))
      = trace s ++ attempted script (io s)
      /\ fst (Notify.send_email msg s) = Ok (completed script (io s))
  | Raise _ => Notify.send_email msg s = (Ok false, s)
  end.
Proof.
  intros Hc.
  destruct (Notify.join_values ", " (smtp_to_emails c)) as [to_header|e]
    eqn:Hj.
  - rewrite (send_email_runs s c msg to_header Hc Hj).
    unfold smtp_script.
    destruct (py_eq (smtp_port c) (VInt 465)); split; reflexivity.
  - exact (send_email_unjoined s c msg e Hc Hj).
Qed.

(** The scenario of section 8 on port 587, with a server that accepts
    the connection and the upgrade and then refuses the login. *)
Lemma connection_mode_by_port_witness :
  trace (snd (Notify.send_email (ReportText [])
                (mail_state 587 [true; true; false])))
  = [SmtpPlain (VStr "mail.example.com") (VInt 587); StartTls;
     SmtpLogin (VStr "monitor") (VStr "secret")]
  /\ fst (Notify.send_email (ReportText [])
            (mail_state 587 [true; true; false]))
     = Ok false.
Proof.
  exact (connection_mode_by_port (mail_state 587 [true; true; false])
           (mail_settings 587) (ReportText []) eq_refl).
Defined.

(** The two scenarios, run. *)
Example port_465_is_implicit_tls :
  trace (snd (Notify.send_email (ReportText [])
                (mail_state 465 [true; true; true; true])))
  = [SmtpSSL (VStr "mail.example.com") (VInt 465);
     SmtpLogin (VStr "monitor") (VStr "secret");
     SendMessage (VStr "monitor@example.com") "noc@example.com"
                 (ReportText []);
     SmtpQuit].
Proof. reflexivity. Qed.

Example port_587_is_starttls :
  trace (snd (Notify.send_email (ReportText [])
                (mail_state 587 [true; true; true; true; true])))
  = [SmtpPlain (VStr "mail.example.com") (VInt 587); StartTls;
     SmtpLogin (VStr "monitor") (VStr "secret");
     SendMessage (VStr "monitor@example.com") "noc@example.com"
                 (ReportText []);
     SmtpQuit].
Proof. reflexivity. Qed.

(** ** Recipients *)

(** The first-use configuration files the configured recipient string
    as the one recipient, as it stands. *)
Lemma lazy_configure_smtp_recipients s server port username password
  from_email to :
  smtp_config s = None ->
  dindex (config_data s) "smtp_server" = Ok server ->
  dindex (config_data s) "smtp_port" = Ok port ->
  dindex (config_data s) "smtp_username" = Ok username ->
  dindex (config_data s) "smtp_password" = Ok password ->
  dindex (config_data s) "smtp_from" = Ok from_email ->
  dindex (config_data s) "smtp_to" = Ok to ->
  smtp_config (snd (Notify.lazy_configure_smtp s))
  = Some {| smtp_server := server; smtp_port := port;
            smtp_username := username; smtp_password := password;
            smtp_from_email := from_email; smtp_to_emails := [to] |}.
Proof.
  intros Hn H1 H2 H3 H4 H5 H6. unfold Notify.lazy_configure_smtp.
  rewrite !mbind_gets, Hn, H1, mbind_lift_ok, H2, mbind_lift_ok, H3,
    mbind_lift_ok, H4, mbind_lift_ok, H5, mbind_lift_ok, H6, mbind_lift_ok.
  reflexivity.
Qed.

(** The manager's own list, path by path.  With the recipients
    "a@example.com,b@example.com" in the configuration,
    [save_config_api] configures the manager with the two addresses,
    split and trimmed.  An alert sent by a process that has only loaded
    that configuration configures the manager at the send site with one
    recipient, the whole string, and the mail goes out with that string
    as its To header. *)
Theorem lazy_configuration_does_not_split :
  config_data
    (snd (Web.save_config_api (mail_form "a@example.com,b@example.com")
            (set_world [] all_ok [] idle_state)))
  = mail_config "a@example.com,b@example.com"
  /\ option_map smtp_to_emails
       (smtp_config
          (snd (Web.save_config_api (mail_form "a@example.com,b@example.com")
                  (set_world [] all_ok [] idle_state))))
     = Some [VStr "a@example.com"; VStr "b@example.com"]
  /\ option_map smtp_to_emails
       (smtp_config
          (snd (Notify.send_alert_notification alert_ap01
                  (started_state "a@example.com,b@example.com" all_ok))))
     = Some [VStr "a@example.com,b@example.com"]
  /\ trace (snd (Notify.send_alert_notification alert_ap01
                   (started_state "a@example.com,b@example.com" all_ok)))
     = [SmtpPlain (VStr "mail.example.com") (VInt 587); StartTls;
        SmtpLogin (VStr "monitor") (VStr "secret");
        SendMessage (VStr "monitor@example.com")
                    "a@example.com,b@example.com" (AlertText alert_ap01);
        SmtpQuit].
Proof. repeat split; reflexivity. Qed.

(** ** The rule map across a configuration save *)

Lemma mbind_modify {B} (g : state -> state) (k : unit -> M B) s :
  mbind (modify g) k s = k tt (g s).
Proof. reflexivity. Qed.

(** The dict built from the form has no "alert_settings" item. *)
Lemma new_config_of_no_rules (f : Web.form) (nc : dict) :
  Web.new_config_of f = Ok nc -> lookup (VStr "alert_settings") nc = None.
Proof.
  unfold Web.new_config_of, bind.
  destruct (Web.form_int f "polling_interval" 86400); [|discriminate].
  destruct (Web.form_int f "smtp_port" 587); [|discriminate].
  destruct (Web.form_int f "syslog_port" 514); [|discriminate].
  intros [= <-]. reflexivity.
Qed.

Lemma lookup_alert_settings_dset (v : value) (d : dict) :
  lookup (VStr "alert_settings") (dset (VStr "alert_settings") v d) = Some v.
Proof. apply lookup_dset_same. reflexivity. Qed.

(** Once the new configuration is in place, the rest of the handler
    (writing the file, configuring the channels, restarting the poller)
    leaves it as it is. *)
Lemma save_config_api_rest_keeps :
  keeps config_data
    (Web.save_config ;;;
     io_step ReadConfig ;;;
     cfg <- gets config_data ;;
     smtp_enabled <- lift (dindex cfg "smtp_enabled") ;;
     when (truthy smtp_enabled)
       (smtp_to <- lift (dindex cfg "smtp_to") ;;
        to_emails <- lift (Web.split_recipients smtp_to) ;;
        server <- lift (dindex cfg "smtp_server") ;;
        port <- lift (dindex cfg "smtp_port") ;;
        username <- lift (dindex cfg "smtp_username") ;;
        password <- lift (dindex cfg "smtp_password") ;;
        from_email <- lift (dindex cfg "smtp_from") ;;
        Notify.configure_smtp server port username password from_email
                              to_emails) ;;;
     syslog_enabled <- lift (dindex cfg "syslog_enabled") ;;
     when (truthy syslog_enabled)
       (server <- lift (dindex cfg "syslog_server") ;;
        port <- lift (dindex cfg "syslog_port") ;;
        Notify.configure_syslog server port) ;;;
     when (truthy (dget cfg "controller_ip" VNone))
       (active <- gets polling_active ;;
        when active
          (modify (set_polling_active false) ;;; perform StopPoller) ;;;
        modify (set_polling_active true) ;;;
        perform StartPoller) ;;;
     ret Web.Accepted).
Proof.
  pose proof config_world_blind as Hw.
  unfold Web.save_config.
  frame;
    first [ apply configure_smtp_keeps, config_channel_blind
          | apply configure_syslog_keeps, config_channel_blind
          | apply keeps_modify; intros ?; reflexivity ].
Qed.

(** The configuration after [save_config_api]: the old one when the form
    does not parse, else the form's fields with the old rule map, if
    there was one, carried over. *)
Lemma save_config_api_config (f : Web.form) (s : state) :
  config_data (snd (Web.save_config_api f s))
  = match Web.new_config_of f with
    | Raise _ => config_data s
    | Ok nc =>
        match lookup (VStr "alert_settings") (config_data s) with
        | Some kept => dset (VStr "alert_settings") kept nc
        | None => nc
        end
    end.
Proof.
  unfold Web.save_config_api, try_except.
  destruct (Web.new_config_of f) as [nc|e]; [|reflexivity].
  rewrite mbind_lift_ok, mbind_gets.
  destruct (lookup (VStr "alert_settings") (config_data s)) as [kept|] eqn:L.
  - assert (Hk : has_key (config_data s) "alert_settings" = true)
      by (unfold has_key; rewrite L; reflexivity).
    assert (Hi : dindex (config_data s) "alert_settings" = Ok kept)
      by (unfold dindex; rewrite L; reflexivity).
    rewrite Hk, Hi.
    rewrite (mbind_run _ _ s (dset (VStr "alert_settings") kept nc) s eq_refl).
    rewrite mbind_modify.
    pose proof (save_config_api_rest_keeps
                  (set_config_data (dset (VStr "alert_settings") kept nc) s))
      as K.
    match type of K with config_data (snd ?r) = _ =>
      destruct r as [[a|e] s'] end; exact K.
  - assert (Hk : has_key (config_data s) "alert_settings" = false)
      by (unfold has_key; rewrite L; reflexivity).
    rewrite Hk.
    rewrite (mbind_run _ _ s nc s eq_refl).
    rewrite mbind_modify.
    pose proof (save_config_api_rest_keeps (set_config_data nc s)) as K.
    match type of K with config_data (snd ?r) = _ =>
      destruct r as [[a|e] s'] end; exact K.
Qed.

(** C8. Whatever form is posted and whatever comes of writing the file,
    the rule kept for a hostname after [save_config_api] is the rule
    kept for it before: none added, none lost, none changed. *)
Theorem save_config_keeps_alert_rules (f : Web.form) (s : state)
  (hostname : value) :
  Web.stored_rule (config_data (snd (Web.save_config_api f s))) hostname
  = Web.stored_rule (config_data s) hostname.
Proof.
  rewrite save_config_api_config. unfold Web.stored_rule.
  destruct (Web.new_config_of f) as [nc|e] eqn:E; [|reflexivity].
  destruct (lookup (VStr "alert_settings") (config_data s)) as [kept|].
  - rewrite lookup_alert_settings_dset. reflexivity.
  - rewrite (new_config_of_no_rules f nc E). reflexivity.
Qed.

(** The whole rule map is carried over as one value. *)
Lemma save_config_keeps_alert_settings (f : Web.form) (s : state) :
  lookup (VStr "alert_settings") (config_data (snd (Web.save_config_api f s)))
  = lookup (VStr "alert_settings") (config_data s).
Proof.
  rewrite save_config_api_config.
  destruct (Web.new_config_of f) as [nc|e] eqn:E; [|reflexivity].
  destruct (lookup (VStr "alert_settings") (config_data s)) as [kept|] eqn:L.
  - apply lookup_alert_settings_dset.
  - apply (new_config_of_no_rules f nc E).
Qed.

(** ** Thresholds as they are stored *)

(** C9, as stated, fails: the request with threshold -5 is accepted and
    the rule is stored with threshold -5. *)
Lemma negative_threshold_is_stored :
  fst (Web.save_alert_settings (threshold_request "ap-01" (VInt (-5)))
         (set_world [] [true] [] idle_state))
  = Ok Web.Accepted
  /\ Web.stored_rule
       (config_data
          (snd (Web.save_alert_settings
                  (threshold_request "ap-01" (VInt (-5)))
                  (set_world [] [true] [] idle_state))))
       (VStr "ap-01")
     = Some (VDict [(VStr "threshold", VInt (-5));
                    (VStr "email_enabled", VBool true);
                    (VStr "syslog_enabled", VBool false)])
  /\ ~ (0 <= -5).
Proof. repeat split; try reflexivity. lia. Qed.

Lemma mbind_ret {A B} (a : A) (k : A -> M B) s : mbind (ret a) k s = k a s.
Proof. reflexivity. Qed.

(** Filing a rule under a hashable hostname in a rule map that is a
    dict. *)
Lemma store_rule_in_dict (hostname rule : value) (rules : dict) s :
  lookup (VStr "alert_settings") (config_data s) = Some (VDict rules) ->
  hashable hostname = true ->
  Web.store_rule hostname rule s
  = (Ok tt, set_config_data
              (dset (VStr "alert_settings")
                    (VDict (dset hostname rule rules)) (config_data s)) s).
Proof.
  intros Hl Hh. unfold Web.store_rule, dindex.
  rewrite mbind_gets, Hl, mbind_lift_ok, Hh. reflexivity.
Qed.

Lemma store_rule_unhashable (hostname rule : value) (rules : dict) s :
  lookup (VStr "alert_settings") (config_data s) = Some (VDict rules) ->
  hashable hostname = false ->
  Web.store_rule hostname rule s = (Raise TypeError, s).
Proof.
  intros Hl Hh. unfold Web.store_rule, dindex.
  rewrite mbind_gets, Hl, mbind_lift_ok, Hh. reflexivity.
Qed.

Lemma save_config_config s r s' :
  Web.save_config s = (r, s') -> config_data s' = config_data s.
Proof.
  unfold Web.save_config, mbind, gets, io_step.
  destruct (io s) as [|[] rest]; intros [= _ <-]; reflexivity.
Qed.

(** C9, amended.  When [save_alert_settings] accepts a request, with a
    rule map that is a dict (or none yet), the rule it files under the
    hostname has an integer threshold: 0 when the threshold sent is
    absent or falsy, and [int(threshold)] otherwise, be it negative. *)
Theorem stored_threshold_is_int_of_input (d : dict) (s s' : state) :
  (forall v, lookup (VStr "alert_settings") (config_data s) = Some v ->
             exists rules, v = VDict rules) ->
  Web.save_alert_settings (VDict d) s = (Ok Web.Accepted, s') ->
  exists z : Z,
    (if truthy (dget d "threshold" VNone)
     then int (dget d "threshold" VNone) = Ok z
     else z = 0)
    /\ Web.stored_rule (config_data s') (dget d "hostname" VNone)
       = Some (VDict [(VStr "threshold", VInt z);
                      (VStr "email_enabled",
                       dget d "email_enabled" (VBool false));
                      (VStr "syslog_enabled",
                       dget d "syslog_enabled" (VBool false))]).
Proof.
  intros Hrules. unfold Web.save_alert_settings, try_except. cbn [get].
  rewrite !mbind_lift_ok.
  set (hostname := dget d "hostname" VNone).
  set (threshold := dget d "threshold" VNone).
  destruct (truthy hostname) eqn:Eh; cbn [negb]; [|intros [=]].
  rewrite mbind_gets.
  (* the rule map as the handler finds or makes it *)
  assert (Hmap : exists rules s2,
    (when (negb (has_key (config_data s) "alert_settings"))
       (modify (set_config_data
                  (dset (VStr "alert_settings") (VDict []) (config_data s)))))
      s = (Ok tt, s2)
    /\ lookup (VStr "alert_settings") (config_data s2) = Some (VDict rules)).
  { unfold has_key.
    destruct (lookup (VStr "alert_settings") (config_data s)) as [v|] eqn:L.
    - destruct (Hrules v eq_refl) as [rules ->].
      exists rules, s. split; [reflexivity | exact L].
    - exists [], (set_config_data
                    (dset (VStr "alert_settings") (VDict []) (config_data s)) s).
      split; [reflexivity | apply lookup_alert_settings_dset]. }
  destruct Hmap as (rules & s2 & Hwhen & Hl).
  rewrite (mbind_run _ _ _ _ _ Hwhen).
  assert (Hz : forall z, (if truthy threshold then int threshold else Ok 0)
                         = Ok z ->
                         if truthy threshold then int threshold = Ok z
                         else z = 0).
  { intros z. destruct (truthy threshold); congruence. }
  destruct (if truthy threshold then int threshold else Ok 0) as [z|e];
    [|rewrite mbind_lift_raise; intros [=]].
  specialize (Hz z eq_refl). rewrite mbind_lift_ok.
  destruct (hashable hostname) eqn:Ehash.
  2:{ rewrite (mbind_run_raise _ _ _ _ _
                 (store_rule_unhashable hostname _ rules s2 Hl Ehash)).
      intros [=]. }
  rewrite (mbind_run _ _ _ _ _
             (store_rule_in_dict hostname _ rules s2 Hl Ehash)).
  match goal with |- context [mbind Web.save_config ?k ?s3] =>
    destruct (Web.save_config s3) as [[[]|e] s4] eqn:Es;
    [ rewrite (mbind_run _ _ _ _ _ Es) | rewrite (mbind_run_raise _ _ _ _ _ Es) ]
  end; [|intros [=]].
  intros [= <-]. exists z. split; [exact Hz|].
  rewrite (save_config_config _ _ _ Es). cbn [config_data set_config_data].
  unfold Web.stored_rule. rewrite lookup_alert_settings_dset.
  apply lookup_dset_same, py_eq_refl, Ehash.
Qed.

Lemma stored_threshold_is_int_of_input_witness :
  exists z : Z,
    int (VStr "-5") = Ok z
    /\ Web.stored_rule
         (config_data
            (snd (Web.save_alert_settings
                    (threshold_request "ap-01" (VStr "-5"))
                    (set_world [] [true] [] idle_state))))
         (VStr "ap-01")
       = Some (VDict [(VStr "threshold", VInt z);
                      (VStr "email_enabled", VBool true);
                      (VStr "syslog_enabled", VBool false)]).
Proof.
  refine (stored_threshold_is_int_of_input
    [(VStr "hostname", VStr "ap-01"); (VStr "threshold", VStr "-5");
     (VStr "email_enabled", VBool true);
     (VStr "syslog_enabled", VBool false)]
    (set_world [] [true] [] idle_state) _ _ eq_refl).
  intros v H. discriminate H.
Defined.

(** * Further properties of the code *)

(** ** The scan, as a whole *)

Lemma fst_sbind_Forall {A B} (P : AlertEvent -> Prop) (m : scan A)
  (k : A -> scan B) :
  Forall P (fst m) -> (forall a, Forall P (fst (k a))) ->
  Forall P (fst (Alerts.sbind m k)).
Proof.
  intros Hm Hk. unfold Alerts.sbind. destruct m as [ev [a|e]]; [|exact Hm].
  specialize (Hk a). destruct (k a) as [ev' r]. cbn [fst] in *.
  apply Forall_app. split; assumption.
Qed.

Lemma fst_lift_Forall {A} (P : AlertEvent -> Prop) (r : res A) :
  Forall P (fst (Alerts.lift r)).
Proof. constructor. Qed.

Lemma fst_for_each_Forall {Y} (P : AlertEvent -> Prop)
  (body : Y -> scan unit) (l : list Y) :
  (forall y, Forall P (fst (body y))) ->
  Forall P (fst (Alerts.for_each body l)).
Proof.
  intros H. induction l as [|y l IH]; cbn [Alerts.for_each].
  - constructor.
  - apply fst_sbind_Forall; [apply H | intros _; exact IH].
Qed.

Lemma check_client_justified (alert_settings client : value) :
  Forall justified (fst (check_client alert_settings client)).
Proof.
  unfold check_client.
  apply fst_sbind_Forall; [apply fst_lift_Forall | intros h].
  destruct (truthy h && negb (py_eq h (VStr "TOTAL"))); [|constructor].
  apply fst_sbind_Forall; [apply fst_lift_Forall | intros hostname].
  apply fst_sbind_Forall; [apply fst_lift_Forall | intros ap].
  apply fst_sbind_Forall; [apply fst_lift_Forall | intros u].
  apply fst_sbind_Forall; [apply fst_lift_Forall | intros client_settings].
  destruct (negb (truthy client_settings)); [constructor|].
  apply fst_sbind_Forall; [apply fst_lift_Forall | intros t].
  apply fst_sbind_Forall; [apply fst_lift_Forall | intros email].
  apply fst_sbind_Forall; [apply fst_lift_Forall | intros syslog].
  destruct (py_gt (VInt u) t) as [[|]|e] eqn:Eover;
    rewrite ?sbind_lift_ok, ?sbind_lift_raise; try constructor.
  destruct (py_gt t (VInt 0)) as [[|]|e] eqn:Epos;
    rewrite ?sbind_lift_ok, ?sbind_lift_raise; try constructor.
  apply fst_sbind_Forall; [|intros _];
    match goal with |- Forall _ (fst (Alerts.when ?c _)) => destruct c end;
    cbn; try (apply Forall_nil);
    (apply Forall_cons; [|apply Forall_nil]);
    (split; [exact Eover | split; [exact Epos |]]);
    cbn; [left | right]; reflexivity.
Qed.

(** X1. Whatever the configuration and whatever the snapshot, well
    formed or not, every event [check_license_alerts] emits carries a
    usage value over its threshold and a threshold over 0, on the email
    or the syslog channel. *)
Theorem emitted_events_are_justified (config_data : dict)
  (license_data : value) :
  Forall justified (fst (Alerts.check_license_alerts config_data license_data)).
Proof.
  assert (H : Forall justified
            (fst (check_license_alerts_body config_data license_data))).
  { unfold check_license_alerts_body.
    destruct (negb (truthy (dget config_data "alert_settings" (VDict []))));
      [constructor|].
    apply fst_sbind_Forall; [apply fst_lift_Forall | intros pools].
    apply fst_for_each_Forall. intros [pool_name pool_data].
    unfold check_pool.
    apply fst_sbind_Forall; [apply fst_lift_Forall | intros matches].
    destruct matches; [|constructor].
    apply fst_sbind_Forall; [apply fst_lift_Forall | intros rows].
    apply fst_for_each_Forall. intros row. apply check_client_justified. }
  unfold Alerts.check_license_alerts, Alerts.try_except.
  destruct (check_license_alerts_body config_data license_data)
    as [ev [[]|e]]; exact H.
Qed.

(** X2. Rows that evaluate without error are evaluated one by one and in
    order: the events of a pool are those of its rows, end to end. *)
Theorem pool_events_are_row_events (alert_settings : value)
  (rows : list value) :
  Forall (fun row => snd (check_client alert_settings row) = Ok tt) rows ->
  Alerts.for_each (check_client alert_settings) rows
  = (flat_map (fun row => fst (check_client alert_settings row)) rows, Ok tt).
Proof.
  induction 1 as [|row rows Hrow _ IH]; [reflexivity|].
  cbn [Alerts.for_each flat_map]. rewrite IH.
  destruct (check_client alert_settings row) as [ev r]. cbn [snd fst] in *.
  subst r. reflexivity.
Qed.

Lemma pool_events_are_row_events_witness :
  Alerts.for_each
    (check_client (VDict [(VStr "ap-02", email_rule_10)]))
    [usage_row "ap-01" (VStr "50"); usage_row "ap-02" (VStr "12")]
  = (flat_map
       (fun row => fst (check_client
                          (VDict [(VStr "ap-02", email_rule_10)]) row))
       [usage_row "ap-01" (VStr "50"); usage_row "ap-02" (VStr "12")],
     Ok tt).
Proof.
  apply (pool_events_are_row_events
           (VDict [(VStr "ap-02", email_rule_10)])
           [usage_row "ap-01" (VStr "50"); usage_row "ap-02" (VStr "12")]).
  repeat constructor.
Defined.

(** X3. A hostname without a rule (or with an empty one) never alerts,
    whatever its usage, and the scan goes on past its row. *)
Theorem unknown_entity_never_alerts (alert_settings : value) (d : dict)
  (u : Z) (r : value) (pre post : list value) :
  truthy (dget d "Hostname" VNone)
  && negb (py_eq (dget d "Hostname" VNone) (VStr "TOTAL")) = true ->
  int (dget d "AP" (VInt 0)) = Ok u ->
  get_key alert_settings (dget d "Hostname" VNone) = Ok r ->
  truthy r = false ->
  check_client alert_settings (VDict d) = ([], Ok tt)
  /\ Alerts.for_each (check_client alert_settings) (pre ++ VDict d :: post)
     = Alerts.for_each (check_client alert_settings) (pre ++ post).
Proof.
  intros Hev Hu Hr Hf.
  assert (E : check_client alert_settings (VDict d) = ([], Ok tt)).
  { apply andb_prop in Hev as Hev'. destruct Hev' as [Htr _].
    pose proof (truthy_dget_lookup _ _ _ eq_refl Htr) as Hl.
    unfold check_client. cbn [get]. rewrite sbind_lift_ok, Hev.
    unfold index, dindex. rewrite Hl, !sbind_lift_ok, Hu, sbind_lift_ok.
    rewrite Hr, sbind_lift_ok, Hf. reflexivity. }
  split; [exact E | apply scan_for_each_skip, E].
Qed.

Lemma unknown_entity_never_alerts_witness :
  check_client (VDict [(VStr "ap-02", email_rule_10)])
    (VDict [(VStr "Hostname", VStr "ap-01"); (VStr "AP", VStr "9999")])
  = ([], Ok tt).
Proof.
  exact (proj1 (unknown_entity_never_alerts
    (VDict [(VStr "ap-02", email_rule_10)])
    [(VStr "Hostname", VStr "ap-01"); (VStr "AP", VStr "9999")]
    9999 VNone [] [] eq_refl eq_refl eq_refl eq_refl)).
Defined.

(** X4. A pool whose name does not begin with the usage-pool prefix is
    not looked into: the check comes out as if the pool were not there,
    whatever it holds. *)
Theorem other_pools_are_ignored (config_data : dict) (name : string)
  (data : value) (pools_before pools_after : list (value * value)) :
  String.prefix pool_prefix name = false ->
  Alerts.check_license_alerts config_data
    (VDict (pools_before ++ (VStr name, data) :: pools_after))
  = Alerts.check_license_alerts config_data
      (VDict (pools_before ++ pools_after)).
Proof.
  intros H. unfold Alerts.check_license_alerts, check_license_alerts_body.
  destruct (negb (truthy (dget config_data "alert_settings" (VDict []))));
    [reflexivity|].
  cbn [items]. rewrite !sbind_lift_ok. f_equal.
  apply scan_for_each_skip.
  unfold check_pool. cbn [startswith]. rewrite H. reflexivity.
Qed.

Lemma other_pools_are_ignored_witness :
  Alerts.check_license_alerts rules_ap02
    (VDict ([] ++ (VStr "License Server Table", VInt 7)
               :: [(VStr "License Clients License Usage for pool default",
                    VList [usage_row "ap-02" (VStr "12")])]))
  = Alerts.check_license_alerts rules_ap02
    (VDict ([] ++ [(VStr "License Clients License Usage for pool default",
                    VList [usage_row "ap-02" (VStr "12")])])).
Proof.
  exact (other_pools_are_ignored rules_ap02 "License Server Table" (VInt 7)
           [] [(VStr "License Clients License Usage for pool default",
                VList [usage_row "ap-02" (VStr "12")])] eq_refl).
Defined.

(** ** The session, call by call *)

Lemma http_request_trace e s :
  trace (snd (http_request e s)) = trace s ++ [e].
Proof.
  unfold http_request. destruct (http s) as [|[|body] rest]; reflexivity.
Qed.

Lemma try_request_at {X A} (f : state -> X) (m h : M A) s (x : X) :
  f (snd (m s)) = x -> keeps f h ->
  f (snd (try_except_request m h s)) = x.
Proof.
  intros Hm Hh. unfold try_except_request.
  destruct (m s) as [[a|[]] s']; cbn [snd] in *; try exact Hm.
  rewrite Hh. exact Hm.
Qed.

(** A login sends one request, whatever comes of it. *)
Lemma login_trace c username password s :
  trace (snd (Client.login c username password s))
  = trace s ++ [HttpLogin (Client.mcr_ip c) username password].
Proof.
  unfold Client.login. apply try_request_at; [|apply keeps_ret].
  apply bind_at; [apply http_request_trace|]. intros result. frame.
Qed.

Lemma login_is_granted c username password s body rest uid :
  http s = Replies body :: rest ->
  grants body uid ->
  Client.login c username password s
  = (Ok (Client.Success VNone,
         {| Client.mcr_ip := Client.mcr_ip c; Client.uid_aruba := uid;
            Client.cookies := true |}),
     set_world rest (io s)
       (trace s ++ [HttpLogin (Client.mcr_ip c) username password]) s).
Proof.
  intros Hh (d & g & -> & Hg & Hs & Hu).
  unfold Client.login, try_except_request, mbind, http_request, lift, ret.
  rewrite Hh. unfold get, index, dget, dindex. rewrite Hg, Hs, Hu.
  reflexivity.
Qed.

(** What a successful login leaves: the same address. *)
Lemma login_success_client c username password s v c' s' :
  Client.login c username password s = (Ok (Client.Success v, c'), s') ->
  Client.mcr_ip c' = Client.mcr_ip c.
Proof.
  unfold Client.login, try_except_request, mbind, http_request, lift, ret.
  destruct (http s) as [|[|body] rest]; try (intros H; discriminate H).
  destruct (get body "_global_result" (VDict [])) as [global|e];
    [|destruct e; intros H; discriminate H].
  destruct (get global "status" VNone) as [status|e];
    [|destruct e; intros H; discriminate H].
  destruct (py_eq status (VStr "0")).
  - destruct (index body "_global_result") as [global'|e];
      [|destruct e; intros H; discriminate H].
    destruct (index global' "UIDARUBA") as [uid|e];
      [|destruct e; intros H; discriminate H].
    intros [= _ <- _]. reflexivity.
  - intros H; discriminate H.
Qed.

(** [show_command] with a session: one request, and the reply's body
    or the request error as the result.  It never raises and never
    touches the client. *)
Lemma show_command_sends c command s :
  truthy (Client.uid_aruba c) = true ->
  Client.show_command c command s
  = (Ok (match http s with
         | Replies body :: _ => Client.Success body
         | _ => Client.Error Client.ShowRequestError
         end, c),
     set_world (tl (http s)) (io s)
       (trace s ++ [HttpShow (Client.mcr_ip c) command (Client.uid_aruba c)])
       s).
Proof.
  intros H. unfold Client.show_command. rewrite H. cbn [negb].
  unfold try_except_request, mbind, http_request, ret.
  destruct (http s) as [|[|body] rest]; reflexivity.
Qed.

Lemma logout_trace c s :
  truthy (Client.uid_aruba c) = true ->
  trace (snd (Client.logout c s)) = trace s ++ [HttpLogout (Client.mcr_ip c)].
Proof.
  intros H. unfold Client.logout. rewrite H. cbn [negb].
  apply try_request_at; [|apply keeps_ret].
  apply bind_at; [apply http_request_trace|]. intros result. frame.
Qed.

(** X5. A granted login followed by a command: two requests, the second
    carrying the session identifier of the first reply, and the body of
    the second reply as the data. *)
Theorem login_then_show_command ip username password command s
  body data rest uid :
  http s = Replies body :: Replies data :: rest ->
  grants body uid ->
  truthy uid = true ->
  (r <- Client.login (Client.new ip) username password ;;
   Client.show_command (snd r) command) s
  = (Ok (Client.Success data,
         {| Client.mcr_ip := ip; Client.uid_aruba := uid;
            Client.cookies := true |}),
     set_world rest (io s)
       (trace s ++ [HttpLogin ip username password;
                    HttpShow ip command uid]) s).
Proof.
  intros Hh Hg Hu.
  rewrite (mbind_run _ _ _ _ _
             (login_is_granted (Client.new ip) username password s body
                            (Replies data :: rest) uid Hh Hg)).
  cbn [snd]. rewrite show_command_sends by exact Hu.
  cbn [http set_world tl io trace Client.mcr_ip Client.uid_aruba Client.new].
  rewrite <- app_assoc. reflexivity.
Qed.

Lemma login_then_show_command_witness :
  (r <- Client.login (Client.new (VStr "10.0.60.60")) (VStr "admin")
          (VStr "secret") ;;
   Client.show_command (snd r) "show license-usage")
    (polling_state 5 [login_granted; Replies (VDict [])])
  = (Ok (Client.Success (VDict []),
         {| Client.mcr_ip := VStr "10.0.60.60";
            Client.uid_aruba := VStr "f3a1"; Client.cookies := true |}),
     set_world [] []
       ([] ++ [HttpLogin (VStr "10.0.60.60") (VStr "admin") (VStr "secret");
               HttpShow (VStr "10.0.60.60") "show license-usage"
                        (VStr "f3a1")])
       (polling_state 5 [login_granted; Replies (VDict [])])).
Proof.
  refine (login_then_show_command (VStr "10.0.60.60") (VStr "admin")
            (VStr "secret") "show license-usage"
            (polling_state 5 [login_granted; Replies (VDict [])])
            _ (VDict []) [] (VStr "f3a1") eq_refl _ eq_refl).
  exists [(VStr "_global_result",
           VDict [(VStr "status", VStr "0"); (VStr "UIDARUBA", VStr "f3a1")])],
         [(VStr "status", VStr "0"); (VStr "UIDARUBA", VStr "f3a1")].
  repeat split; reflexivity.
Defined.

(** X6. A logout ends the session only when the controller confirms it:
    with a success result the client is a new one for the same address;
    with an error result, for a refusal or a failed request, it is the
    client as it was, session identifier included. *)
Theorem logout_ends_session_when_confirmed c s result c' s' :
  Client.logout c s = (Ok (result, c'), s') ->
  (exists v, result = Client.Success v /\ c' = Client.new (Client.mcr_ip c))
  \/ (exists why, result = Client.Error why /\ c' = c).
Proof.
  unfold Client.logout.
  destruct (negb (truthy (Client.uid_aruba c))).
  { intros [= <- <- _]. right. eauto. }
  unfold try_except_request, mbind, http_request, lift, ret.
  destruct (http s) as [|[|body] rest];
    try (intros [= <- <- _]; right; eauto).
  destruct (get body "_global_result" (VDict [])) as [global|e];
    [|destruct e; intros [=]; subst; right; eauto].
  destruct (get global "status" VNone) as [status|e];
    [|destruct e; intros [=]; subst; right; eauto].
  destruct (py_eq status (VStr "0")); intros [= <- <- _].
  - left. eauto.
  - right. eauto.
Qed.

Lemma logout_ends_session_when_confirmed_witness :
  (exists v, Client.Error Client.LogoutRequestError = Client.Success v
             /\ {| Client.mcr_ip := VStr "10.0.60.60";
                   Client.uid_aruba := VStr "f3a1"; Client.cookies := true |}
                = Client.new (VStr "10.0.60.60"))
  \/ (exists why, Client.Error Client.LogoutRequestError = Client.Error why
             /\ {| Client.mcr_ip := VStr "10.0.60.60";
                   Client.uid_aruba := VStr "f3a1"; Client.cookies := true |}
                = {| Client.mcr_ip := VStr "10.0.60.60";
                     Client.uid_aruba := VStr "f3a1";
                     Client.cookies := true |}).
Proof.
  exact (logout_ends_session_when_confirmed
    {| Client.mcr_ip := VStr "10.0.60.60";
       Client.uid_aruba := VStr "f3a1"; Client.cookies := true |}
    (polling_state 5 [Fails]) (Client.Error Client.LogoutRequestError)
    {| Client.mcr_ip := VStr "10.0.60.60";
       Client.uid_aruba := VStr "f3a1"; Client.cookies := true |}
    (set_world [] [] [HttpLogout (VStr "10.0.60.60")]
               (polling_state 5 [Fails]))
    eq_refl).
Defined.

(** ** The fetch, request by request *)

Lemma snd_try_ret {A} (m : M A) (h : exn -> A) s :
  snd (try_except m (fun e => ret (h e)) s) = snd (m s).
Proof. unfold try_except. destruct (m s) as [[a|e] s']; reflexivity. Qed.

Lemma refused_run c command s :
  truthy (Client.uid_aruba c) = false ->
  Client.show_command c command s
    = (Ok (Client.Error Client.NotLoggedIn, c), s)
  /\ Client.logout c s = (Ok (Client.Error Client.NotLoggedIn, c), s).
Proof.
  intros H. unfold Client.show_command, Client.logout. rewrite H.
  split; reflexivity.
Qed.

(** X7. The requests of one fetch are the login alone, or the login, the
    usage command and the logout, or all four in the order login, usage
    command, summary command, logout, the commands carrying the session
    identifier: no command goes out before the login, and once a command
    has gone out the last request is the logout. *)
Theorem fetch_requests_in_order ip username password s :
  exists uid,
    trace (snd (Fetch.get_license_usage ip username password s))
    = trace s ++ [HttpLogin ip username password]
    \/ trace (snd (Fetch.get_license_usage ip username password s))
       = trace s ++ [HttpLogin ip username password;
                     HttpShow ip "show license-usage" uid;
                     HttpLogout ip]
    \/ trace (snd (Fetch.get_license_usage ip username password s))
       = trace s ++ [HttpLogin ip username password;
                     HttpShow ip "show license-usage" uid;
                     HttpShow ip "show license summary" uid;
                     HttpLogout ip].
Proof.
  unfold Fetch.get_license_usage. rewrite snd_try_ret.
  pose proof (login_trace (Client.new ip) username password s) as HL.
  cbn [Client.new Client.mcr_ip] in HL.
  destruct (Client.login (Client.new ip) username password s)
    as [[[[v|why] c]|e] s1] eqn:El; cbn [snd] in HL.
  2:{ exists VNone. left. rewrite (mbind_run _ _ _ _ _ El). exact HL. }
  2:{ exists VNone. left. rewrite (mbind_run_raise _ _ _ _ _ El). exact HL. }
  rewrite (mbind_run _ _ _ _ _ El).
  apply login_success_client in El. cbn [Client.new Client.mcr_ip] in El.
  exists (Client.uid_aruba c).
  destruct (truthy (Client.uid_aruba c)) eqn:Eu.
  - (* a session: the usage command goes out *)
    rewrite (mbind_run _ _ _ _ _ (show_command_sends c _ s1 Eu)).
    rewrite El.
    set (s2 := set_world (tl (http s1)) (io s1)
                 (trace s1 ++ [HttpShow ip "show license-usage"
                                        (Client.uid_aruba c)]) s1).
    assert (T2 : trace s2 = trace s ++ [HttpLogin ip username password;
                   HttpShow ip "show license-usage" (Client.uid_aruba c)]).
    { subst s2. cbn [trace set_world]. rewrite HL, <- app_assoc.
      reflexivity. }
    destruct (http s1) as [|[|usage] rest1].
    + right. left.
      apply bind_at; [|intros a; apply keeps_ret].
      rewrite (logout_trace c s2 Eu), T2, El, <- app_assoc. reflexivity.
    + right. left.
      apply bind_at; [|intros a; apply keeps_ret].
      rewrite (logout_trace c s2 Eu), T2, El, <- app_assoc. reflexivity.
    + right. right.
      rewrite (mbind_run _ _ _ _ _ (show_command_sends c _ s2 Eu)).
      rewrite El.
      apply bind_at; [|intros a; apply keeps_ret].
      rewrite (logout_trace c _ Eu). cbn [trace set_world].
      rewrite T2, El, <- !app_assoc. reflexivity.
  - (* no session identifier: nothing more is sent *)
    left.
    destruct (refused_run c "show license-usage" s1 Eu) as [Es _].
    destruct (refused_run c "" s1 Eu) as [_ Eo].
    rewrite (mbind_run _ _ _ _ _ Es), (mbind_run _ _ _ _ _ Eo). exact HL.
Qed.

(** The data of a success is put together on the one line that returns
    it. *)
Lemma success_is_snapshot ip username password s data s' :
  Fetch.get_license_usage ip username password s
    = (Ok (Fetch.Success data), s') ->
  exists usage summary, data = snapshot_of usage summary.
Proof.
  unfold Fetch.get_license_usage, try_except.
  destruct (Client.login (Client.new ip) username password s)
    as [[[[v|why] c]|e] s1] eqn:El.
  2:{ rewrite (mbind_run _ _ _ _ _ El). intros H; discriminate H. }
  2:{ rewrite (mbind_run_raise _ _ _ _ _ El). intros H; discriminate H. }
  rewrite (mbind_run _ _ _ _ _ El).
  destruct (Client.show_command c "show license-usage" s1)
    as [[[[usage|why] c2]|e] s2] eqn:Es.
  - rewrite (mbind_run _ _ _ _ _ Es).
    destruct (Client.show_command c2 "show license summary" s2)
      as [[[sr c3]|e] s3] eqn:Em.
    + rewrite (mbind_run _ _ _ _ _ Em).
      destruct (Client.logout c3 s3) as [[a|e] s4] eqn:Eo.
      * rewrite (mbind_run _ _ _ _ _ Eo). intros [= <- _].
        unfold snapshot_of. eauto.
      * rewrite (mbind_run_raise _ _ _ _ _ Eo). intros H; discriminate H.
    + rewrite (mbind_run_raise _ _ _ _ _ Em). intros H; discriminate H.
  - rewrite (mbind_run _ _ _ _ _ Es).
    destruct (Client.logout c2 s2) as [[a|e] s3] eqn:Eo.
    + rewrite (mbind_run _ _ _ _ _ Eo). intros H; discriminate H.
    + rewrite (mbind_run_raise _ _ _ _ _ Eo). intros H; discriminate H.
  - rewrite (mbind_run_raise _ _ _ _ _ Es). intros H; discriminate H.
Qed.

(** X8. A fetch that succeeds hands back a dict of exactly two items,
    the usage reply under "license_usage" and the summary under
    "license_summary": no failure of the fetch comes back as a success
    with data of another shape. *)
Theorem fetched_snapshot_shape ip username password s data s' :
  Fetch.get_license_usage ip username password s
    = (Ok (Fetch.Success data), s') ->
  exists usage summary, data = snapshot_of usage summary.
Proof. exact (success_is_snapshot ip username password s data s'). Qed.

Lemma fetched_snapshot_shape_witness :
  exists usage summary,
    VDict [(VStr "license_usage", VDict []);
           (VStr "license_summary", VDict [])]
    = snapshot_of usage summary.
Proof.
  exact (fetched_snapshot_shape (VStr "10.0.60.60") (VStr "admin")
    (VStr "secret")
    (polling_state 5 [login_granted; Replies (VDict []);
                      Replies (VDict []); login_granted])
    (VDict [(VStr "license_usage", VDict []);
            (VStr "license_summary", VDict [])])
    (set_world [] []
       [HttpLogin (VStr "10.0.60.60") (VStr "admin") (VStr "secret");
        HttpShow (VStr "10.0.60.60") "show license-usage" (VStr "f3a1");
        HttpShow (VStr "10.0.60.60") "show license summary" (VStr "f3a1");
        HttpLogout (VStr "10.0.60.60")]
       (polling_state 5 []))
    eq_refl).
Defined.

Lemma logout_returns c s answer rest :
  truthy (Client.uid_aruba c) = true ->
  http s = answer :: rest ->
  answer = Fails \/ (exists bye, answer = Replies bye /\ readable bye) ->
  exists r c' s', Client.logout c s = (Ok (r, c'), s').
Proof.
  intros Hu Hh Ha. unfold Client.logout. rewrite Hu. cbn [negb].
  unfold try_except_request, mbind, http_request, lift, ret. rewrite Hh.
  destruct Ha as [-> | (bye & -> & d & g & -> & Hg)]; [eauto|].
  cbn [get]. rewrite Hg. cbn [get].
  destruct (py_eq (dget g "status" VNone) (VStr "0")); eauto.
Qed.

Lemma logout_unreadable c s bye rest :
  truthy (Client.uid_aruba c) = true ->
  http s = Replies bye :: rest ->
  (forall d, bye <> VDict d) ->
  exists s', Client.logout c s = (Raise AttributeError, s').
Proof.
  intros Hu Hh Hn. unfold Client.logout. rewrite Hu. cbn [negb].
  unfold try_except_request, mbind, http_request, lift, ret. rewrite Hh.
  destruct bye; cbn [get]; eauto. destruct (Hn d eq_refl).
Qed.

Section FetchAfterLogin.

Context (ip username password body usage uid : value) (s : state).
Context (summary_answer logout_answer : reply) (rest : list reply).
Context (Hreplies : http s = Replies body :: Replies usage
                             :: summary_answer :: logout_answer :: rest).
Context (Hgrants : grants body uid) (Huid : truthy uid = true).

(** The fetch up to the logout, when the login is granted and the usage
    command answered. *)
Lemma fetch_up_to_logout :
  exists c s3,
    truthy (Client.uid_aruba c) = true /\ http s3 = logout_answer :: rest
    /\ Fetch.get_license_usage ip username password s
       = try_except
           (r <- Client.logout c ;;
            ret (Fetch.Success
                   (snapshot_of usage
                      match summary_answer with
                      | Replies summary => summary
                      | Fails => VDict []
                      end)))
           (fun e => ret (Fetch.Error (Fetch.FetchException e))) s3.
Proof.
  set (c := {| Client.mcr_ip := ip; Client.uid_aruba := uid;
               Client.cookies := true |}).
  exists c. eexists. split; [exact Huid|]. split.
  2:{ unfold Fetch.get_license_usage, try_except at 1.
      rewrite (mbind_run _ _ _ _ _
                 (login_is_granted (Client.new ip) username password s body
                    _ uid Hreplies Hgrants)).
      fold c.
      rewrite (mbind_run _ _ _ _ _ (show_command_sends c _ _ Huid)).
      cbn [http set_world tl].
      rewrite (mbind_run _ _ _ _ _ (show_command_sends c _ _ Huid)).
      cbn [http set_world tl].
      unfold try_except, snapshot_of.
      destruct summary_answer; reflexivity. }
  reflexivity.
Qed.

End FetchAfterLogin.

(** X9. Once the login is granted and the usage command answered, the
    fetch succeeds whether or not the summary command does, and whether
    the logout is confirmed, refused or not answered: a summary that
    failed is the empty dict in the snapshot. *)
Theorem summary_and_logout_failures_are_not_fatal
  ip username password body usage uid s summary_answer logout_answer rest :
  http s = Replies body :: Replies usage
           :: summary_answer :: logout_answer :: rest ->
  grants body uid ->
  truthy uid = true ->
  logout_answer = Fails
  \/ (exists bye, logout_answer = Replies bye /\ readable bye) ->
  fst (Fetch.get_license_usage ip username password s)
  = Ok (Fetch.Success
          (snapshot_of usage
             match summary_answer with
             | Replies summary => summary
             | Fails => VDict []
             end)).
Proof.
  intros Hh Hg Hu Ha.
  destruct (fetch_up_to_logout ip username password body usage uid s
              summary_answer logout_answer rest Hh Hg Hu)
    as (c & s3 & Hc & Hh3 & ->).
  destruct (logout_returns c s3 logout_answer rest Hc Hh3 Ha)
    as (r & c' & s4 & Eo).
  unfold try_except. rewrite (mbind_run _ _ _ _ _ Eo). reflexivity.
Qed.

Lemma summary_and_logout_failures_are_not_fatal_witness :
  fst (Fetch.get_license_usage (VStr "10.0.60.60") (VStr "admin")
         (VStr "secret")
         (polling_state 5 [login_granted; Replies (VInt 7); Fails; Fails]))
  = Ok (Fetch.Success (snapshot_of (VInt 7) (VDict []))).
Proof.
  refine (summary_and_logout_failures_are_not_fatal
    (VStr "10.0.60.60") (VStr "admin") (VStr "secret") _ (VInt 7)
    (VStr "f3a1")
    (polling_state 5 [login_granted; Replies (VInt 7); Fails; Fails])
    Fails Fails [] eq_refl _ eq_refl (or_introl eq_refl)).
  exists [(VStr "_global_result",
           VDict [(VStr "status", VStr "0"); (VStr "UIDARUBA", VStr "f3a1")])],
         [(VStr "status", VStr "0"); (VStr "UIDARUBA", VStr "f3a1")].
  repeat split; reflexivity.
Defined.

(** X10. A logout answered with JSON that is not an object fails the
    fetch, with both commands answered and the data in hand: reading the
    reply raises inside [logout] and the fetch reports the exception. *)
Theorem unreadable_logout_reply_fails_fetch
  ip username password body usage uid s summary_answer bye rest :
  http s = Replies body :: Replies usage
           :: summary_answer :: Replies bye :: rest ->
  grants body uid ->
  truthy uid = true ->
  (forall d, bye <> VDict d) ->
  fst (Fetch.get_license_usage ip username password s)
  = Ok (Fetch.Error (Fetch.FetchException AttributeError)).
Proof.
  intros Hh Hg Hu Hn.
  destruct (fetch_up_to_logout ip username password body usage uid s
              summary_answer (Replies bye) rest Hh Hg Hu)
    as (c & s3 & Hc & Hh3 & ->).
  destruct (logout_unreadable c s3 bye rest Hc Hh3 Hn) as (s4 & Eo).
  unfold try_except. rewrite (mbind_run_raise _ _ _ _ _ Eo). reflexivity.
Qed.

Lemma unreadable_logout_reply_fails_fetch_witness :
  fst (Fetch.get_license_usage (VStr "10.0.60.60") (VStr "admin")
         (VStr "secret")
         (polling_state 5 [login_granted; Replies (VInt 7);
                           Replies (VInt 8); Replies (VList [])]))
  = Ok (Fetch.Error (Fetch.FetchException AttributeError)).
Proof.
  refine (unreadable_logout_reply_fails_fetch
    (VStr "10.0.60.60") (VStr "admin") (VStr "secret") _ (VInt 7)
    (VStr "f3a1")
    (polling_state 5 [login_granted; Replies (VInt 7); Replies (VInt 8);
                      Replies (VList [])])
    (Replies (VInt 8)) (VList []) [] eq_refl _ eq_refl _).
  - exists [(VStr "_global_result",
             VDict [(VStr "status", VStr "0");
                    (VStr "UIDARUBA", VStr "f3a1")])],
           [(VStr "status", VStr "0"); (VStr "UIDARUBA", VStr "f3a1")].
    repeat split; reflexivity.
  - intros d H. discriminate H.
Defined.

(** ** What a snapshot of the fetch's shape sets off *)

(** The two pool names of such a snapshot are not usage-pool names:
    the check finds nothing to evaluate in it. *)
Lemma scan_of_whole_snapshot (config_data : dict) (usage summary : value) :
  Alerts.check_license_alerts config_data (snapshot_of usage summary)
  = ([], Ok tt).
Proof.
  unfold Alerts.check_license_alerts, check_license_alerts_body.
  destruct (negb (truthy (dget config_data "alert_settings" (VDict []))));
    reflexivity.
Qed.

Lemma alerts_of_whole_snapshot (usage summary : value) s :
  Notify.check_license_alerts (snapshot_of usage summary) s = (Ok tt, s).
Proof.
  unfold Notify.check_license_alerts.
  rewrite mbind_gets, scan_of_whole_snapshot. reflexivity.
Qed.

(** Nor has it a "_data" item for the report to be made from. *)
Lemma report_of_snapshot (usage summary : value) s :
  Notify.send_notifications (snapshot_of usage summary) s = (Ok tt, s).
Proof. reflexivity. Qed.

(** X11. A manual refresh that fetches a snapshot stores it and answers
    success, and that is all: it hands the whole snapshot to the alert
    check, which looks for usage pools at its top level and finds the
    two items "license_usage" and "license_summary", so that no alert is
    sent whatever the rules and the usage. *)
Theorem manual_refresh_never_alerts s s1 ip username password data :
  dindex (config_data s) "controller_ip" = Ok ip ->
  truthy ip = true ->
  dindex (config_data s) "username" = Ok username ->
  dindex (config_data s) "password" = Ok password ->
  Fetch.get_license_usage ip username password s
    = (Ok (Fetch.Success data), s1) ->
  Web.refresh_license s = (Ok Web.Accepted, set_license_data data s1).
Proof.
  intros Hip Ht Hu Hp Hf.
  destruct (success_is_snapshot _ _ _ _ _ _ Hf) as (usage & summary & ->).
  unfold Web.refresh_license, try_except.
  rewrite mbind_gets. rewrite (dindex_dget _ _ _ Hip), Ht. cbn [negb].
  rewrite Hip, mbind_lift_ok, Hu, mbind_lift_ok, Hp, mbind_lift_ok.
  rewrite (mbind_run _ _ _ _ _ Hf).
  rewrite mbind_modify, mbind_gets.
  cbn [license_data set_license_data].
  rewrite (mbind_run _ _ _ _ _ (alerts_of_whole_snapshot usage summary _)).
  reflexivity.
Qed.

Lemma manual_refresh_never_alerts_witness :
  Web.refresh_license refresh_state
  = (Ok Web.Accepted,
     set_license_data
       (snapshot_of (default_pool [usage_row "ap-02" (VStr "12")]) (VDict []))
       (set_world [] all_ok complete_fetch refresh_state)).
Proof.
  exact (manual_refresh_never_alerts refresh_state
           (set_world [] all_ok complete_fetch refresh_state)
           (VStr "10.0.60.60") (VStr "admin") (VStr "secret")
           (snapshot_of (default_pool [usage_row "ap-02" (VStr "12")])
                        (VDict []))
           eq_refl eq_refl eq_refl eq_refl eq_refl).
Defined.

(** ** The cycle, case by case *)

Lemma mbind_io_ok {B} (e : effect) (k : unit -> M B) s rest :
  io s = true :: rest ->
  mbind (io_step e) k s = k tt (set_world (http s) rest (trace s ++ [e]) s).
Proof. intros H. unfold mbind, io_step. rewrite H. reflexivity. Qed.

Lemma mbind_io_fails {B} (e : effect) (k : unit -> M B) s :
  hd false (io s) = false ->
  mbind (io_step e) k s
  = (Raise OSError, set_world (http s) (tl (io s)) (trace s ++ [e]) s).
Proof.
  intros H. unfold mbind, io_step.
  destruct (io s) as [|[] rest]; [reflexivity | discriminate H | reflexivity].
Qed.

Lemma credentials_present (cfg : dict) :
  truthy (dget cfg "controller_ip" VNone)
  && truthy (dget cfg "username" VNone)
  && truthy (dget cfg "password" VNone) = true ->
  dindex cfg "controller_ip" = Ok (dget cfg "controller_ip" VNone)
  /\ dindex cfg "username" = Ok (dget cfg "username" VNone)
  /\ dindex cfg "password" = Ok (dget cfg "password" VNone).
Proof.
  intros H. apply andb_prop in H. destruct H as [H Hp].
  apply andb_prop in H. destruct H as [Hi Hu].
  repeat split; apply truthy_dget_dindex; assumption.
Qed.

(** X12. A cycle without the controller's address, the user name or the
    password sends nothing and sleeps: for the interval when
    [time.sleep] takes it, and for 60 seconds when [time.sleep] raises
    on it, as on a negative interval, one that is not a number or one
    beyond 64 bits of nanoseconds.  An interval so long that the
    monotonic clock decides whether it is taken is left out. *)
Theorem cycle_without_credentials_only_sleeps s :
  truthy (dget (config_data s) "controller_ip" VNone)
  && truthy (dget (config_data s) "username" VNone)
  && truthy (dget (config_data s) "password" VNone) = false ->
  (forall d ns,
     Poller.sleep_arg (dget (config_data s) "polling_interval" (VInt 86400))
     = Ok (d, ns) -> ns <= Poller.clock_room) ->
  Poller.polling_cycle s
  = (Ok tt,
     set_world (http s) (io s)
       (trace s ++
        [Sleep match Poller.sleep_arg
                       (dget (config_data s) "polling_interval" (VInt 86400))
               with
               | Ok a => fst a
               | Raise _ => Seconds 60
               end]) s).
Proof.
  intros Hc Hroom. unfold Poller.polling_cycle, try_except.
  rewrite mbind_gets, Hc. cbn [when]. rewrite mbind_ret, mbind_gets.
  destruct (Poller.sleep_arg
              (dget (config_data s) "polling_interval" (VInt 86400)))
    as [[d ns]|e]; [|reflexivity].
  rewrite mbind_lift_ok. cbn [fst snd]. unfold Poller.wait.
  destruct (Z.leb_spec ns Poller.clock_room) as [_|Hlt]; [reflexivity|].
  specialize (Hroom d ns eq_refl). lia.
Qed.

Lemma cycle_without_credentials_only_sleeps_witness :
  Poller.polling_cycle
    (set_config_data [(VStr "polling_interval", VInt (-1))] idle_state)
  = (Ok tt,
     set_world [] [] ([] ++ [Sleep (Seconds 60)])
       (set_config_data [(VStr "polling_interval", VInt (-1))] idle_state)).
Proof.
  refine (cycle_without_credentials_only_sleeps
            (set_config_data [(VStr "polling_interval", VInt (-1))]
                             idle_state)
            eq_refl _).
  intros d ns H. discriminate H.
Defined.

Section CycleAfterSuccess.

Context (s s1 : state) (usage summary : value).
Context (Hcred : truthy (dget (config_data s) "controller_ip" VNone)
                 && truthy (dget (config_data s) "username" VNone)
                 && truthy (dget (config_data s) "password" VNone) = true).
Context (Hfetch : Fetch.get_license_usage
                    (dget (config_data s) "controller_ip" VNone)
                    (dget (config_data s) "username" VNone)
                    (dget (config_data s) "password" VNone) s
                  = (Ok (Fetch.Success (snapshot_of usage summary)), s1)).

Lemma fetch_keeps_config : config_data s1 = config_data s.
Proof.
  pose proof (get_license_usage_keeps config_data config_world_blind
                (dget (config_data s) "controller_ip" VNone)
                (dget (config_data s) "username" VNone)
                (dget (config_data s) "password" VNone) s) as K.
  rewrite Hfetch in K. exact K.
Qed.

(** X13. When the snapshot file cannot be written, the snapshot fetched
    is the current one all the same, no alert is evaluated, and the
    worker sleeps 60 seconds. *)
Lemma cycle_with_failed_write :
  hd false (io s1) = false ->
  Poller.polling_cycle s
  = (Ok tt,
     set_world (http s1) (tl (io s1))
       (trace s1 ++ [WriteSnapshot (snapshot_of usage summary);
                     Sleep (Seconds 60)])
       (set_license_data (snapshot_of usage summary) s1)).
Proof.
  intros Hio. destruct (credentials_present _ Hcred) as (Hi & Hu & Hp).
  unfold Poller.polling_cycle, try_except.
  rewrite mbind_gets, Hcred. cbn [when].
  assert (E : forall k : unit -> M unit,
    mbind
      (controller_ip <- lift (dindex (config_data s) "controller_ip") ;;
       username <- lift (dindex (config_data s) "username") ;;
       password <- lift (dindex (config_data s) "password") ;;
       result <- Fetch.get_license_usage controller_ip username password ;;
       match result with
       | Fetch.Success data =>
           modify (set_license_data data) ;;;
           io_step (WriteSnapshot data) ;;;
           snapshot <- gets license_data ;;
           has <- lift (Notify.contains snapshot "license_usage") ;;
           when has
             (usage <- lift (index snapshot "license_usage") ;;
              Notify.check_license_alerts usage) ;;;
           cfg <- gets config_data ;;
           when (truthy (dget cfg "enable_notifications" (VBool false)))
             (Notify.send_notifications snapshot)
       | Fetch.Error _ => ret tt
       end) k s
    = (Raise OSError,
       set_world (http s1) (tl (io s1))
         (trace s1 ++ [WriteSnapshot (snapshot_of usage summary)])
         (set_license_data (snapshot_of usage summary) s1))).
  { intros k. apply mbind_run_raise.
    rewrite Hi, mbind_lift_ok, Hu, mbind_lift_ok, Hp, mbind_lift_ok.
    rewrite (mbind_run _ _ _ _ _ Hfetch), mbind_modify.
    rewrite mbind_io_fails by exact Hio. reflexivity. }
  rewrite E. unfold perform, modify.
  cbn [http io trace set_world set_license_data]. rewrite <- app_assoc.
  reflexivity.
Qed.

(** X14. When the file is written, the alerts dispatched are those of the
    usage part of the snapshot, no report is sent (the report looks for
    a "_data" item that a snapshot never has), and the worker sleeps the
    interval. *)
Lemma cycle_with_snapshot_written rest z :
  io s1 = true :: rest ->
  dget (config_data s) "polling_interval" (VInt 86400) = VInt z ->
  0 <= z * 60 <= Poller.sleep_limit ->
  let s2 := set_world (http s1) rest
              (trace s1 ++ [WriteSnapshot (snapshot_of usage summary)])
              (set_license_data (snapshot_of usage summary) s1) in
  let s3 := snd (Notify.check_license_alerts usage s2) in
  Poller.polling_cycle s
  = (Ok tt, set_world (http s3) (io s3)
                      (trace s3 ++ [Sleep (Seconds (z * 60))]) s3).
Proof.
  intros Hio Hz Hrange s2 s3.
  destruct (credentials_present _ Hcred) as (Hi & Hu & Hp).
  assert (Hc3 : config_data s3 = config_data s).
  { subst s3. rewrite (check_license_alerts_keeps config_data
                         config_world_blind config_channel_blind).
    subst s2. cbn [config_data set_world set_license_data].
    apply fetch_keeps_config. }
  destruct (check_license_alerts_returns usage s2) as [s3' E3].
  assert (s3' = s3) by (subst s3; rewrite E3; reflexivity). subst s3'.
  unfold Poller.polling_cycle, try_except.
  rewrite mbind_gets, Hcred. cbn [when].
  assert (E : forall B (k : unit -> M B),
    mbind
      (controller_ip <- lift (dindex (config_data s) "controller_ip") ;;
       username <- lift (dindex (config_data s) "username") ;;
       password <- lift (dindex (config_data s) "password") ;;
       result <- Fetch.get_license_usage controller_ip username password ;;
       match result with
       | Fetch.Success data =>
           modify (set_license_data data) ;;;
           io_step (WriteSnapshot data) ;;;
           snapshot <- gets license_data ;;
           has <- lift (Notify.contains snapshot "license_usage") ;;
           when has
             (usage <- lift (index snapshot "license_usage") ;;
              Notify.check_license_alerts usage) ;;;
           cfg <- gets config_data ;;
           when (truthy (dget cfg "enable_notifications" (VBool false)))
             (Notify.send_notifications snapshot)
       | Fetch.Error _ => ret tt
       end) k s
    = k tt s3).
  { intros B k. apply mbind_run.
    rewrite Hi, mbind_lift_ok, Hu, mbind_lift_ok, Hp, mbind_lift_ok.
    rewrite (mbind_run _ _ _ _ _ Hfetch), mbind_modify.
    rewrite (mbind_io_ok _ _ _ rest) by exact Hio.
    rewrite mbind_gets.
    change (set_world
              (http (set_license_data (snapshot_of usage summary) s1)) rest
              (trace (set_license_data (snapshot_of usage summary) s1) ++
               [WriteSnapshot (snapshot_of usage summary)])
              (set_license_data (snapshot_of usage summary) s1)) with s2.
    change (license_data s2) with (snapshot_of usage summary).
    cbn [Notify.contains snapshot_of has_key lookup py_eq
                     String.eqb Ascii.eqb Bool.eqb].
    rewrite mbind_lift_ok. cbn [when].
    assert (Ealerts :
      (u <- lift (index (VDict [(VStr "license_usage", usage);
                                (VStr "license_summary", summary)])
                        "license_usage") ;;
       Notify.check_license_alerts u) s2 = (Ok tt, s3)).
    { cbn [index dindex lookup py_eq String.eqb Ascii.eqb Bool.eqb].
      rewrite mbind_lift_ok. exact E3. }
    rewrite (mbind_run _ _ _ _ _ Ealerts), mbind_gets.
    destruct (truthy (dget (config_data s3) "enable_notifications"
                           (VBool false))); reflexivity. }
  rewrite E, mbind_gets, Hc3, Hz.
  rewrite (sleep_of_minutes z _ Hrange). reflexivity.
Qed.

End CycleAfterSuccess.

Lemma cycle_with_failed_write_witness :
  Poller.polling_cycle (alerting_state [false])
  = (Ok tt,
     set_world [] []
       (complete_fetch
        ++ [WriteSnapshot
              (snapshot_of (default_pool [usage_row "ap-02" (VStr "12")])
                           (VDict []));
            Sleep (Seconds 60)])
       (set_license_data
          (snapshot_of (default_pool [usage_row "ap-02" (VStr "12")])
                       (VDict []))
          (alerting_state [false]))).
Proof.
  exact (cycle_with_failed_write (alerting_state [false])
           (set_world [] [false] complete_fetch (alerting_state [false]))
           (default_pool [usage_row "ap-02" (VStr "12")]) (VDict [])
           eq_refl eq_refl eq_refl).
Defined.

Lemma cycle_with_snapshot_written_witness :
  trace (snd (Poller.polling_cycle (alerting_state all_ok)))
  = complete_fetch
    ++ [WriteSnapshot
          (snapshot_of (default_pool [usage_row "ap-02" (VStr "12")])
                       (VDict []));
        SmtpPlain (VStr "mail.example.com") (VInt 587); StartTls;
        SmtpLogin (VStr "monitor") (VStr "secret");
        SendMessage (VStr "monitor@example.com") "noc@example.com"
                    (AlertText alert_ap02);
        SmtpQuit;
        Sleep (Seconds (5 * 60))].
Proof.
  rewrite (cycle_with_snapshot_written (alerting_state all_ok)
             (set_world [] all_ok complete_fetch (alerting_state all_ok))
             (default_pool [usage_row "ap-02" (VStr "12")]) (VDict [])
             eq_refl eq_refl [true; true; true; true; true; true] 5
             eq_refl eq_refl).
  - reflexivity.
  - unfold Poller.sleep_limit. lia.
Defined.

(** ** What the worker leaves alone *)

Section PollerFrame.

Context {X : Type} (f : state -> X).
Context (Hw : world_blind f) (Hc : channel_blind f).
Context (Hl : forall d s, f (set_license_data d s) = f s).

Lemma polling_cycle_keeps : keeps f Poller.polling_cycle.
Proof.
  unfold Poller.polling_cycle.
  frame;
    first [ apply get_license_usage_keeps; exact Hw
          | apply keeps_modify; intros ?; apply Hl
          | apply check_license_alerts_keeps; assumption
          | apply send_notifications_keeps; assumption ].
Qed.

Lemma polling_loop_keeps n : keeps f (Poller.polling_loop n).
Proof.
  induction n as [|n IH]; cbn [Poller.polling_loop]; frame.
  - apply polling_cycle_keeps.
  - exact IH.
Qed.

End PollerFrame.

(** X15. However many cycles it runs and whatever they meet, the worker
    changes neither the configuration nor the flag that stops it: only a
    request handler does. *)
Theorem worker_keeps_configuration_and_flag (n : nat) (s : state) :
  config_data (snd (Poller.polling_loop n s)) = config_data s
  /\ polling_active (snd (Poller.polling_loop n s)) = polling_active s.
Proof.
  split.
  - apply (polling_loop_keeps config_data config_world_blind
             config_channel_blind); reflexivity.
  - apply (polling_loop_keeps polling_active).
    + intros h i t s0. reflexivity.
    + split; intros c s0; reflexivity.
    + reflexivity.
Qed.

(** ** Sending, channel by channel *)

Lemma send_email_unconfigured msg s :
  smtp_config s = None -> Notify.send_email msg s = (Ok false, s).
Proof.
  intros H. unfold Notify.send_email. rewrite mbind_gets, H. reflexivity.
Qed.

Lemma send_syslog_unconfigured msg s :
  syslog_config s = None -> Notify.send_syslog msg s = (Ok false, s).
Proof.
  intros H. unfold Notify.send_syslog. rewrite mbind_gets, H. reflexivity.
Qed.

(** X16. An alert on a channel that the configuration does not enable,
    or of a type that is neither "email" nor "syslog", sends nothing and
    configures nothing, whatever the rule says. *)
Theorem disabled_channel_sends_nothing (ev : AlertEvent) (s : state) :
  (alert_type ev = "email"%string ->
   truthy (dget (config_data s) "smtp_enabled" (VBool false)) = false) ->
  (alert_type ev = "syslog"%string ->
   truthy (dget (config_data s) "syslog_enabled" (VBool false)) = false) ->
  Notify.send_alert_notification ev s = (Ok tt, s).
Proof.
  intros He Hs. unfold Notify.send_alert_notification, try_except.
  rewrite mbind_gets.
  destruct (String.eqb_spec (alert_type ev) "email") as [E|_].
  { rewrite (He E). reflexivity. }
  destruct (String.eqb_spec (alert_type ev) "syslog") as [E|_].
  { rewrite (Hs E). reflexivity. }
  reflexivity.
Qed.

Lemma disabled_channel_sends_nothing_witness :
  Notify.send_alert_notification alert_ap01
    (set_config_data [(VStr "smtp_enabled", VBool false)]
                     (mail_state 587 all_ok))
  = (Ok tt, set_config_data [(VStr "smtp_enabled", VBool false)]
                            (mail_state 587 all_ok)).
Proof.
  apply (disabled_channel_sends_nothing alert_ap01
           (set_config_data [(VStr "smtp_enabled", VBool false)]
                            (mail_state 587 all_ok))).
  - intros _. reflexivity.
  - intros H. discriminate H.
Defined.

(** X17. A channel that is configured stays as it is configured through
    a send: the settings of the configuration are read at the send site
    only while the channel has none, so a manager configured earlier
    goes on with the settings it has. *)
Theorem configured_channel_is_not_reconfigured (ev : AlertEvent) (s : state) :
  (smtp_config s <> None ->
   smtp_config (snd (Notify.send_alert_notification ev s)) = smtp_config s)
  /\ (syslog_config s <> None ->
      syslog_config (snd (Notify.send_alert_notification ev s))
      = syslog_config s).
Proof.
  assert (Wm : world_blind smtp_config) by (intros h i t s0; reflexivity).
  assert (Wy : world_blind syslog_config) by (intros h i t s0; reflexivity).
  split; intros Hcfg; unfold Notify.send_alert_notification;
    (apply try_at; [|intros e; apply keeps_ret]); rewrite mbind_gets.
  - destruct (alert_type ev =? "email")%string;
      [|destruct (alert_type ev =? "syslog")%string; [|reflexivity]].
    + destruct (truthy (dget (config_data s) "smtp_enabled" (VBool false)));
        [|reflexivity].
      cbn [when]. apply bind_at.
      * unfold Notify.lazy_configure_smtp. rewrite !mbind_gets.
        destruct (smtp_config s) eqn:Es; [exact Es | congruence].
      * intros _. frame. apply send_email_keeps, Wm.
    + apply keeps_when.
      unfold Notify.lazy_configure_syslog, Notify.configure_syslog.
      frame;
        first [ apply send_syslog_keeps, Wm
              | apply keeps_modify; intros ?; reflexivity ].
  - destruct (alert_type ev =? "email")%string;
      [|destruct (alert_type ev =? "syslog")%string; [|reflexivity]].
    + apply keeps_when.
      unfold Notify.lazy_configure_smtp, Notify.configure_smtp.
      frame;
        first [ apply send_email_keeps, Wy
              | apply keeps_modify; intros ?; reflexivity ].
    + destruct (truthy (dget (config_data s) "syslog_enabled" (VBool false)));
        [|reflexivity].
      cbn [when]. apply bind_at.
      * unfold Notify.lazy_configure_syslog. rewrite !mbind_gets.
        destruct (syslog_config s) eqn:Es; [exact Es | congruence].
      * intros _. frame. apply send_syslog_keeps, Wy.
Qed.

Lemma completes_ret : completes (ret true) [].
Proof.
  intros s s' [= <-]. rewrite app_nil_r. reflexivity.
Qed.

Lemma completes_step (e : effect) (k : M bool) (rest : list effect) :
  completes k rest -> completes (mbind (io_step e) (fun _ => k)) (e :: rest).
Proof.
  intros Hk s s'. unfold attempt, try_except, mbind, io_step.
  destruct (io s) as [|[] more]; try (intros H; discriminate H).
  intros H.
  rewrite (Hk (set_world (http s) more (trace s ++ [e]) s) s' H).
  cbn [trace set_world]. rewrite <- app_assoc. reflexivity.
Qed.

Lemma completes_assoc {A B} (m : M A) (k1 : A -> M B) (k2 : B -> M bool)
  (script : list effect) :
  completes (mbind m (fun a => mbind (k1 a) k2)) script ->
  completes (mbind (mbind m k1) k2) script.
Proof.
  intros H s s' E. apply H. rewrite <- E.
  unfold attempt, try_except, mbind.
  destruct (m s) as [[a|e] s1]; reflexivity.
Qed.

(** X18. [send_email] never raises, and it answers True only when the
    manager is configured and the connection for its port, the login,
    the message and the quit have all gone through, in that order. *)
Theorem send_email_true_means_sent msg s :
  (exists b s', Notify.send_email msg s = (Ok b, s'))
  /\ (forall s', Notify.send_email msg s = (Ok true, s') ->
      exists c to_header,
        smtp_config s = Some c
        /\ Notify.join_values ", " (smtp_to_emails c) = Ok to_header
        /\ trace s' = trace s ++ smtp_script c to_header msg).
Proof.
  unfold Notify.send_email. rewrite mbind_gets.
  destruct (smtp_config s) as [c|];
    [|split; [unfold ret; eauto | intros s' H; discriminate H]].
  split.
  { unfold try_except.
    match goal with |- context [match ?m s with _ => _ end] =>
      destruct (m s) as [[b|e] s1] end; unfold ret; eauto. }
  intros s'.
  destruct (Notify.join_values ", " (smtp_to_emails c)) as [to|e] eqn:Ej.
  2:{ unfold try_except. rewrite mbind_lift_raise. intros H; discriminate H. }
  intros H. exists c, to. split; [reflexivity|]. split; [exact Ej|].
  assert (F : completes
    (Notify.connect c ;;;
     io_step (SmtpLogin (smtp_username c) (smtp_password c)) ;;;
     io_step (SendMessage (smtp_from_email c) to msg) ;;;
     io_step SmtpQuit ;;; ret true)
    (smtp_script c to msg)).
  { unfold Notify.connect, smtp_script.
    destruct (py_eq (smtp_port c) (VInt 465)); cbn [app].
    - repeat apply completes_step. apply completes_ret.
    - apply completes_assoc. repeat apply completes_step.
      apply completes_ret. }
  apply F. exact H.
Qed.

Lemma mbind_pure {A B} (m : M A) (k : A -> M B) s (r : res A) :
  m s = (r, s) -> mbind m k s = mbind (lift r) k s.
Proof. intros H. unfold mbind, lift. rewrite H. reflexivity. Qed.

(** X19. No report is sent by a process that configured no channel: the
    report path does not configure one at first use as the alert path
    does, so with the manager as the process starts it,
    [send_notifications] has no effect, whatever the data and the
    configuration. *)
Theorem report_is_not_sent_unconfigured (license_data : value) (s : state) :
  smtp_config s = None ->
  syslog_config s = None ->
  Notify.send_notifications license_data s = (Ok tt, s).
Proof.
  intros Hm Hy. unfold Notify.send_notifications, try_except.
  destruct (Notify.contains license_data "_data") as [has|e];
    [rewrite mbind_lift_ok | reflexivity].
  assert (E : forall info : res (list value),
    (license_info <- lift info ;;
     match license_info with
     | [] => ret tt
     | _ :: _ =>
         lift (Notify.report_body license_info) ;;;
         cfg <- gets config_data ;;
         when (truthy (dget cfg "smtp_enabled" (VBool false)))
           (sent <- Notify.send_email (ReportText license_info) ;; ret tt) ;;;
         when (truthy (dget cfg "syslog_enabled" (VBool false)))
           (sent <- Notify.send_syslog (ReportText license_info) ;; ret tt)
     end) s = (Ok tt, s) \/
    exists e, (license_info <- lift info ;;
     match license_info with
     | [] => ret tt
     | _ :: _ =>
         lift (Notify.report_body license_info) ;;;
         cfg <- gets config_data ;;
         when (truthy (dget cfg "smtp_enabled" (VBool false)))
           (sent <- Notify.send_email (ReportText license_info) ;; ret tt) ;;;
         when (truthy (dget cfg "syslog_enabled" (VBool false)))
           (sent <- Notify.send_syslog (ReportText license_info) ;; ret tt)
     end) s = (Raise e, s)).
  { intros [[|i l]|e];
      [left; reflexivity | | right; exists e; reflexivity].
    rewrite mbind_lift_ok.
    destruct (Notify.report_body (i :: l)) as [[]|e];
      [rewrite mbind_lift_ok | right; exists e; reflexivity].
    left. rewrite mbind_gets.
    destruct (truthy (dget (config_data s) "smtp_enabled" (VBool false)));
      cbn [when].
    - rewrite (mbind_run _ _ s tt s).
      2:{ rewrite (mbind_run _ _ _ _ _ (send_email_unconfigured _ s Hm)).
          reflexivity. }
      destruct (truthy (dget (config_data s) "syslog_enabled" (VBool false)));
        cbn [when]; [|reflexivity].
      rewrite (mbind_run _ _ _ _ _ (send_syslog_unconfigured _ s Hy)).
      reflexivity.
    - rewrite mbind_ret.
      destruct (truthy (dget (config_data s) "syslog_enabled" (VBool false)));
        cbn [when]; [|reflexivity].
      rewrite (mbind_run _ _ _ _ _ (send_syslog_unconfigured _ s Hy)).
      reflexivity. }
  match goal with |- context [mbind ?inner ?K s] =>
    assert (Hin : exists info, inner s = (info, s));
    [ destruct has; [|eexists; reflexivity];
      unfold mbind, lift;
      destruct (index license_data "_data") as [data|e];
        [|eexists; reflexivity];
      destruct (iter data); eexists; reflexivity
    | destruct Hin as [info Hin];
      rewrite (mbind_pure inner K s info Hin) ]
  end.
  destruct (E info) as [-> | [e ->]]; reflexivity.
Qed.

Lemma report_is_not_sent_unconfigured_witness :
  Notify.send_notifications
    (VDict [(VStr "_data",
             VList [VDict [(VStr "License",
                            VDict [(VStr "Type", VStr "AP");
                                   (VStr "Used", VStr "12");
                                   (VStr "Total", VStr "64")])]])])
    (started_state "noc@example.com" all_ok)
  = (Ok tt, started_state "noc@example.com" all_ok).
Proof.
  exact (report_is_not_sent_unconfigured _
           (started_state "noc@example.com" all_ok) eq_refl eq_refl).
Defined.

Lemma configured_channel_is_not_reconfigured_witness :
  smtp_config (snd (Notify.send_alert_notification alert_ap01
                      (set_config_data (mail_config "new@example.com")
                                       (mail_state 465 all_ok))))
  = Some (mail_settings 465).
Proof.
  apply (proj1 (configured_channel_is_not_reconfigured alert_ap01
                  (set_config_data (mail_config "new@example.com")
                                   (mail_state 465 all_ok)))).
  discriminate.
Defined.

Lemma send_email_true_means_sent_witness :
  exists c to_header,
    smtp_config (mail_state 465 all_ok) = Some c
    /\ Notify.join_values ", " (smtp_to_emails c) = Ok to_header
    /\ [SmtpSSL (VStr "mail.example.com") (VInt 465);
        SmtpLogin (VStr "monitor") (VStr "secret");
        SendMessage (VStr "monitor@example.com") "noc@example.com"
                    (ReportText []);
        SmtpQuit]
       = [] ++ smtp_script c to_header (ReportText []).
Proof.
  exact (proj2 (send_email_true_means_sent (ReportText [])
                  (mail_state 465 all_ok))
           (set_world [] [true; true; true]
              [SmtpSSL (VStr "mail.example.com") (VInt 465);
               SmtpLogin (VStr "monitor") (VStr "secret");
               SendMessage (VStr "monitor@example.com") "noc@example.com"
                           (ReportText []);
               SmtpQuit] (mail_state 465 all_ok))
           eq_refl).
Defined.

(** ** Saving the configuration, outcome by outcome *)

Lemma form_int_raises (f : Web.form) (k v : string) (default : Z) :
  Web.form_get f k = Some v -> int_of_string v = None ->
  Web.form_int f k default = Raise ValueError.
Proof.
  intros Hg Hi. unfold Web.form_int, int, bind. rewrite Hg, Hi. reflexivity.
Qed.

Lemma form_int_cases (f : Web.form) (k : string) (default : Z) :
  (exists z, Web.form_int f k default = Ok (VInt z))
  \/ Web.form_int f k default = Raise ValueError.
Proof.
  unfold Web.form_int, int, bind. destruct (Web.form_get f k) as [v|].
  - destruct (int_of_string v); eauto.
  - eauto.
Qed.

(** X20. A form whose polling interval, SMTP port or syslog port is not
    the text of an integer is turned down and nothing happens: the
    configuration, the channels and the poller are as they were and no
    file is written. *)
Theorem save_config_rejects_bad_number (f : Web.form) (s : state)
  (k v : string) :
  k = "polling_interval"%string \/ k = "smtp_port"%string
  \/ k = "syslog_port"%string ->
  Web.form_get f k = Some v ->
  int_of_string v = None ->
  Web.save_config_api f s
  = (Ok (Web.Rejected (Web.HandlerException ValueError)), s).
Proof.
  intros Hk Hg Hi.
  assert (E : Web.new_config_of f = Raise ValueError).
  { pose proof (form_int_cases f "polling_interval" 86400) as C1.
    pose proof (form_int_cases f "smtp_port" 587) as C2.
    pose proof (form_int_cases f "syslog_port" 514) as C3.
    unfold Web.new_config_of.
    destruct C1 as [[z1 E1]|E1]; rewrite E1; cbn [bind]; [|reflexivity].
    destruct C2 as [[z2 E2]|E2]; rewrite E2; cbn [bind]; [|reflexivity].
    destruct C3 as [[z3 E3]|E3]; rewrite E3; cbn [bind]; [|reflexivity].
    exfalso. destruct Hk as [-> | [-> | ->]].
    - rewrite (form_int_raises f _ v 86400 Hg Hi) in E1. discriminate E1.
    - rewrite (form_int_raises f _ v 587 Hg Hi) in E2. discriminate E2.
    - rewrite (form_int_raises f _ v 514 Hg Hi) in E3. discriminate E3. }
  unfold Web.save_config_api, try_except. rewrite E. reflexivity.
Qed.

Lemma form_on_bool (f : Web.form) (k : string) :
  exists b, Web.form_on f k = VBool b.
Proof. unfold Web.form_on. eauto. Qed.

Lemma form_str_string (f : Web.form) (k : string) :
  exists v, Web.form_str f k = VStr v.
Proof. unfold Web.form_str. eauto. Qed.

Lemma mbind_assoc_run {A B C} (m : M A) (k1 : A -> M B) (k2 : B -> M C) s :
  mbind (mbind m k1) k2 s = mbind m (fun a => mbind (k1 a) k2) s.
Proof. unfold mbind. destruct (m s) as [[a|e] s1]; reflexivity. Qed.

Lemma save_config_api_runs (f : Web.form) (s : state) (nc : dict) :
  Web.new_config_of f = Ok nc ->
  Web.save_config_api f s
  = try_except save_config_api_rest
      (fun e => ret (Web.Rejected (Web.HandlerException e)))
      (set_config_data (replacement (config_data s) nc) s).
Proof.
  intros Hnc. unfold Web.save_config_api, try_except at 1.
  rewrite Hnc, mbind_lift_ok, mbind_gets. unfold replacement.
  destruct (lookup (VStr "alert_settings") (config_data s)) as [kept|] eqn:L.
  - assert (Hk : has_key (config_data s) "alert_settings" = true)
      by (unfold has_key; rewrite L; reflexivity).
    assert (Hi : dindex (config_data s) "alert_settings" = Ok kept)
      by (unfold dindex; rewrite L; reflexivity).
    rewrite Hk, Hi.
    rewrite (mbind_run _ _ s (dset (VStr "alert_settings") kept nc) s eq_refl).
    rewrite mbind_modify. reflexivity.
  - assert (Hk : has_key (config_data s) "alert_settings" = false)
      by (unfold has_key; rewrite L; reflexivity).
    rewrite Hk.
    rewrite (mbind_run _ _ s nc s eq_refl).
    rewrite mbind_modify. reflexivity.
Qed.

(** The configuration put in place has every key the handler reads
    back, and its recipients are a string. *)
Lemma replacement_keys (f : Web.form) (old nc : dict) :
  Web.new_config_of f = Ok nc ->
  Forall (fun k => dindex (replacement old nc) k
                   = Ok (dget (replacement old nc) k VNone)) keys_read
  /\ dget (replacement old nc) "smtp_to" VNone = Web.form_str f "smtp_to"
  /\ dget (replacement old nc) "smtp_enabled" VNone
     = Web.form_on f "smtp_enabled"
  /\ dget (replacement old nc) "smtp_port" VNone
     = match Web.form_int f "smtp_port" 587 with
       | Ok port => port
       | Raise _ => VNone
       end
  /\ dget (replacement old nc) "controller_ip" VNone
     = Web.form_str f "controller_ip".
Proof.
  unfold Web.new_config_of, bind.
  destruct (Web.form_int f "polling_interval" 86400); [|discriminate].
  destruct (Web.form_int f "smtp_port" 587); [|discriminate].
  destruct (Web.form_int f "syslog_port" 514); [|discriminate].
  intros [= <-]. unfold replacement, keys_read.
  destruct (lookup (VStr "alert_settings") old);
    repeat split; repeat constructor.
Qed.

Lemma save_config_api_rest_runs (s0 : state) (rest : list bool)
  (recipients : list value) :
  io s0 = true :: true :: rest ->
  Forall (fun k => dindex (config_data s0) k
                   = Ok (dget (config_data s0) k VNone)) keys_read ->
  Web.split_recipients (dget (config_data s0) "smtp_to" VNone)
    = Ok recipients ->
  save_config_api_rest s0
  = (Ok Web.Accepted,
     after_restart (after_channels (after_files s0 rest) recipients)).
Proof.
  intros Hio Hkeys Hto. unfold keys_read in Hkeys.
  repeat match goal with
         | H : Forall _ (_ :: _) |- _ => inversion H; clear H; subst
         end.
  unfold save_config_api_rest, Web.save_config.
  (* the two file operations *)
  rewrite (mbind_run _ _ s0 tt
             (set_world (http s0) (true :: rest)
                (trace s0 ++ [WriteConfig (config_data s0)]) s0)).
  2:{ unfold mbind, gets, io_step. rewrite Hio. reflexivity. }
  rewrite (mbind_io_ok _ _ _ rest) by reflexivity.
  assert (E1 : set_world
                 (http (set_world (http s0) (true :: rest)
                          (trace s0 ++ [WriteConfig (config_data s0)]) s0))
                 rest
                 (trace (set_world (http s0) (true :: rest)
                           (trace s0 ++ [WriteConfig (config_data s0)]) s0)
                  ++ [ReadConfig])
                 (set_world (http s0) (true :: rest)
                    (trace s0 ++ [WriteConfig (config_data s0)]) s0)
               = after_files s0 rest).
  { unfold after_files. cbn [http trace set_world]. rewrite <- app_assoc.
    reflexivity. }
  rewrite E1. set (s1 := after_files s0 rest).
  assert (C1 : config_data s1 = config_data s0) by reflexivity.
  rewrite mbind_gets, C1.
  (* the channels *)
  match goal with H : dindex _ "smtp_enabled" = _ |- _ =>
    rewrite H, mbind_lift_ok end.
  set (s2 := if truthy (dget (config_data s0) "smtp_enabled" VNone)
             then set_smtp_config
                    (Some (mail_of (config_data s0) recipients)) s1
             else s1).
  match goal with |- context [mbind (when ?c ?m) ?k s1] =>
    assert (E2 : when c m s1 = (Ok tt, s2)) end.
  { subst s2.
    destruct (truthy (dget (config_data s0) "smtp_enabled" VNone));
      [|reflexivity].
    cbn [when].
    repeat match goal with H : dindex _ _ = _ |- _ =>
      rewrite H; clear H end.
    rewrite !mbind_lift_ok, Hto, !mbind_lift_ok. reflexivity. }
  rewrite (mbind_run _ _ _ _ _ E2).
  match goal with H : dindex _ "syslog_enabled" = _ |- _ =>
    rewrite H, mbind_lift_ok end.
  set (s3 := if truthy (dget (config_data s0) "syslog_enabled" VNone)
             then set_syslog_config (Some (syslog_of (config_data s0))) s2
             else s2).
  match goal with |- context [mbind (when ?c ?m) ?k s2] =>
    assert (E3 : when c m s2 = (Ok tt, s3)) end.
  { subst s3.
    destruct (truthy (dget (config_data s0) "syslog_enabled" VNone));
      [|reflexivity].
    cbn [when].
    repeat match goal with H : dindex _ _ = _ |- _ =>
      rewrite H; clear H end.
    rewrite !mbind_lift_ok. reflexivity. }
  rewrite (mbind_run _ _ _ _ _ E3).
  assert (C3 : config_data s3 = config_data s0).
  { subst s3 s2.
    destruct (truthy (dget (config_data s0) "syslog_enabled" VNone)),
             (truthy (dget (config_data s0) "smtp_enabled" VNone));
      reflexivity. }
  assert (S3 : after_channels s1 recipients = s3).
  { unfold after_channels. rewrite C1. reflexivity. }
  rewrite S3.
  (* the poller *)
  unfold after_restart. rewrite C3.
  destruct (truthy (dget (config_data s0) "controller_ip" VNone));
    cbn [when]; [|reflexivity].
  rewrite mbind_assoc_run, mbind_gets.
  destruct (polling_active s3); cbn [when].
  - unfold mbind, perform, modify, ret.
    cbn [http io trace set_world set_polling_active].
    rewrite <- app_assoc. reflexivity.
  - reflexivity.
Qed.

Lemma after_restart_smtp s3 :
  smtp_config (after_restart s3) = smtp_config s3.
Proof.
  unfold after_restart.
  destruct (truthy (dget (config_data s3) "controller_ip" VNone));
    reflexivity.
Qed.

Lemma after_channels_smtp s1 recipients :
  truthy (dget (config_data s1) "smtp_enabled" VNone) = true ->
  smtp_config (after_channels s1 recipients)
  = Some (mail_of (config_data s1) recipients).
Proof.
  intros H. unfold after_channels. rewrite H.
  destruct (truthy (dget (config_data s1) "syslog_enabled" VNone));
    reflexivity.
Qed.

Lemma after_channels_rest s1 recipients :
  config_data (after_channels s1 recipients) = config_data s1
  /\ polling_active (after_channels s1 recipients) = polling_active s1
  /\ trace (after_channels s1 recipients) = trace s1.
Proof.
  unfold after_channels.
  destruct (truthy (dget (config_data s1) "syslog_enabled" VNone)),
           (truthy (dget (config_data s1) "smtp_enabled" VNone));
    repeat split; reflexivity.
Qed.

Lemma after_restart_poller s3 :
  polling_active (after_restart s3)
  = (if truthy (dget (config_data s3) "controller_ip" VNone)
     then true else polling_active s3)
  /\ trace (after_restart s3)
     = trace s3 ++
       (if truthy (dget (config_data s3) "controller_ip" VNone)
        then (if polling_active s3 then [StopPoller] else [])
             ++ [StartPoller]
        else []).
Proof.
  unfold after_restart.
  destruct (truthy (dget (config_data s3) "controller_ip" VNone));
    split; try reflexivity.
  cbn. rewrite app_nil_r. reflexivity.
Qed.

Lemma save_config_api_outcome (f : Web.form) (s : state) (nc : dict)
  (rest : list bool) :
  Web.new_config_of f = Ok nc ->
  io s = true :: true :: rest ->
  Web.save_config_api f s
  = (Ok Web.Accepted,
     after_restart
       (after_channels
          (after_files (set_config_data (replacement (config_data s) nc) s)
                       rest)
          (recipients_of f))).
Proof.
  intros Hnc Hio. rewrite (save_config_api_runs f s nc Hnc).
  destruct (replacement_keys f (config_data s) nc Hnc)
    as (Hkeys & Hto & _).
  unfold try_except.
  rewrite (save_config_api_rest_runs _ rest (recipients_of f)).
  - reflexivity.
  - exact Hio.
  - exact Hkeys.
  - cbn [config_data set_config_data]. rewrite Hto. reflexivity.
Qed.

(** X21. When the configuration file cannot be written, the handler
    answers with the error, yet the new configuration has already taken
    the place of the old one in memory; the channels keep their settings
    and the poller is not restarted. *)
Theorem save_config_write_failure (f : Web.form) (s : state) (nc : dict) :
  Web.new_config_of f = Ok nc ->
  hd false (io s) = false ->
  Web.save_config_api f s
  = (Ok (Web.Rejected (Web.HandlerException OSError)),
     set_world (http s) (tl (io s))
       (trace s ++ [WriteConfig (replacement (config_data s) nc)])
       (set_config_data (replacement (config_data s) nc) s)).
Proof.
  intros Hnc Hio. rewrite (save_config_api_runs f s nc Hnc).
  unfold try_except, save_config_api_rest, Web.save_config.
  rewrite mbind_assoc_run, mbind_gets.
  rewrite mbind_io_fails by exact Hio. reflexivity.
Qed.

Lemma save_config_write_failure_witness :
  Web.save_config_api (mail_form "noc@example.com")
    (set_world [] [false] [] idle_state)
  = (Ok (Web.Rejected (Web.HandlerException OSError)),
     set_world [] []
       ([] ++ [WriteConfig (mail_config "noc@example.com")])
       (set_config_data (mail_config "noc@example.com")
                        (set_world [] [false] [] idle_state))).
Proof.
  exact (save_config_write_failure (mail_form "noc@example.com")
           (set_world [] [false] [] idle_state)
           (mail_config "noc@example.com") eq_refl eq_refl).
Defined.

Lemma save_config_rejects_bad_number_witness :
  Web.save_config_api [("polling_interval", "five")]%string
    (polling_state 5 [])
  = (Ok (Web.Rejected (Web.HandlerException ValueError)),
     polling_state 5 []).
Proof.
  exact (save_config_rejects_bad_number
           [("polling_interval", "five")]%string (polling_state 5 [])
           "polling_interval" "five" (or_introl eq_refl) eq_refl eq_refl).
Defined.

(** X22. A save that goes through with the mail channel switched on
    leaves the manager configured with the recipients of the form split
    on commas, trimmed, and without the empty ones, and with the port
    the form gives as an integer. *)
Theorem accepted_save_splits_recipients (f : Web.form) (s : state)
  (nc : dict) (rest : list bool) (port : value) :
  Web.new_config_of f = Ok nc ->
  io s = true :: true :: rest ->
  Web.form_get f "smtp_enabled" = Some "on"%string ->
  Web.form_int f "smtp_port" 587 = Ok port ->
  fst (Web.save_config_api f s) = Ok Web.Accepted
  /\ option_map smtp_to_emails (smtp_config (snd (Web.save_config_api f s)))
     = Some (recipients_of f)
  /\ option_map smtp_port (smtp_config (snd (Web.save_config_api f s)))
     = Some port.
Proof.
  intros Hnc Hio Hon Hport.
  rewrite (save_config_api_outcome f s nc rest Hnc Hio).
  destruct (replacement_keys f (config_data s) nc Hnc)
    as (_ & _ & Hen & Hp & _).
  assert (Hen' : truthy (dget (replacement (config_data s) nc)
                              "smtp_enabled" VNone) = true).
  { rewrite Hen. unfold Web.form_on. rewrite Hon. reflexivity. }
  rewrite Hport in Hp.
  split; [reflexivity|]. cbn [snd].
  rewrite after_restart_smtp, after_channels_smtp by exact Hen'.
  cbn [option_map mail_of smtp_to_emails smtp_port config_data after_files
       set_world set_config_data].
  rewrite Hp. split; reflexivity.
Qed.

Lemma accepted_save_splits_recipients_witness :
  fst (Web.save_config_api (mail_form " a@example.com ,,b@example.com")
         (set_world [] all_ok [] idle_state)) = Ok Web.Accepted
  /\ option_map smtp_to_emails
       (smtp_config
          (snd (Web.save_config_api
                  (mail_form " a@example.com ,,b@example.com")
                  (set_world [] all_ok [] idle_state))))
     = Some (recipients_of (mail_form " a@example.com ,,b@example.com"))
  /\ option_map smtp_port
       (smtp_config
          (snd (Web.save_config_api
                  (mail_form " a@example.com ,,b@example.com")
                  (set_world [] all_ok [] idle_state))))
     = Some (VInt 587).
Proof.
  exact (accepted_save_splits_recipients
           (mail_form " a@example.com ,,b@example.com")
           (set_world [] all_ok [] idle_state)
           (mail_config " a@example.com ,,b@example.com")
           [true; true; true; true; true] (VInt 587)
           eq_refl eq_refl eq_refl eq_refl).
Defined.

(** X23. A save that goes through starts the poller exactly when the
    form names a controller, stopping first the one that runs; with no
    controller in the form the poller and its flag are left as they are. *)
Theorem accepted_save_restarts_poller (f : Web.form) (s : state)
  (nc : dict) (rest : list bool) :
  Web.new_config_of f = Ok nc ->
  io s = true :: true :: rest ->
  let named := truthy (Web.form_str f "controller_ip") in
  polling_active (snd (Web.save_config_api f s))
  = (if named then true else polling_active s)
  /\ trace (snd (Web.save_config_api f s))
     = (trace s ++ [WriteConfig (replacement (config_data s) nc); ReadConfig])
       ++ (if named
           then (if polling_active s then [StopPoller] else [])
                ++ [StartPoller]
           else []).
Proof.
  intros Hnc Hio named.
  rewrite (save_config_api_outcome f s nc rest Hnc Hio).
  destruct (replacement_keys f (config_data s) nc Hnc)
    as (_ & _ & _ & _ & Hip).
  cbn [snd].
  destruct (after_restart_poller
              (after_channels
                 (after_files
                    (set_config_data (replacement (config_data s) nc) s) rest)
                 (recipients_of f))) as [Ha Ht].
  destruct (after_channels_rest
              (after_files
                 (set_config_data (replacement (config_data s) nc) s) rest)
              (recipients_of f)) as (Hc & Hp & Htr).
  rewrite Ha, Ht, Hc, Hp, Htr.
  cbn [config_data polling_active trace after_files set_world
       set_config_data].
  rewrite Hip. fold named. split; reflexivity.
Qed.

Lemma accepted_save_restarts_poller_witness :
  polling_active
    (snd (Web.save_config_api (mail_form "noc@example.com")
            (set_world [] all_ok [] (polling_state 5 []))))
  = true
  /\ trace (snd (Web.save_config_api (mail_form "noc@example.com")
                   (set_world [] all_ok [] (polling_state 5 []))))
     = ([] ++ [WriteConfig (mail_config "noc@example.com"); ReadConfig])
       ++ [StopPoller] ++ [StartPoller].
Proof.
  exact (accepted_save_restarts_poller (mail_form "noc@example.com")
           (set_world [] all_ok [] (polling_state 5 []))
           (mail_config "noc@example.com")
           [true; true; true; true; true] eq_refl eq_refl).
Defined.

(** ** Saving a rule, outcome by outcome *)

Lemma py_eq_str_true (k : string) (x : value) :
  py_eq (VStr k) x = true -> x = VStr k.
Proof.
  destruct x; cbn; try discriminate.
  intros H. apply String.eqb_eq in H. subst. reflexivity.
Qed.

Lemma py_eq_str_neq (k k' : string) :
  k <> k' -> py_eq (VStr k') (VStr k) = false.
Proof. intros H. cbn. apply String.eqb_neq. congruence. Qed.

(** Setting the item of one string key leaves the item of another. *)
Lemma lookup_dset_other_str (k k' : string) (v : value) (d : dict) :
  k <> k' -> lookup (VStr k') (dset (VStr k) v d) = lookup (VStr k') d.
Proof.
  intros Hne. induction d as [|[ki vi] rest IH]; cbn [dset lookup].
  - rewrite (py_eq_str_neq k k' Hne). reflexivity.
  - destruct (py_eq (VStr k) ki) eqn:E; cbn [lookup].
    + apply py_eq_str_true in E. subst ki.
      rewrite (py_eq_str_neq k k' Hne). reflexivity.
    + rewrite IH. reflexivity.
Qed.

Lemma with_rule_map_has (s : state) :
  rule_map_is_dict (config_data s) ->
  exists rules,
    lookup (VStr "alert_settings") (config_data (with_rule_map s))
    = Some (VDict rules)
    /\ lookup (VStr "alert_settings") (config_data s)
       = (if has_key (config_data s) "alert_settings"
          then Some (VDict rules) else None)
    /\ (has_key (config_data s) "alert_settings" = false -> rules = []).
Proof.
  intros Hd. unfold with_rule_map, has_key.
  destruct (lookup (VStr "alert_settings") (config_data s)) as [v|] eqn:L.
  - destruct (Hd v L) as [rules ->]. exists rules.
    repeat split; [exact L | discriminate].
  - exists []. cbn [config_data set_config_data].
    rewrite lookup_alert_settings_dset. repeat split.
Qed.

(** A request with a string hostname and a threshold that converts:
    the rule is filed, and then the file is written or not. *)
Lemma save_alert_settings_files (d : dict) (s : state) (h : string) (z : Z)
  (rules : dict) :
  dget d "hostname" VNone = VStr h ->
  h <> EmptyString ->
  (if truthy (dget d "threshold" VNone)
   then int (dget d "threshold" VNone) else Ok 0) = Ok z ->
  lookup (VStr "alert_settings") (config_data (with_rule_map s))
    = Some (VDict rules) ->
  let s2 := with_rule s h (rule_of d z) rules in
  Web.save_alert_settings (VDict d) s
  = match io s with
    | true :: rest =>
        (Ok Web.Accepted,
         set_world (http s) rest
           (trace s ++ [WriteConfig (config_data s2)]) s2)
    | _ =>
        (Ok (Web.Rejected (Web.HandlerException OSError)),
         set_world (http s) (tl (io s))
           (trace s ++ [WriteConfig (config_data s2)]) s2)
    end.
Proof.
  intros Hh Hne Hz Hl s2.
  unfold Web.save_alert_settings, try_except. cbn [get].
  rewrite !mbind_lift_ok, Hh.
  assert (Ht : truthy (VStr h) = true).
  { cbn. destruct (String.eqb_spec h ""); [contradiction | reflexivity]. }
  rewrite Ht. cbn [negb]. rewrite mbind_gets.
  assert (Hw : (when (negb (has_key (config_data s) "alert_settings"))
                  (modify (set_config_data
                             (dset (VStr "alert_settings") (VDict [])
                                   (config_data s))))) s
               = (Ok tt, with_rule_map s)).
  { unfold with_rule_map.
    destruct (has_key (config_data s) "alert_settings"); reflexivity. }
  rewrite (mbind_run _ _ _ _ _ Hw), Hz, mbind_lift_ok.
  rewrite (mbind_run _ _ _ _ _
             (store_rule_in_dict (VStr h) _ rules (with_rule_map s) Hl
                                 eq_refl)).
  fold (rule_of d z). fold (with_rule s h (rule_of d z) rules). fold s2.
  assert (Hio : io s2 = io s /\ http s2 = http s /\ trace s2 = trace s).
  { subst s2. unfold with_rule, with_rule_map.
    destruct (has_key (config_data s) "alert_settings"); repeat split. }
  destruct Hio as (Hio & Hht & Htr).
  unfold Web.save_config, mbind, gets, io_step. rewrite Hio, Hht, Htr.
  destruct (io s) as [|[] rest]; reflexivity.
Qed.

(** X24. Filing a rule for one hostname leaves every other hostname's
    rule and every other item of the configuration as they were, whether
    or not the file is then written. *)
Theorem saving_a_rule_leaves_the_others (d : dict) (s : state)
  (h other key : string) (z : Z) :
  rule_map_is_dict (config_data s) ->
  dget d "hostname" VNone = VStr h ->
  h <> EmptyString ->
  (if truthy (dget d "threshold" VNone)
   then int (dget d "threshold" VNone) else Ok 0) = Ok z ->
  other <> h ->
  key <> "alert_settings"%string ->
  let s' := snd (Web.save_alert_settings (VDict d) s) in
  Web.stored_rule (config_data s') (VStr h) = Some (rule_of d z)
  /\ Web.stored_rule (config_data s') (VStr other)
     = Web.stored_rule (config_data s) (VStr other)
  /\ lookup (VStr key) (config_data s') = lookup (VStr key) (config_data s).
Proof.
  intros Hd Hh Hne Hz Ho Hk s'.
  destruct (with_rule_map_has s Hd) as (rules & Hl & Hold & Hnew).
  assert (Hcfg : config_data s'
                 = config_data (with_rule s h (rule_of d z) rules)).
  { subst s'. rewrite (save_alert_settings_files d s h z rules Hh Hne Hz Hl).
    destruct (io s) as [|[] rest]; reflexivity. }
  rewrite Hcfg. unfold with_rule. cbn [config_data set_config_data].
  unfold Web.stored_rule. rewrite lookup_alert_settings_dset.
  split; [apply lookup_dset_same; cbn; apply String.eqb_refl|].
  split.
  - rewrite (lookup_dset_other_str h other) by congruence.
    rewrite Hold. unfold has_key in *.
    destruct (lookup (VStr "alert_settings") (config_data s)) as [v|].
    + injection Hold as ->. reflexivity.
    + rewrite (Hnew eq_refl). reflexivity.
  - rewrite (lookup_dset_other_str "alert_settings" key) by congruence.
    unfold with_rule_map.
    destruct (has_key (config_data s) "alert_settings"); [reflexivity|].
    cbn [config_data set_config_data].
    apply lookup_dset_other_str. congruence.
Qed.

Lemma saving_a_rule_leaves_the_others_witness :
  Web.stored_rule
    (config_data
       (snd (Web.save_alert_settings (threshold_request "ap-01" (VStr "20"))
               (set_config_data (controller_config 5 ++ rules_ap02)
                                (set_world [] [true] [] idle_state)))))
    (VStr "ap-02")
  = Some email_rule_10.
Proof.
  refine (proj1 (proj2 (saving_a_rule_leaves_the_others
    [(VStr "hostname", VStr "ap-01"); (VStr "threshold", VStr "20");
     (VStr "email_enabled", VBool true); (VStr "syslog_enabled", VBool false)]
    (set_config_data (controller_config 5 ++ rules_ap02)
                     (set_world [] [true] [] idle_state))
    "ap-01" "ap-02" "username" 20 _ eq_refl _ eq_refl _ _))).
  - intros v [= <-]. eauto.
  - discriminate.
  - discriminate.
  - discriminate.
Defined.

(** X25. When the file cannot be written the handler answers with the
    error, and the rule is in the configuration in memory all the same,
    where the alert check will find it. *)
Theorem unsaved_rule_is_in_force (d : dict) (s : state) (h : string)
  (z : Z) :
  rule_map_is_dict (config_data s) ->
  dget d "hostname" VNone = VStr h ->
  h <> EmptyString ->
  (if truthy (dget d "threshold" VNone)
   then int (dget d "threshold" VNone) else Ok 0) = Ok z ->
  hd false (io s) = false ->
  fst (Web.save_alert_settings (VDict d) s)
  = Ok (Web.Rejected (Web.HandlerException OSError))
  /\ Web.stored_rule
       (config_data (snd (Web.save_alert_settings (VDict d) s))) (VStr h)
     = Some (rule_of d z).
Proof.
  intros Hd Hh Hne Hz Hio.
  destruct (with_rule_map_has s Hd) as (rules & Hl & _).
  rewrite (save_alert_settings_files d s h z rules Hh Hne Hz Hl).
  destruct (io s) as [|[] rest]; try discriminate Hio;
    (split; [reflexivity|]);
    unfold with_rule, Web.stored_rule; cbn [snd config_data set_world
                                              set_config_data];
    rewrite lookup_alert_settings_dset;
    apply lookup_dset_same; cbn; apply String.eqb_refl.
Qed.

Lemma unsaved_rule_is_in_force_witness :
  fst (Web.save_alert_settings (threshold_request "ap-01" (VInt 20))
         (set_world [] [false] [] idle_state))
  = Ok (Web.Rejected (Web.HandlerException OSError))
  /\ Web.stored_rule
       (config_data
          (snd (Web.save_alert_settings (threshold_request "ap-01" (VInt 20))
                  (set_world [] [false] [] idle_state))))
       (VStr "ap-01")
     = Some (rule_of [(VStr "hostname", VStr "ap-01");
                      (VStr "threshold", VInt 20);
                      (VStr "email_enabled", VBool true);
                      (VStr "syslog_enabled", VBool false)] 20).
Proof.
  refine (unsaved_rule_is_in_force
    [(VStr "hostname", VStr "ap-01"); (VStr "threshold", VInt 20);
     (VStr "email_enabled", VBool true); (VStr "syslog_enabled", VBool false)]
    (set_world [] [false] [] idle_state) "ap-01" 20 _ eq_refl _ eq_refl
    eq_refl).
  - intros v H. discriminate H.
  - discriminate.
Defined.

(** X26. A threshold that is not the text of an integer is turned down
    without a rule filed or a file written; but a configuration that had
    no rule map has an empty one from then on. *)
Theorem malformed_threshold_is_rejected (d : dict) (s : state) (e : exn) :
  truthy (dget d "hostname" VNone) = true ->
  truthy (dget d "threshold" VNone) = true ->
  int (dget d "threshold" VNone) = Raise e ->
  Web.save_alert_settings (VDict d) s
  = (Ok (Web.Rejected (Web.HandlerException e)), with_rule_map s).
Proof.
  intros Hh Ht He.
  unfold Web.save_alert_settings, try_except. cbn [get].
  rewrite !mbind_lift_ok, Hh. cbn [negb]. rewrite mbind_gets.
  assert (Hw : (when (negb (has_key (config_data s) "alert_settings"))
                  (modify (set_config_data
                             (dset (VStr "alert_settings") (VDict [])
                                   (config_data s))))) s
               = (Ok tt, with_rule_map s)).
  { unfold with_rule_map.
    destruct (has_key (config_data s) "alert_settings"); reflexivity. }
  rewrite (mbind_run _ _ _ _ _ Hw), Ht, He. reflexivity.
Qed.

Lemma malformed_threshold_is_rejected_witness :
  Web.save_alert_settings (threshold_request "ap-01" (VStr "ten"))
    (set_world [] [true] [] idle_state)
  = (Ok (Web.Rejected (Web.HandlerException ValueError)),
     with_rule_map (set_world [] [true] [] idle_state)).
Proof.
  exact (malformed_threshold_is_rejected
    [(VStr "hostname", VStr "ap-01"); (VStr "threshold", VStr "ten");
     (VStr "email_enabled", VBool true); (VStr "syslog_enabled", VBool false)]
    (set_world [] [true] [] idle_state) ValueError eq_refl eq_refl eq_refl).
Defined.

(** ** The key of a client *)

Lemma no_underscore_head (a b : string) (c : ascii) (r : string) :
  no_underscore a = true ->
  (a ++ "_" ++ b)%string = String c r ->
  (a = EmptyString /\ c = "_"%char) \/
  (exists a', a = String c a' /\ Ascii.eqb c "_" = false).
Proof.
  destruct a as [|x a']; cbn.
  - intros _ [= <- _]. left. split; reflexivity.
  - intros H [= <- _]. right. exists a'. split; [reflexivity|].
    apply andb_prop in H. destruct H as [H _].
    destruct (Ascii.eqb x "_"); [discriminate H | reflexivity].
Qed.

(** X27. Two pairs of controller address and user name have the same key
    only if they are the same pair, as long as the addresses hold no
    underscore; with an underscore in an address two different pairs can
    share a key. *)
Theorem client_key_is_injective (ip1 ip2 user1 user2 : string) :
  no_underscore ip1 = true ->
  no_underscore ip2 = true ->
  Monitor.get_client_key ip1 user1 = Monitor.get_client_key ip2 user2 ->
  ip1 = ip2 /\ user1 = user2.
Proof.
  unfold Monitor.get_client_key. revert ip2.
  induction ip1 as [|c ip1 IH]; intros ip2 H1 H2 E.
  - destruct ip2 as [|c2 ip2]; cbn in E.
    + injection E as ->. split; reflexivity.
    + injection E as <- _. cbn in H2. discriminate H2.
  - destruct ip2 as [|c2 ip2]; cbn in E.
    + injection E as -> _. cbn in H1. discriminate H1.
    + injection E as -> E. cbn in H1, H2.
      apply andb_prop in H1. destruct H1 as [_ H1].
      apply andb_prop in H2. destruct H2 as [_ H2].
      destruct (IH ip2 H1 H2 E) as [-> ->]. split; reflexivity.
Qed.

Lemma client_key_is_injective_witness :
  Monitor.get_client_key "10.0.60.60" "admin_ro" = "10.0.60.60_admin_ro"%string
  /\ "10.0.60.60"%string = "10.0.60.60"%string
  /\ "admin_ro"%string = "admin_ro"%string.
Proof.
  split; [reflexivity|].
  exact (client_key_is_injective "10.0.60.60" "10.0.60.60"
           "admin_ro" "admin_ro" eq_refl eq_refl eq_refl).
Defined.

Example client_keys_collide :
  Monitor.get_client_key "mc_1" "admin" = Monitor.get_client_key "mc" "1_admin".
Proof. reflexivity. Qed.

(** ** Recipients, path by path *)

(** *** Strings: reversal and stripping *)






Section Stripping.

Variable space : ascii -> bool.





End Stripping.





(** *** Strings: the parts between commas *)








(** *** The To header of every mail *)














(** The mails of the three, run: the headers differ by a space and list
    the same two recipients. *)
Example recipients_on_the_three_paths :
  to_headers
    (trace (snd (Notify.send_alert_notification alert_ap01
                   (started_state "a@example.com,b@example.com" all_ok))))
  = ["a@example.com,b@example.com"%string]
  /\ to_headers
       (trace (snd (Web.send_alert
                      (VDict [(VStr "hostname", VStr "ap-01");
                              (VStr "ap_value", VInt 12);
                              (VStr "threshold", VInt 10);
                              (VStr "alert_type", VStr "email")])
                      (started_state "a@example.com,b@example.com" all_ok))))
     = ["a@example.com,b@example.com"%string]
  /\ to_headers
       (trace (snd (Notify.send_email (ReportText [])
                      (snd (Web.save_config_api
                              (mail_form " a@example.com ,,b@example.com")
                              (set_world [] all_ok [] idle_state))))))
     = ["a@example.com, b@example.com"%string]
  /\ listed "a@example.com,b@example.com"
     = ["a@example.com"; "b@example.com"]%string
  /\ listed "a@example.com, b@example.com"
     = ["a@example.com"; "b@example.com"]%string.
Proof. repeat split; reflexivity. Qed.
